(** * Entity factories of the selenium test suite

    A shallow embedding of [test/selenium/src/lib/entities/entities_factory.py]
    and the properties its specification states about it.

    Python objects live in a store and are named by references; a factory is a
    computation that threads the store and the position in a stream of random
    draws, and either returns or raises.  The collaborators the module imports
    ([lib.constants], [lib.entities.entity], [lib.utils.string_utils], the
    object-count REST service) are collected in one record that every
    definition takes as a parameter. *)

From Stdlib Require Import ZArith Ascii.
From stdpp Require Import base option list strings gmap pretty.

Set Warnings "-register-all".
Local Open Scope Z_scope.

(** ** Python values *)

Inductive value : Type :=
  | VNone
  | VBool (b : bool)
  | VInt (z : Z)
  | VStr (s : string)
  | VList (l : list value).

#[global] Instance value_inhabited : Inhabited value := populate VNone.

(** An instance's attribute dictionary ([__dict__]) and a keyword-argument
    dictionary ([**arguments]). *)
Abbreviation obj := (gmap string value).
Abbreviation kwargs := (gmap string value).

(** [bool(v)]: the truth value Python tests in [if v] and [x and y]. *)
Definition truthy (v : value) : bool :=
  match v with
  | VNone => false
  | VBool b => b
  | VInt z => negb (z =? 0)
  | VStr s => negb (bool_decide (s = ""))
  | VList l => negb (bool_decide (l = []))
  end.

(** Numbers compare by value, and [bool] is a subtype of [int]. *)
Definition as_int (v : value) : option Z :=
  match v with
  | VBool b => Some (if b then 1 else 0)
  | VInt z => Some z
  | _ => None
  end.

(** [a == b]. *)
Fixpoint py_eq (a b : value) : bool :=
  match a, b with
  | VNone, VNone => true
  | VStr s, VStr t => bool_decide (s = t)
  | VList l, VList m =>
      (fix go (l m : list value) : bool :=
         match l, m with
         | [], [] => true
         | x :: l', y :: m' => py_eq x y && go l' m'
         | _, _ => false
         end) l m
  | _, _ =>
      match as_int a, as_int b with
      | Some x, Some y => x =? y
      | _, _ => false
      end
  end.

(** [dict.get(key)]: the value, or [None] for a missing key. *)
Definition dict_get (d : kwargs) (key : string) : value :=
  default VNone (d !! key).

(** ** Strings *)

(** [str.upper()] of a byte string in the C locale. *)
Definition upper_char (c : ascii) : ascii :=
  let n := nat_of_ascii c in
  if (97 <=? n)%nat && (n <=? 122)%nat then ascii_of_nat (n - 32) else c.

Fixpoint upper (s : string) : string :=
  match s with
  | EmptyString => EmptyString
  | String c s' => String (upper_char c) (upper s')
  end.

(** [str(n)] of an integer. *)
Definition str_int (z : Z) : string := pretty z.

(** [\d] in a pattern applied to a byte string. *)
Definition is_digit (c : ascii) : bool :=
  match Ascii.is_nat c with Some _ => true | None => false end.

(** The longest run of digits at the front of [s], and what follows it: what
    a greedy [\d*] consumes. *)
Fixpoint span_digits (s : string) : string * string :=
  match s with
  | EmptyString => (EmptyString, EmptyString)
  | String c s' =>
      if is_digit c
      then let '(d, r) := span_digits s' in (String c d, r)
      else (EmptyString, s)
  end.

(** [$] without [re.MULTILINE]: the end of the string, or just before a
    newline that is the last character. *)
Definition at_end (r : string) : bool :=
  bool_decide (r = "") || bool_decide (r = String "010"%char "").

(** [re.sub("\d+$", repl, s)] for a replacement [repl] without backslashes.
    The search tries each start position from the left.  At a position the
    greedy [\d+] takes the whole run of digits; [$] must then hold for the
    rest, and giving digits back cannot help, because the rest would start
    with a digit.  After a match the rest is empty or a lone newline, so
    nothing further can match and it is copied unchanged. *)
Fixpoint re_sub_digits_end (repl s : string) : string :=
  match s with
  | EmptyString => EmptyString
  | String c s' =>
      let '(d, r) := span_digits s in
      if negb (bool_decide (d = "")) && at_end r
      then repl +:+ r
      else String c (re_sub_digits_end repl s')
  end.

(** ** Computations: store, random draws, exceptions *)

Inductive exn : Type :=
  | TypeError
  | AttributeError
  | KeyError
  | IndexError
  | ServiceError.

Inductive res (A : Type) : Type :=
  | Ok (a : A)
  | Raise (e : exn).
Arguments Ok {A} a.
Arguments Raise {A} e.

(** A reference is the index of an object in the store; objects are never
    freed, and a new object goes at the end. *)
Definition loc := nat.

Record state : Type := State {
  heap : list obj;
  draws : nat;
}.

Definition M (A : Type) : Type := state -> res (A * state).

#[global] Instance M_ret : MRet M := fun A a s => Ok (a, s).
#[global] Instance M_bind : MBind M := fun A B f m s =>
  match m s with
  | Ok (a, s') => f a s'
  | Raise e => Raise e
  end.

Definition raise {A} (e : exn) : M A := fun _ => Raise e.

Definition lift {A} (r : res A) : M A := fun s =>
  match r with
  | Ok a => Ok (a, s)
  | Raise e => Raise e
  end.

(** [for x in xs: body(x)] *)
Fixpoint for_each {A} (xs : list A) (body : A -> M unit) : M unit :=
  match xs with
  | [] => mret tt
  | x :: xs' => body x ;; for_each xs' body
  end.

(** [[f(x) for x in xs]] *)
Fixpoint list_comp {A B} (xs : list A) (f : A -> M B) : M (list B) :=
  match xs with
  | [] => mret []
  | x :: xs' => y ← f x; ys ← list_comp xs' f; mret (y :: ys)
  end.

(** Instantiating a class whose fresh instances carry the attributes [o]. *)
Definition new_object (o : obj) : M loc := fun s =>
  Ok (length (heap s), State (heap s ++ [o]) (draws s)).

(** [getattr(l, name)] *)
Definition getattr (l : loc) (name : string) : M value := fun s =>
  match heap s !! l with
  | Some o =>
      match o !! name with
      | Some v => Ok (v, s)
      | None => Raise AttributeError
      end
  | None => Raise AttributeError
  end.

(** [setattr(l, name, v)] *)
Definition setattr (l : loc) (name : string) (v : value) : M unit := fun s =>
  match heap s !! l with
  | Some o => Ok (tt, State (<[l := <[name := v]> o]> (heap s)) (draws s))
  | None => Raise AttributeError
  end.

(** [copy.deepcopy(l)]: attribute values are immutable trees here, so a deep
    copy is a new object with the same attribute dictionary. *)
Definition deepcopy (l : loc) : M loc := fun s =>
  match heap s !! l with
  | Some o => new_object o s
  | None => Raise AttributeError
  end.

(** [a + b] *)
Definition py_add (a b : value) : res value :=
  match a, b with
  | VStr s, VStr t => Ok (VStr (s +:+ t))
  | VList l, VList m => Ok (VList (l ++ m))
  | _, _ =>
      match as_int a, as_int b with
      | Some x, Some y => Ok (VInt (x + y))
      | _, _ => Raise TypeError
      end
  end.

(** [re.sub("\d+$", repl, v)]: a [TypeError] unless [v] is a string. *)
Definition re_sub (repl : string) (v : value) : res value :=
  match v with
  | VStr s => Ok (VStr (re_sub_digits_end repl s))
  | _ => Raise TypeError
  end.

(** [d[key]] *)
Definition dict_index (d : kwargs) (key : string) : res value :=
  match d !! key with
  | Some v => Ok v
  | None => Raise KeyError
  end.

(** ** Collaborators *)

(** The classes of [lib.entities.entity]. *)
Inductive entity_class : Type :=
  | PersonEntity
  | CustomAttributeEntity
  | ProgramEntity
  | ControlEntity
  | AuditEntity
  | AssessmentTemplateEntity
  | AssessmentEntity
  | IssueEntity.

(** What the module imports and does not define.  Constants whose type the
    factories do not depend on are arbitrary values.

    - [get_normal_form v with_space] is [objects.get_normal_form]; the second
      argument is the keyword [with_space], [None] when the call leaves it
      out.
    - [entity_new c] is the attribute dictionary of a fresh instance of the
      class [c], and [attrs_names_all_entities] is what
      [Entity().attrs_names_all_entities()] returns.
    - [uuid_token r] is the token [random_uuid] makes of the random number
      [r]; [random_string_size] and [random_string_chars] are the defaults
      of [random_string].
    - [get_total_count name] is [ObjectsInfoService().get_total_count]: a
      count, or the exception the service raised.
    - [str_list] is the builtin [str] of a list, and [entropy] the stream of
      numbers behind the [random] module. *)
Class collaborators : Type := {
  (* lib.constants.objects *)
  PEOPLE : string;
  PROGRAMS : string;
  CONTROLS : string;
  AUDITS : string;
  ASSESSMENT_TEMPLATES : string;
  ASSESSMENTS : string;
  ISSUES : string;
  ALL_CA_OBJECTS : list value;
  get_singular : string -> string;
  get_normal_form : value -> option bool -> res value;
  (* lib.constants.roles *)
  DEFAULT_USER : value;
  NO_ROLE : value;
  SUPERUSER : value;
  OBJECT_OWNERS : value;
  (* lib.constants.url *)
  DEFAULT_EMAIL_DOMAIN : value;
  DEFAULT_USER_HREF : value;
  DEFAULT_USER_EMAIL : value;
  (* lib.constants.element *)
  ObjectStates_DRAFT : value;
  AuditStates_PLANNED : value;
  AssessmentStates_NOT_STARTED : value;
  IssueStates_DRAFT : value;
  Common_FALSE : value;
  (* lib.constants.element.AdminWidgetCustomAttrs *)
  ALL_ATTRS_TYPES : list value;
  TEXT : value;
  RICH_TEXT : value;
  DROPDOWN : value;
  (* lib.entities.entity *)
  entity_new : entity_class -> obj;
  attrs_names_all_entities : list string;
  (* lib.utils.string_utils *)
  SPECIAL : string;
  uuid_token : nat -> string;
  random_string_size : nat;
  random_string_chars : string;
  (* lib.service.rest_service *)
  get_total_count : value -> res Z;
  (* builtins *)
  str_list : list value -> string;
  entropy : nat -> nat;
}.

Section builtins.
Context `{!collaborators}.

(** [str(v)], which is also what [format] puts in place of a bare field. *)
Definition py_str (v : value) : string :=
  match v with
  | VNone => "None"
  | VBool true => "True"
  | VBool false => "False"
  | VInt z => str_int z
  | VStr s => s
  | VList l => str_list l
  end.

(** *** Randomness *)

Definition draw : M nat := fun s =>
  Ok (entropy (draws s), State (heap s) (S (draws s))).

(** [random.choice(seq)]: an [IndexError] on an empty sequence. *)
Definition random_choice {A} (seq : list A) : M A :=
  r ← draw;
  match seq !! (r mod length seq)%nat with
  | Some x => mret x
  | None => raise IndexError
  end.

(** Modelled from the spec: [string_utils.random_uuid], which is not among
    the sources; it "produces a random unique token string". *)
Definition random_uuid : M string :=
  r ← draw; mret (uuid_token r).

(** Modelled from the spec: [string_utils.random_string], which is not among
    the sources; a "random string of special characters" of the given size,
    each character chosen from [chars]. *)
Fixpoint random_string (size : nat) (chars : list ascii) : M string :=
  match size with
  | O => mret EmptyString
  | S n => c ← random_choice chars; rest ← random_string n chars; mret (String c rest)
  end.

(** Modelled from the spec: [string_utils.random_list_strings], which is not
    among the sources; [list_len] random strings. *)
Definition random_list_strings (list_len : nat) : M (list string) :=
  list_comp (seq 0 list_len)
    (fun _ => random_string random_string_size (String.list_ascii_of_string random_string_chars)).

(** [xrange(a, b)] *)
Definition xrange (a b : Z) : list Z :=
  (fun i => a + Z.of_nat i) <$> seq 0 (Z.to_nat (b - a)).

(** [enumerate(xs, start)] *)
Definition enumerate {A} (xs : list A) (start : Z) : list (Z * A) :=
  imap (fun i x => (start + Z.of_nat i, x)) xs.

(** A literal keyword-argument dictionary. *)
Definition kw (items : list (string * value)) : kwargs := list_to_map items.

(** [v is None] *)
Definition is_None (v : value) : bool :=
  match v with VNone => true | _ => false end.

End builtins.

#[global] Arguments kw : simpl never.

(** ** [class EntitiesFactory] *)

Module EntitiesFactory.
Section with_collaborators.
Context `{!collaborators}.

Definition _obj_person : string := get_singular PEOPLE.
Definition _obj_program : string := get_singular PROGRAMS.
Definition _obj_control : string := get_singular CONTROLS.
Definition _obj_audit : string := get_singular AUDITS.
Definition _obj_asmt_tmpl : string := get_singular ASSESSMENT_TEMPLATES.
Definition _obj_asmt : string := get_singular ASSESSMENTS.
Definition _obj_issue : string := get_singular ISSUES.

Definition all_objs_attrs_names : list string := attrs_names_all_entities.

Definition update_obj_attrs_values
    (obj : loc) (attrs_names : list string) (arguments : kwargs) : M loc :=
  for_each attrs_names (fun attr_name =>
    if truthy (dict_get arguments attr_name)
    then v ← lift (dict_index arguments attr_name); setattr obj attr_name v
    else mret tt);;
  mret obj.

Definition _generate_title (obj_type : value) : M string :=
  let special_chars := SPECIAL in
  uuid ← random_uuid;
  rand_str ← random_string (String.length special_chars)
                           (String.list_ascii_of_string special_chars);
  mret (py_str obj_type +:+ "_" +:+ uuid +:+ "_" +:+ rand_str).

Definition _generate_code : M string :=
  code ← random_uuid; mret code.

Definition _generate_email (domain : value) : M string :=
  mail_name ← random_uuid;
  mret (mail_name +:+ "@" +:+ py_str domain).

End with_collaborators.
End EntitiesFactory.

(** ** [class PersonsFactory(EntitiesFactory)] *)

Module PersonsFactory.
Import EntitiesFactory.
Section with_collaborators.
Context `{!collaborators}.

Definition _create_random_person : M loc :=
  random_person ← new_object (entity_new PersonEntity);
  title ← _generate_title (VStr _obj_person);
  setattr random_person "title" (VStr title);;
  setattr random_person "type" (VStr _obj_person);;
  email ← _generate_email DEFAULT_EMAIL_DOMAIN;
  setattr random_person "email" (VStr email);;
  setattr random_person "authorizations" NO_ROLE;;
  mret random_person.

Definition create (title id href url type email authorizations : value) : M loc :=
  person_entity ← _create_random_person;
  person_entity ← update_obj_attrs_values person_entity all_objs_attrs_names
    (kw [("title", title); ("id", id); ("href", href); ("url", url);
         ("type", type); ("email", email); ("authorizations", authorizations)]);
  mret person_entity.

Definition default : M loc :=
  create DEFAULT_USER (VInt 1) DEFAULT_USER_HREF VNone VNone
         DEFAULT_USER_EMAIL SUPERUSER.

End with_collaborators.
End PersonsFactory.

(** ** [class CAFactory(EntitiesFactory)] *)

Module CAFactory.
Import EntitiesFactory.
Section with_collaborators.
Context `{!collaborators}.

Definition _create_random_ca : M loc :=
  random_ca ← new_object (entity_new CustomAttributeEntity);
  ca_type ← random_choice ALL_ATTRS_TYPES;
  setattr random_ca "ca_type" ca_type;;
  ca_type ← getattr random_ca "ca_type";
  title ← _generate_title ca_type;
  setattr random_ca "title" (VStr title);;
  definition_type ← random_choice ALL_CA_OBJECTS;
  setattr random_ca "definition_type" definition_type;;
  mret random_ca.

Definition _fill_ca_entity_fields (ca_object : loc) (ca_object_fields : kwargs) : M loc :=
  (if truthy (dict_get ca_object_fields "ca_type")
   then
     v ← lift (dict_index ca_object_fields "ca_type");
     setattr ca_object "ca_type" v;;
     ca_type ← getattr ca_object "ca_type";
     title ← _generate_title ca_type;
     setattr ca_object "title" (VStr title)
   else mret tt);;
  (if truthy (dict_get ca_object_fields "definition_type")
   then
     v ← lift (dict_index ca_object_fields "definition_type");
     setattr ca_object "definition_type" v
   else mret tt);;
  (if truthy (dict_get ca_object_fields "title")
   then
     v ← lift (dict_index ca_object_fields "definition_type");
     setattr ca_object "title" v
   else mret tt);;
  (* "Placeholder" field exists only for Text and Rich Text. *)
  (if truthy (dict_get ca_object_fields "placeholder")
   then
     ca_type ← getattr ca_object "ca_type";
     if py_eq ca_type TEXT || py_eq ca_type RICH_TEXT
     then
       v ← lift (dict_index ca_object_fields "placeholder");
       setattr ca_object "placeholder" v
     else mret tt
   else mret tt);;
  (if truthy (dict_get ca_object_fields "helptext")
   then
     v ← lift (dict_index ca_object_fields "helptext");
     setattr ca_object "helptext" v
   else mret tt);;
  (if truthy (dict_get ca_object_fields "is_mandatory")
   then
     v ← lift (dict_index ca_object_fields "is_mandatory");
     setattr ca_object "is_mandatory" v
   else mret tt);;
  (if truthy (dict_get ca_object_fields "ca_global")
   then
     v ← lift (dict_index ca_object_fields "ca_global");
     setattr ca_object "ca_global" v
   else mret tt);;
  (* "Possible Values" - is a mandatory field for dropdown CustomAttribute. *)
  ca_type ← getattr ca_object "ca_type";
  (if py_eq ca_type DROPDOWN
   then
     given ← (if truthy (dict_get ca_object_fields "multi_choice_options")
              then
                v ← lift (dict_index ca_object_fields "multi_choice_options");
                mret (negb (is_None v))
              else mret false);
     if given : bool
     then
       v ← lift (dict_index ca_object_fields "multi_choice_options");
       setattr ca_object "multi_choice_options" v
     else
       options ← random_list_strings 3;
       setattr ca_object "multi_choice_options" (VList (VStr <$> options))
   else mret tt);;
  mret ca_object.

Definition _normalize_ca_definition_type (ca_object : loc) : M loc :=
  definition_type ← getattr ca_object "definition_type";
  normal ← lift (get_normal_form definition_type None);
  setattr ca_object "definition_type" normal;;
  mret ca_object.

Definition create
    (title ca_type definition_type helptext placeholder multi_choice_options
       is_mandatory ca_global : value) : M loc :=
  ca_entity ← _create_random_ca;
  ca_entity ← _fill_ca_entity_fields ca_entity
    (kw [("title", title); ("ca_type", ca_type);
         ("definition_type", definition_type); ("helptext", helptext);
         ("placeholder", placeholder);
         ("multi_choice_options", multi_choice_options);
         ("is_mandatory", is_mandatory); ("ca_global", ca_global)]);
  ca_entity ← _normalize_ca_definition_type ca_entity;
  mret ca_entity.

End with_collaborators.
End CAFactory.

(** ** [class ProgramsFactory(EntitiesFactory)] *)

Module ProgramsFactory.
Import EntitiesFactory.
Section with_collaborators.
Context `{!collaborators}.

Definition _create_random_program : M loc :=
  random_program ← new_object (entity_new ProgramEntity);
  title ← _generate_title (VStr _obj_program);
  setattr random_program "title" (VStr title);;
  setattr random_program "type" (VStr _obj_program);;
  code ← _generate_code;
  setattr random_program "code" (VStr code);;
  setattr random_program "manager" DEFAULT_USER;;
  setattr random_program "primary_contact" DEFAULT_USER;;
  setattr random_program "state" ObjectStates_DRAFT;;
  mret random_program.

Definition create
    (title id href url type manager primary_contact code state
       last_update : value) : M loc :=
  program_entity ← _create_random_program;
  program_entity ← update_obj_attrs_values program_entity all_objs_attrs_names
    (kw [("title", title); ("id", id); ("href", href); ("url", url);
         ("type", type); ("manager", manager);
         ("primary_contact", primary_contact); ("code", code);
         ("state", state); ("last_update", last_update)]);
  mret program_entity.

End with_collaborators.
End ProgramsFactory.

(** ** [class ControlsFactory(EntitiesFactory)] *)

Module ControlsFactory.
Import EntitiesFactory.
Section with_collaborators.
Context `{!collaborators}.

Definition _create_random_control : M loc :=
  random_control ← new_object (entity_new ControlEntity);
  title ← _generate_title (VStr _obj_control);
  setattr random_control "title" (VStr title);;
  setattr random_control "type" (VStr _obj_control);;
  code ← _generate_code;
  setattr random_control "code" (VStr code);;
  setattr random_control "owner" DEFAULT_USER;;
  setattr random_control "primary_contact" DEFAULT_USER;;
  setattr random_control "state" ObjectStates_DRAFT;;
  mret random_control.

Definition create
    (title id href url type owner primary_contact code state
       last_update : value) : M loc :=
  control_entity ← _create_random_control;
  control_entity ← update_obj_attrs_values control_entity all_objs_attrs_names
    (kw [("title", title); ("id", id); ("href", href); ("url", url);
         ("type", type); ("owner", owner);
         ("primary_contact", primary_contact); ("code", code);
         ("state", state); ("last_update", last_update)]);
  mret control_entity.

End with_collaborators.
End ControlsFactory.

(** ** [class AuditsFactory(EntitiesFactory)] *)

Module AuditsFactory.
Import EntitiesFactory.
Section with_collaborators.
Context `{!collaborators}.

Definition clone (audit : loc) (count_to_clone : Z) : M (option (list loc)) :=
  obj_name ← lift (get_normal_form (VStr _obj_audit) (Some false));
  actual_count_all_audits ← lift (get_total_count obj_name);
  audit_id ← getattr audit "id";
  if py_eq (VInt actual_count_all_audits) audit_id
  then
    clones ← list_comp (xrange 1 (count_to_clone + 1)) (fun num =>
      copied ← deepcopy audit;
      t ← getattr audit "title";
      t ← lift (py_add t (VStr " - copy "));
      title ← lift (py_add t (VStr (py_str (VInt num))));
      i ← getattr audit "id";
      id ← lift (py_add i (VInt num));
      i ← getattr audit "id";
      n ← lift (py_add i (VInt num));
      h ← getattr audit "href";
      href ← lift (re_sub (py_str n) h);
      i ← getattr audit "id";
      n ← lift (py_add i (VInt num));
      u ← getattr audit "url";
      url ← lift (re_sub (py_str n) u);
      i ← getattr audit "id";
      n ← lift (py_add i (VInt num));
      code ← lift (py_add (VStr (upper _obj_audit +:+ "-")) (VStr (py_str n)));
      update_obj_attrs_values copied all_objs_attrs_names
        (kw [("title", title); ("id", id); ("href", href); ("url", url);
             ("code", code)]));
    mret (Some clones)
  else mret None.

Definition _create_random_audit : M loc :=
  random_audit ← new_object (entity_new AuditEntity);
  title ← _generate_title (VStr _obj_audit);
  setattr random_audit "title" (VStr title);;
  setattr random_audit "type" (VStr _obj_audit);;
  code ← _generate_code;
  setattr random_audit "code" (VStr code);;
  setattr random_audit "audit_lead" DEFAULT_USER;;
  setattr random_audit "status" AuditStates_PLANNED;;
  mret random_audit.

Definition create
    (title id href url type program audit_lead code status
       last_update : value) : M loc :=
  audit_entity ← _create_random_audit;
  audit_entity ← update_obj_attrs_values audit_entity all_objs_attrs_names
    (kw [("title", title); ("id", id); ("href", href); ("url", url);
         ("type", type); ("program", program); ("audit_lead", audit_lead);
         ("code", code); ("status", status); ("last_update", last_update)]);
  mret audit_entity.

End with_collaborators.
End AuditsFactory.

(** ** [class AssessmentTemplatesFactory(EntitiesFactory)] *)

Module AssessmentTemplatesFactory.
Import EntitiesFactory.
Section with_collaborators.
Context `{!collaborators}.

Definition clone (asmt_tmpl : loc) (count_to_clone : Z) : M (option (list loc)) :=
  obj_name ← lift (get_normal_form (VStr _obj_asmt_tmpl) (Some false));
  actual_count_all_asmt_tmpls ← lift (get_total_count obj_name);
  asmt_tmpl_id ← getattr asmt_tmpl "id";
  if py_eq (VInt actual_count_all_asmt_tmpls) asmt_tmpl_id
  then
    clones ← list_comp (xrange 1 (count_to_clone + 1)) (fun num =>
      copied ← deepcopy asmt_tmpl;
      i ← getattr asmt_tmpl "id";
      id ← lift (py_add i (VInt num));
      i ← getattr asmt_tmpl "id";
      n ← lift (py_add i (VInt num));
      h ← getattr asmt_tmpl "href";
      href ← lift (re_sub (py_str n) h);
      i ← getattr asmt_tmpl "id";
      n ← lift (py_add i (VInt num));
      u ← getattr asmt_tmpl "url";
      url ← lift (re_sub (py_str n) u);
      i ← getattr asmt_tmpl "id";
      n ← lift (py_add i (VInt num));
      code ← lift (py_add (VStr "TEMPLATE-") (VStr (py_str n)));
      update_obj_attrs_values copied all_objs_attrs_names
        (kw [("id", id); ("href", href); ("url", url); ("code", code)]));
    mret (Some clones)
  else mret None.

Definition _create_random_asmt_tmpl : M loc :=
  random_asmt_tmpl ← new_object (entity_new AssessmentTemplateEntity);
  title ← _generate_title (VStr _obj_asmt_tmpl);
  setattr random_asmt_tmpl "title" (VStr title);;
  setattr random_asmt_tmpl "type" (VStr _obj_asmt_tmpl);;
  code ← _generate_code;
  setattr random_asmt_tmpl "code" (VStr code);;
  setattr random_asmt_tmpl "asmt_objects" (VStr CONTROLS);;
  setattr random_asmt_tmpl "def_assessors" OBJECT_OWNERS;;
  setattr random_asmt_tmpl "def_verifiers" OBJECT_OWNERS;;
  mret random_asmt_tmpl.

Definition create
    (title id href url type audit asmt_objects def_assessors def_verifiers
       code last_update : value) : M loc :=
  asmt_tmpl_entity ← _create_random_asmt_tmpl;
  asmt_tmpl_entity ← update_obj_attrs_values asmt_tmpl_entity all_objs_attrs_names
    (kw [("title", title); ("id", id); ("href", href); ("url", url);
         ("type", type); ("audit", audit); ("asmt_objects", asmt_objects);
         ("def_assessors", def_assessors); ("def_verifiers", def_verifiers);
         ("code", code); ("last_update", last_update)]);
  mret asmt_tmpl_entity.

End with_collaborators.
End AssessmentTemplatesFactory.

(** ** [class AssessmentsFactory(EntitiesFactory)] *)

Module AssessmentsFactory.
Import EntitiesFactory.
Section with_collaborators.
Context `{!collaborators}.

Definition _create_random_asmt : M loc :=
  random_asmt ← new_object (entity_new AssessmentEntity);
  title ← _generate_title (VStr _obj_asmt);
  setattr random_asmt "title" (VStr title);;
  setattr random_asmt "type" (VStr _obj_asmt);;
  code ← _generate_code;
  setattr random_asmt "code" (VStr code);;
  setattr random_asmt "object" DEFAULT_USER;;
  setattr random_asmt "creators" DEFAULT_USER;;
  setattr random_asmt "assignees" DEFAULT_USER;;
  setattr random_asmt "state" AssessmentStates_NOT_STARTED;;
  setattr random_asmt "is_verified" Common_FALSE;;
  mret random_asmt.

Definition create
    (title id href url type object audit creators assignees primary_contact
       is_verified code state last_update : value) : M loc :=
  asmt_entity ← _create_random_asmt;
  asmt_entity ← update_obj_attrs_values asmt_entity all_objs_attrs_names
    (kw [("title", title); ("id", id); ("href", href); ("url", url);
         ("type", type); ("object", object); ("audit", audit);
         ("creators", creators); ("assignees", assignees);
         ("primary_contact", primary_contact); ("is_verified", is_verified);
         ("code", code); ("state", state); ("last_update", last_update)]);
  mret asmt_entity.

Definition generate (objs_under_asmt_tmpl : list loc) (audit : loc) : M (list loc) :=
  obj_name ← lift (get_normal_form (VStr _obj_asmt) (Some false));
  actual_count_all_asmts ← lift (get_total_count obj_name);
  list_comp (enumerate objs_under_asmt_tmpl (actual_count_all_asmts + 1))
    (fun '(asmt_number, obj_under_asmt_tmpl) =>
      t ← getattr obj_under_asmt_tmpl "title";
      t ← lift (py_add t (VStr " assessment for "));
      a ← getattr audit "title";
      title ← lift (py_add t a);
      code ← lift (py_add (VStr (upper _obj_asmt +:+ "-"))
                          (VStr (py_str (VInt asmt_number))));
      audit_title ← getattr audit "title";
      create title VNone VNone VNone VNone VNone audit_title VNone VNone VNone
             VNone code VNone VNone).

End with_collaborators.
End AssessmentsFactory.

(** ** [class IssuesFactory(EntitiesFactory)] *)

Module IssuesFactory.
Import EntitiesFactory.
Section with_collaborators.
Context `{!collaborators}.

Definition _create_random_issue : M loc :=
  random_issue ← new_object (entity_new IssueEntity);
  title ← _generate_title (VStr _obj_issue);
  setattr random_issue "title" (VStr title);;
  setattr random_issue "type" (VStr _obj_issue);;
  code ← _generate_code;
  setattr random_issue "code" (VStr code);;
  setattr random_issue "owner" DEFAULT_USER;;
  setattr random_issue "primary_contact" DEFAULT_USER;;
  setattr random_issue "state" IssueStates_DRAFT;;
  mret random_issue.

Definition create
    (title id href url type audit owner primary_contact code state
       last_update : value) : M loc :=
  issue_entity ← _create_random_issue;
  issue_entity ← update_obj_attrs_values issue_entity all_objs_attrs_names
    (kw [("title", title); ("id", id); ("href", href); ("url", url);
         ("type", type); ("audit", audit); ("owner", owner);
         ("primary_contact", primary_contact); ("code", code);
         ("state", state); ("last_update", last_update)]);
  mret issue_entity.

End with_collaborators.
End IssuesFactory.

(** ** Pure counterparts used to state the results *)

(** What the loop of [update_obj_attrs_values] leaves in the attribute
    dictionary [o]. *)
Definition apply_overrides (attrs_names : list string) (arguments : kwargs) (o : obj) : obj :=
  foldl (fun o attr_name =>
           if truthy (dict_get arguments attr_name)
           then <[attr_name := dict_get arguments attr_name]> o
           else o)
        o attrs_names.

(** The store with the object at [l] replaced. *)
Definition store (s : state) (l : loc) (o : obj) : state :=
  State (<[l := o]> (heap s)) (draws s).

(** What a literal keyword-argument dictionary holds under a key: the first
    pair with that key. *)
Fixpoint assoc (key : string) (items : list (string * value)) : option value :=
  match items with
  | [] => None
  | (k, v) :: items' => if String.eqb k key then Some v else assoc key items'
  end.

(** The domain types that have a factory with a [create] taking the common
    override arguments. *)
Inductive domain_type : Type :=
  | Person
  | Program
  | Control
  | Audit
  | AssessmentTemplate
  | Assessment
  | Issue.

Section domain_types.
Context `{!collaborators}.

(** The plural name [lib.constants.objects] has for a domain type, and its
    canonical singular name. *)
Definition plural_name (T : domain_type) : string :=
  match T with
  | Person => PEOPLE
  | Program => PROGRAMS
  | Control => CONTROLS
  | Audit => AUDITS
  | AssessmentTemplate => ASSESSMENT_TEMPLATES
  | Assessment => ASSESSMENTS
  | Issue => ISSUES
  end.

Definition canonical_singular_name (T : domain_type) : string :=
  get_singular (plural_name T).

(** [create()] of the factory of a domain type: every argument is left at its
    default, [None]. *)
Definition create_no_overrides (T : domain_type) : M loc :=
  match T with
  | Person =>
      PersonsFactory.create VNone VNone VNone VNone VNone VNone VNone
  | Program =>
      ProgramsFactory.create VNone VNone VNone VNone VNone VNone VNone VNone
                             VNone VNone
  | Control =>
      ControlsFactory.create VNone VNone VNone VNone VNone VNone VNone VNone
                             VNone VNone
  | Audit =>
      AuditsFactory.create VNone VNone VNone VNone VNone VNone VNone VNone
                           VNone VNone
  | AssessmentTemplate =>
      AssessmentTemplatesFactory.create VNone VNone VNone VNone VNone VNone
                                        VNone VNone VNone VNone VNone
  | Assessment =>
      AssessmentsFactory.create VNone VNone VNone VNone VNone VNone VNone
                                VNone VNone VNone VNone VNone VNone VNone
  | Issue =>
      IssuesFactory.create VNone VNone VNone VNone VNone VNone VNone VNone
                           VNone VNone VNone
  end.

End domain_types.

Section counts.
Context `{!collaborators}.

(** What [ObjectsInfoService().get_total_count] answers for the type name
    [name], asked the way [clone] and [generate] ask:
    [get_total_count(obj_name=get_normal_form(name, with_space=False))]. *)
Definition total_count (name : string) : res Z :=
  match get_normal_form (VStr name) (Some false) with
  | Ok obj_name => get_total_count obj_name
  | Raise e => Raise e
  end.

(** The attribute dictionary of the [num]-th copy [AuditsFactory.clone]
    makes of an audit with attributes [o], id [N], title [t], href [hr] and
    url [u]. *)
Definition audit_copy (o : obj) (N : Z) (t hr u : string) (num : Z) : obj :=
  apply_overrides EntitiesFactory.all_objs_attrs_names
    (kw [("title", VStr ((t +:+ " - copy ") +:+ str_int num));
         ("id", VInt (N + num));
         ("href", VStr (re_sub_digits_end (str_int (N + num)) hr));
         ("url", VStr (re_sub_digits_end (str_int (N + num)) u));
         ("code", VStr ((upper EntitiesFactory._obj_audit +:+ "-")
                        +:+ str_int (N + num)))])
    o.

(** The same for [AssessmentTemplatesFactory.clone]. *)
Definition asmt_tmpl_copy (o : obj) (N : Z) (hr u : string) (num : Z) : obj :=
  apply_overrides EntitiesFactory.all_objs_attrs_names
    (kw [("id", VInt (N + num));
         ("href", VStr (re_sub_digits_end (str_int (N + num)) hr));
         ("url", VStr (re_sub_digits_end (str_int (N + num)) u));
         ("code", VStr ("TEMPLATE-" +:+ str_int (N + num)))])
    o.

End counts.

(** *** What [clone] promises *)

(** The names in [names] are all among [all_objs_attrs_names], so that
    [update_obj_attrs_values] lets overrides for them through. *)
Definition allows `{!collaborators} (names : list string) : Prop :=
  Forall (fun name => name ∈ EntitiesFactory.all_objs_attrs_names) names.

(** [c] has the given identity fields and agrees with [o] on every other
    attribute. *)
Definition is_clone_of (o c : obj) (title : string) (id : Z) (href url code : string) : Prop :=
  c !! "title" = Some (VStr title) /\
  c !! "id" = Some (VInt id) /\
  c !! "href" = Some (VStr href) /\
  c !! "url" = Some (VStr url) /\
  c !! "code" = Some (VStr code) /\
  forall key, key ∉ ["title"; "id"; "href"; "url"; "code"] -> c !! key = o !! key.

(** The run [r], started in [s], returned a list of [k] references to
    objects that are new, distinct from one another, and such that the
    [n]-th (from 1) satisfies [nth_is n]; every object of [s] is still what
    it was. *)
Definition returns_copies (r : res (option (list loc) * state)) (s : state)
    (k : Z) (nth_is : nat -> obj -> Prop) : Prop :=
  exists (clones : list loc) (s' : state),
    r = Ok (Some clones, s') /\
    length clones = Z.to_nat k /\
    NoDup clones /\
    (forall l x, heap s !! l = Some x -> heap s' !! l = Some x) /\
    forall n : nat, (1 <= n <= Z.to_nat k)%nat ->
      exists (l : loc) (c : obj),
        clones !! (n - 1)%nat = Some l /\
        (length (heap s) <= l)%nat /\
        heap s' !! l = Some c /\
        nth_is n c.

(** The object behind [l] in the store of [s] has the string [t] as its
    [title]. *)
Definition has_title (s : state) (l : loc) (t : string) : Prop :=
  exists o : obj, heap s !! l = Some o /\ o !! "title" = Some (VStr t).

(** What [generate] leaves in the assessment [c] made for the numbered
    object [x], under the audit titled [audit_title]. *)
Definition generated `{!collaborators} (s : state) (audit_title : string)
    (x : Z * loc) (c : obj) : Prop :=
  forall t, has_title s x.2 t ->
    c !! "title" = Some (VStr (t +:+ " assessment for " +:+ audit_title)) /\
    c !! "code" = Some (VStr (upper EntitiesFactory._obj_asmt +:+ "-" +:+ str_int x.1)) /\
    c !! "audit" = Some (VStr audit_title).

(** *** The custom-attribute factory, without the store *)

Section ca_pure.
Context `{!collaborators}.

(** [o.ca_type] *)
Definition ca_type_of (o : obj) : value := default VNone (o !! "ca_type").

Definition set_if (b : bool) (name : string) (v : value) (o : obj) : obj :=
  if b then <[name := v]> o else o.

(** What [_fill_ca_entity_fields] makes of the attribute dictionary [o] when
    the title it generates is [title1] and the random options are
    [options]. *)
Definition fill_ca (f : kwargs) (title1 : string) (options : list string) (o : obj) : obj :=
  let o := if truthy (dict_get f "ca_type")
           then <["title" := VStr title1]> (<["ca_type" := dict_get f "ca_type"]> o)
           else o in
  let o := set_if (truthy (dict_get f "definition_type"))
             "definition_type" (dict_get f "definition_type") o in
  let o := set_if (truthy (dict_get f "title"))
             "title" (dict_get f "definition_type") o in
  let o := set_if (truthy (dict_get f "placeholder") &&
                   (py_eq (ca_type_of o) TEXT || py_eq (ca_type_of o) RICH_TEXT))
             "placeholder" (dict_get f "placeholder") o in
  let o := set_if (truthy (dict_get f "helptext"))
             "helptext" (dict_get f "helptext") o in
  let o := set_if (truthy (dict_get f "is_mandatory"))
             "is_mandatory" (dict_get f "is_mandatory") o in
  let o := set_if (truthy (dict_get f "ca_global"))
             "ca_global" (dict_get f "ca_global") o in
  set_if (py_eq (ca_type_of o) DROPDOWN) "multi_choice_options"
    (if truthy (dict_get f "multi_choice_options") &&
        negb (is_None (dict_get f "multi_choice_options"))
     then dict_get f "multi_choice_options"
     else VList (VStr <$> options)) o.

(** The kind the entity ends up with: the override when there is one. *)
Definition effective_ca_type (f : kwargs) (o : obj) : value :=
  if truthy (dict_get f "ca_type") then dict_get f "ca_type" else ca_type_of o.

(** [get_normal_form(v)] returns. *)
Definition normalizes (v : value) : Prop :=
  exists w, get_normal_form v None = Ok w.

(** What [CAFactory.create] needs of its collaborators in order to return:
    kinds and object types to choose from, object types that have a normal
    form, and an alphabet for the random strings. *)
Definition ca_collaborators_ok : Prop :=
  ALL_ATTRS_TYPES <> [] /\
  ALL_CA_OBJECTS <> [] /\
  Forall normalizes ALL_CA_OBJECTS /\
  (random_string_size = 0%nat \/ random_string_chars <> "").

(** The keyword arguments [CAFactory.create] hands on. *)
Definition ca_fields
    (title ca_type definition_type helptext placeholder multi_choice_options
       is_mandatory ca_global : value) : kwargs :=
  kw [("title", title); ("ca_type", ca_type);
      ("definition_type", definition_type); ("helptext", helptext);
      ("placeholder", placeholder);
      ("multi_choice_options", multi_choice_options);
      ("is_mandatory", is_mandatory); ("ca_global", ca_global)].

(** [ca_type in (TEXT, RICH_TEXT)] *)
Definition is_free_text (ca_type : value) : bool :=
  py_eq ca_type TEXT || py_eq ca_type RICH_TEXT.

End ca_pure.

(** *** The specification's wording of the rewritten [href] and [url] *)

Fixpoint all_digits (s : string) : bool :=
  match s with
  | EmptyString => true
  | String c s' => is_digit c && all_digits s'
  end.

(** "replacing the trailing numeric id substring with the new id": the
    longest suffix made of digits only, when there is one, gives way to
    [new]. *)
Fixpoint replace_trailing_number (new s : string) : string :=
  match s with
  | EmptyString => EmptyString
  | String c s' =>
      if all_digits s then new else String c (replace_trailing_number new s')
  end.

Fixpoint ends_with_newline (s : string) : bool :=
  match s with
  | EmptyString => false
  | String c EmptyString => bool_decide (c = "010"%char)
  | String _ s' => ends_with_newline s'
  end.

(** *** A concrete set of collaborators

    Used to run the factories on examples.  The names follow the
    specification's examples ([ASSESSMENT-6], Text, Rich Text, Dropdown); a
    fresh entity of any class has every attribute set to [None]; the count
    service answers 5 for every type. *)

Definition demo_singular (plural : string) : string :=
  if bool_decide (plural = "people") then "person"
  else String.rev (match String.rev plural with
                   | String _ r => r
                   | EmptyString => EmptyString
                   end).

(** Title form: every underscore becomes a space and every word starts with
    a capital; without spaces the words are run together. *)
Fixpoint demo_title_form (with_space start : bool) (s : string) : string :=
  match s with
  | EmptyString => EmptyString
  | String c s' =>
      if bool_decide (c = "_"%char) || bool_decide (c = " "%char)
      then (if with_space then String " "%char (demo_title_form with_space true s')
            else demo_title_form with_space true s')
      else String (if start then upper_char c else c)
                  (demo_title_form with_space false s')
  end.

Definition demo_normal_form (v : value) (with_space : option bool) : res value :=
  match v with
  | VStr s => Ok (VStr (demo_title_form (default true with_space) true s))
  | _ => Raise AttributeError
  end.

Definition demo_attrs_names : list string :=
  ["title"; "id"; "href"; "url"; "type"; "email"; "authorizations";
   "code"; "state"; "status"; "last_update"; "manager"; "owner";
   "primary_contact"; "program"; "audit_lead"; "audit"; "asmt_objects";
   "def_assessors"; "def_verifiers"; "object"; "creators"; "assignees";
   "is_verified"; "ca_type"; "definition_type"; "helptext"; "placeholder";
   "multi_choice_options"; "is_mandatory"; "ca_global"].

Definition demo_entity : obj := kw ((fun name => (name, VNone)) <$> demo_attrs_names).

Definition demo : collaborators := {|
  PEOPLE := "people";
  PROGRAMS := "programs";
  CONTROLS := "controls";
  AUDITS := "audits";
  ASSESSMENT_TEMPLATES := "assessment_templates";
  ASSESSMENTS := "assessments";
  ISSUES := "issues";
  ALL_CA_OBJECTS := [VStr "programs"; VStr "controls"; VStr "audits"];
  get_singular := demo_singular;
  get_normal_form := demo_normal_form;
  DEFAULT_USER := VStr "Example User";
  NO_ROLE := VStr "No role";
  SUPERUSER := VStr "Superuser";
  OBJECT_OWNERS := VStr "Object Owners";
  DEFAULT_EMAIL_DOMAIN := VStr "example.com";
  DEFAULT_USER_HREF := VStr "/api/people/1";
  DEFAULT_USER_EMAIL := VStr "user@example.com";
  ObjectStates_DRAFT := VStr "Draft";
  AuditStates_PLANNED := VStr "Planned";
  AssessmentStates_NOT_STARTED := VStr "Not Started";
  IssueStates_DRAFT := VStr "Draft";
  Common_FALSE := VStr "false";
  ALL_ATTRS_TYPES :=
    [VStr "Text"; VStr "Rich Text"; VStr "Date"; VStr "Checkbox";
     VStr "Dropdown"; VStr "Map:Person"];
  TEXT := VStr "Text";
  RICH_TEXT := VStr "Rich Text";
  DROPDOWN := VStr "Dropdown";
  entity_new := fun _ => demo_entity;
  attrs_names_all_entities := demo_attrs_names;
  SPECIAL := "!#$%&()*+,-./:;<=>?@[]^_{|}~";
  uuid_token := fun n => "uuid" +:+ pretty n;
  random_string_size := 5;
  random_string_chars := "ABCDEFGHIJKLMNOPQRSTUVWXYZ0123456789";
  get_total_count := fun _ => Ok 5;
  str_list := fun _ => "[...]";
  entropy := fun n => (7 * n + 3)%nat;
|}.

(** A store with an audit, an assessment template and a control, as they
    look once the application has assigned ids and links. *)
Definition demo_audit : obj :=
  kw [("title", VStr "Audit A"); ("id", VInt 5); ("href", VStr "/api/audits/5");
      ("url", VStr "/audits/5"); ("type", VStr "audit");
      ("code", VStr "AUDIT-5"); ("status", VStr "Planned")].

Definition demo_asmt_tmpl : obj :=
  kw [("title", VStr "Template A"); ("id", VInt 5);
      ("href", VStr "/api/assessment_templates/5");
      ("url", VStr "/assessment_templates/5");
      ("type", VStr "assessment_template"); ("code", VStr "TEMPLATE-5")].

Definition demo_control (title : string) : obj :=
  kw [("title", VStr title); ("type", VStr "control")].

Definition demo_state : state :=
  State [demo_audit; demo_asmt_tmpl; demo_control "a"; demo_control "b"] 0.

(** An audit that is no longer the most recent one: the count service
    answers 5, its id is 3. *)
Definition demo_stale_audit : obj :=
  kw [("title", VStr "Audit B"); ("id", VInt 3); ("href", VStr "/api/audits/3");
      ("url", VStr "/audits/3"); ("type", VStr "audit");
      ("code", VStr "AUDIT-3")].

Definition demo_stale_state : state := State [demo_stale_audit] 0.

(** The attribute [name] of each of the objects [ls], in the store of [s]. *)
Definition attrs_of (s : state) (name : string) (ls : list loc) : list (option value) :=
  (fun l => o ← heap s !! l; o !! name) <$> ls.

(** *** Calling [create] with keyword arguments *)

Section create_calls.
Context `{!collaborators}.

(** The parameters of each factory's [create], in the order of the [def]. *)
Definition create_params (T : domain_type) : list string :=
  match T with
  | Person =>
      ["title"; "id"; "href"; "url"; "type"; "email"; "authorizations"]
  | Program =>
      ["title"; "id"; "href"; "url"; "type"; "manager"; "primary_contact";
       "code"; "state"; "last_update"]
  | Control =>
      ["title"; "id"; "href"; "url"; "type"; "owner"; "primary_contact";
       "code"; "state"; "last_update"]
  | Audit =>
      ["title"; "id"; "href"; "url"; "type"; "program"; "audit_lead";
       "code"; "status"; "last_update"]
  | AssessmentTemplate =>
      ["title"; "id"; "href"; "url"; "type"; "audit"; "asmt_objects";
       "def_assessors"; "def_verifiers"; "code"; "last_update"]
  | Assessment =>
      ["title"; "id"; "href"; "url"; "type"; "object"; "audit"; "creators";
       "assignees"; "primary_contact"; "is_verified"; "code"; "state";
       "last_update"]
  | Issue =>
      ["title"; "id"; "href"; "url"; "type"; "audit"; "owner";
       "primary_contact"; "code"; "state"; "last_update"]
  end.

(** Calling [Factory.create] with the keyword arguments [overrides]: a
    keyword that is not a parameter is a [TypeError], a parameter without a
    keyword has its default, [None]. *)
Definition create_call (T : domain_type) (overrides : kwargs) : M loc :=
  let arg := dict_get overrides in
  if bool_decide (dom overrides ⊆ list_to_set (create_params T))
  then
    match T with
    | Person =>
        PersonsFactory.create (arg "title") (arg "id") (arg "href") (arg "url")
          (arg "type") (arg "email") (arg "authorizations")
    | Program =>
        ProgramsFactory.create (arg "title") (arg "id") (arg "href") (arg "url")
          (arg "type") (arg "manager") (arg "primary_contact") (arg "code")
          (arg "state") (arg "last_update")
    | Control =>
        ControlsFactory.create (arg "title") (arg "id") (arg "href") (arg "url")
          (arg "type") (arg "owner") (arg "primary_contact") (arg "code")
          (arg "state") (arg "last_update")
    | Audit =>
        AuditsFactory.create (arg "title") (arg "id") (arg "href") (arg "url")
          (arg "type") (arg "program") (arg "audit_lead") (arg "code")
          (arg "status") (arg "last_update")
    | AssessmentTemplate =>
        AssessmentTemplatesFactory.create (arg "title") (arg "id") (arg "href")
          (arg "url") (arg "type") (arg "audit") (arg "asmt_objects")
          (arg "def_assessors") (arg "def_verifiers") (arg "code")
          (arg "last_update")
    | Assessment =>
        AssessmentsFactory.create (arg "title") (arg "id") (arg "href")
          (arg "url") (arg "type") (arg "object") (arg "audit") (arg "creators")
          (arg "assignees") (arg "primary_contact") (arg "is_verified")
          (arg "code") (arg "state") (arg "last_update")
    | Issue =>
        IssuesFactory.create (arg "title") (arg "id") (arg "href") (arg "url")
          (arg "type") (arg "audit") (arg "owner") (arg "primary_contact")
          (arg "code") (arg "state") (arg "last_update")
    end
  else raise TypeError.

(** [cls._create_random_...()] of the factory of a domain type. *)
Definition _create_random (T : domain_type) : M loc :=
  match T with
  | Person => PersonsFactory._create_random_person
  | Program => ProgramsFactory._create_random_program
  | Control => ControlsFactory._create_random_control
  | Audit => AuditsFactory._create_random_audit
  | AssessmentTemplate => AssessmentTemplatesFactory._create_random_asmt_tmpl
  | Assessment => AssessmentsFactory._create_random_asmt
  | Issue => IssuesFactory._create_random_issue
  end.

(** The class a factory instantiates. *)
Definition class_of (T : domain_type) : entity_class :=
  match T with
  | Person => PersonEntity
  | Program => ProgramEntity
  | Control => ControlEntity
  | Audit => AuditEntity
  | AssessmentTemplate => AssessmentTemplateEntity
  | Assessment => AssessmentEntity
  | Issue => IssueEntity
  end.

(** The attributes a factory fills with fixed values, as the docstrings of
    [create] list them ("Predictable values will be used for ..."). *)
Definition predictable_values (T : domain_type) : list (string * value) :=
  match T with
  | Person =>
      [("type", VStr EntitiesFactory._obj_person); ("authorizations", NO_ROLE)]
  | Program =>
      [("type", VStr EntitiesFactory._obj_program); ("manager", DEFAULT_USER);
       ("primary_contact", DEFAULT_USER); ("state", ObjectStates_DRAFT)]
  | Control =>
      [("type", VStr EntitiesFactory._obj_control); ("owner", DEFAULT_USER);
       ("primary_contact", DEFAULT_USER); ("state", ObjectStates_DRAFT)]
  | Audit =>
      [("type", VStr EntitiesFactory._obj_audit); ("audit_lead", DEFAULT_USER);
       ("status", AuditStates_PLANNED)]
  | AssessmentTemplate =>
      [("type", VStr EntitiesFactory._obj_asmt_tmpl);
       ("asmt_objects", VStr CONTROLS); ("def_assessors", OBJECT_OWNERS);
       ("def_verifiers", OBJECT_OWNERS)]
  | Assessment =>
      [("type", VStr EntitiesFactory._obj_asmt); ("object", DEFAULT_USER);
       ("creators", DEFAULT_USER); ("assignees", DEFAULT_USER);
       ("state", AssessmentStates_NOT_STARTED); ("is_verified", Common_FALSE)]
  | Issue =>
      [("type", VStr EntitiesFactory._obj_issue); ("owner", DEFAULT_USER);
       ("primary_contact", DEFAULT_USER); ("state", IssueStates_DRAFT)]
  end.

(** The attributes [_create_random_...] assigns: the random ones and the
    predictable ones. *)
Definition assigned_names (T : domain_type) : list string :=
  ["title"; "code"; "email"] ++ (predictable_values T).*1.

(** The keyword arguments [create] hands to [update_obj_attrs_values]. *)
Definition create_overrides (T : domain_type) (overrides : kwargs) : kwargs :=
  kw ((fun name => (name, dict_get overrides name)) <$> create_params T).

End create_calls.

(** The objects behind the references [ls] differ pairwise in the attribute
    [name]. *)
Definition pairwise_distinct_attr (s : state) (ls : list loc) (name : string) : Prop :=
  forall (i j : nat) (li lj : loc) (ci cj : obj),
    i <> j -> ls !! i = Some li -> ls !! j = Some lj ->
    heap s !! li = Some ci -> heap s !! lj = Some cj ->
    ci !! name <> cj !! name.

(** No value is a string. *)
Definition not_a_string (v : value) : Prop := forall x : string, v <> VStr x.

(** The keyword arguments [generate] calls [AssessmentsFactory.create] with,
    as [create] hands them to [update_obj_attrs_values]. *)
Definition generate_overrides (title code audit : value) : kwargs :=
  kw [("title", title); ("id", VNone); ("href", VNone); ("url", VNone);
      ("type", VNone); ("object", VNone); ("audit", audit);
      ("creators", VNone); ("assignees", VNone); ("primary_contact", VNone);
      ("is_verified", VNone); ("code", code); ("state", VNone);
      ("last_update", VNone)].

(** [c] is the assessment [generate] makes for the numbered object [x] under
    an audit titled [audit_title]: a random assessment [o0] with the three
    overrides applied. *)
Definition generated_from `{!collaborators} (s : state) (audit_title : string)
    (x : Z * loc) (c : obj) : Prop :=
  exists (o0 : obj) (t : string),
    has_title s x.2 t /\
    (forall k v, (k, v) ∈ predictable_values Assessment -> o0 !! k = Some v) /\
    (forall k, k ∉ assigned_names Assessment ->
               o0 !! k = entity_new AssessmentEntity !! k) /\
    c = apply_overrides EntitiesFactory.all_objs_attrs_names
          (generate_overrides
             (VStr ((t +:+ " assessment for ") +:+ audit_title))
             (VStr ((upper EntitiesFactory._obj_asmt +:+ "-") +:+ str_int x.1))
             (VStr audit_title))
          o0.

(** The last character of [s] is a digit. *)
Fixpoint ends_in_digit (s : string) : bool :=
  match s with
  | EmptyString => false
  | String c EmptyString => is_digit c
  | String _ s' => ends_in_digit s'
  end.

(** [s] without the newline it may end in. *)
Fixpoint drop_final_newline (s : string) : string :=
  match s with
  | EmptyString => EmptyString
  | String c EmptyString =>
      if bool_decide (c = "010"%char) then EmptyString else s
  | String c s' => String c (drop_final_newline s')
  end.

(** The concrete collaborators with the count service out of reach: every
    query raises. *)
Definition demo_offline : collaborators := {|
  PEOPLE := @PEOPLE demo;
  PROGRAMS := @PROGRAMS demo;
  CONTROLS := @CONTROLS demo;
  AUDITS := @AUDITS demo;
  ASSESSMENT_TEMPLATES := @ASSESSMENT_TEMPLATES demo;
  ASSESSMENTS := @ASSESSMENTS demo;
  ISSUES := @ISSUES demo;
  ALL_CA_OBJECTS := @ALL_CA_OBJECTS demo;
  get_singular := @get_singular demo;
  get_normal_form := @get_normal_form demo;
  DEFAULT_USER := @DEFAULT_USER demo;
  NO_ROLE := @NO_ROLE demo;
  SUPERUSER := @SUPERUSER demo;
  OBJECT_OWNERS := @OBJECT_OWNERS demo;
  DEFAULT_EMAIL_DOMAIN := @DEFAULT_EMAIL_DOMAIN demo;
  DEFAULT_USER_HREF := @DEFAULT_USER_HREF demo;
  DEFAULT_USER_EMAIL := @DEFAULT_USER_EMAIL demo;
  ObjectStates_DRAFT := @ObjectStates_DRAFT demo;
  AuditStates_PLANNED := @AuditStates_PLANNED demo;
  AssessmentStates_NOT_STARTED := @AssessmentStates_NOT_STARTED demo;
  IssueStates_DRAFT := @IssueStates_DRAFT demo;
  Common_FALSE := @Common_FALSE demo;
  ALL_ATTRS_TYPES := @ALL_ATTRS_TYPES demo;
  TEXT := @TEXT demo;
  RICH_TEXT := @RICH_TEXT demo;
  DROPDOWN := @DROPDOWN demo;
  entity_new := @entity_new demo;
  attrs_names_all_entities := @attrs_names_all_entities demo;
  SPECIAL := @SPECIAL demo;
  uuid_token := @uuid_token demo;
  random_string_size := @random_string_size demo;
  random_string_chars := @random_string_chars demo;
  get_total_count := fun _ => Raise ServiceError;
  str_list := @str_list demo;
  entropy := @entropy demo;
|}.

(** An audit as [AuditsFactory.create(id=5)] leaves it: it has an id, but no
    link yet. *)
Definition demo_unlinked_audit : obj :=
  kw [("title", VStr "Audit C"); ("id", VInt 5); ("href", VNone);
      ("url", VNone); ("type", VStr "audit"); ("code", VStr "AUDIT-5")].

Definition demo_unlinked_state : state := State [demo_unlinked_audit] 0.

(** An audit whose title was set to the empty string by hand, and a control. *)
Definition demo_untitled_audit : obj :=
  kw [("title", VStr ""); ("id", VInt 5); ("type", VStr "audit")].

Definition demo_untitled_state : state :=
  State [demo_untitled_audit; demo_control "a"] 0.

(** * Results *)

Section monad_facts.

Lemma bind_run {A B} (m : M A) (f : A -> M B) (s : state) :
  (m ≫= f) s = match m s with Ok (a, s') => f a s' | Raise e => Raise e end.
Proof. reflexivity. Qed.

Lemma ret_run {A} (a : A) (s : state) : mret (M := M) a s = Ok (a, s).
Proof. reflexivity. Qed.

Lemma setattr_run l name v o h d :
  h !! l = Some o ->
  setattr l name v (State h d) = Ok (tt, State (<[l := <[name := v]> o]> h) d).
Proof. intros Hl. unfold setattr. simpl. by rewrite Hl. Qed.

Lemma getattr_run l name v o h d :
  h !! l = Some o -> o !! name = Some v ->
  getattr l name (State h d) = Ok (v, State h d).
Proof. intros Hl Hn. unfold getattr. simpl. by rewrite Hl, Hn. Qed.

Lemma dict_index_truthy (d : kwargs) key :
  truthy (dict_get d key) = true -> dict_index d key = Ok (dict_get d key).
Proof.
  unfold dict_get, dict_index. destruct (d !! key); simpl; [done | discriminate].
Qed.

Lemma apply_overrides_lookup attrs (args : kwargs) (o : obj) k :
  apply_overrides attrs args o !! k =
    if bool_decide (k ∈ attrs) && truthy (dict_get args k)
    then Some (dict_get args k) else o !! k.
Proof.
  unfold apply_overrides. revert o.
  induction attrs as [|a attrs IH]; intros o; simpl; [done |].
  rewrite IH. destruct (decide (k = a)) as [-> | Hne].
  - rewrite (bool_decide_eq_true_2 (a ∈ a :: attrs)) by apply list_elem_of_here.
    destruct (truthy (dict_get args a)) eqn:Ht; simpl.
    + rewrite lookup_insert_eq. by rewrite andb_true_r, Tauto.if_same.
    + by rewrite andb_false_r.
  - assert (bool_decide (k ∈ a :: attrs) = bool_decide (k ∈ attrs)) as ->.
    { apply bool_decide_ext. rewrite elem_of_cons.
      split; [by intros [?|?] | by right]. }
    destruct (bool_decide (k ∈ attrs) && truthy (dict_get args k)); [done |].
    destruct (truthy (dict_get args a)); [by rewrite lookup_insert_ne | done].
Qed.

End monad_facts.

Section update_facts.
Context `{!collaborators}.
Import EntitiesFactory.

Lemma update_loop_run attrs (args : kwargs) l o h d :
  h !! l = Some o ->
  for_each attrs (fun attr_name =>
    if truthy (dict_get args attr_name)
    then v ← lift (dict_index args attr_name); setattr l attr_name v
    else mret tt) (State h d)
  = Ok (tt, State (<[l := apply_overrides attrs args o]> h) d).
Proof.
  revert o h. induction attrs as [|a attrs IH]; intros o h Hl; simpl.
  - rewrite ret_run. by rewrite list_insert_id.
  - rewrite bind_run. unfold apply_overrides. simpl.
    destruct (truthy (dict_get args a)) eqn:Ht.
    + rewrite bind_run. rewrite (dict_index_truthy _ _ Ht). simpl.
      rewrite (setattr_run _ _ _ _ _ _ Hl).
      rewrite (IH (<[a := dict_get args a]> o)).
      * by rewrite list_insert_insert_eq.
      * apply list_lookup_insert_eq. by eapply lookup_lt_Some.
    + rewrite ret_run. by apply IH.
Qed.

Lemma update_obj_attrs_values_run attrs (args : kwargs) l o h d :
  h !! l = Some o ->
  update_obj_attrs_values l attrs args (State h d)
  = Ok (l, State (<[l := apply_overrides attrs args o]> h) d).
Proof.
  intros Hl. unfold update_obj_attrs_values.
  rewrite bind_run. by rewrite (update_loop_run _ _ _ _ _ _ Hl).
Qed.

(** C1: [update_obj_attrs_values] returns the reference it was given; in the
    object behind it every allowed name whose override is truthy holds that
    override, every name whose override is missing or falsy, or which is not
    an allowed name, keeps its value; no other object and no random draw is
    touched. *)
Theorem update_obj_attrs_values_frame
    (s : state) (l : loc) (o : obj) (attrs_names : list string) (arguments : kwargs) :
  heap s !! l = Some o ->
  exists o' : obj,
    update_obj_attrs_values l attrs_names arguments s = Ok (l, store s l o') /\
    (forall k v, k ∈ attrs_names -> arguments !! k = Some v -> truthy v = true ->
                 o' !! k = Some v) /\
    (forall k, arguments !! k = None -> o' !! k = o !! k) /\
    (forall k v, arguments !! k = Some v -> truthy v = false -> o' !! k = o !! k) /\
    (forall k, k ∉ attrs_names -> o' !! k = o !! k) /\
    (forall l', l' <> l -> heap (store s l o') !! l' = heap s !! l') /\
    length (heap (store s l o')) = length (heap s) /\
    draws (store s l o') = draws s.
Proof.
  intros Hl. exists (apply_overrides attrs_names arguments o).
  destruct s as [h d]; simpl in *.
  split; [by apply update_obj_attrs_values_run |].
  repeat split.
  - intros k v Hk Hv Ht. rewrite apply_overrides_lookup.
    unfold dict_get. rewrite Hv. simpl. rewrite Ht.
    by rewrite bool_decide_eq_true_2.
  - intros k Hk. rewrite apply_overrides_lookup.
    unfold dict_get. rewrite Hk. simpl. by rewrite andb_false_r.
  - intros k v Hv Ht. rewrite apply_overrides_lookup.
    unfold dict_get. rewrite Hv. simpl. rewrite Ht. by rewrite andb_false_r.
  - intros k Hk. rewrite apply_overrides_lookup.
    by rewrite bool_decide_eq_false_2.
  - intros l' Hne. by apply list_lookup_insert_ne.
  - apply length_insert.
Qed.

End update_facts.

Section fresh_object_facts.

Lemma new_object_run (o : obj) h d :
  new_object o (State h d) = Ok (length h, State (h ++ [o]) d).
Proof. reflexivity. Qed.

Lemma lookup_fresh (h : list obj) (o : obj) : (h ++ [o]) !! length h = Some o.
Proof. by rewrite list_lookup_middle. Qed.

Lemma insert_fresh (h : list obj) (o o' : obj) :
  <[length h := o']> (h ++ [o]) = h ++ [o'].
Proof.
  rewrite insert_app_r_alt by lia. by rewrite Nat.sub_diag.
Qed.

Lemma setattr_fresh name v (o : obj) h d :
  setattr (length h) name v (State (h ++ [o]) d)
  = Ok (tt, State (h ++ [<[name := v]> o]) d).
Proof.
  rewrite (setattr_run _ _ _ o) by apply lookup_fresh. by rewrite insert_fresh.
Qed.

Lemma getattr_fresh name v (o : obj) h d :
  o !! name = Some v ->
  getattr (length h) name (State (h ++ [o]) d) = Ok (v, State (h ++ [o]) d).
Proof. intros Hn. apply (getattr_run _ _ _ o); [apply lookup_fresh | done]. Qed.

Lemma update_fresh attrs (args : kwargs) (o : obj) h d :
  EntitiesFactory.update_obj_attrs_values (length h) attrs args (State (h ++ [o]) d)
  = Ok (length h, State (h ++ [apply_overrides attrs args o]) d).
Proof.
  rewrite (update_obj_attrs_values_run _ _ _ o) by apply lookup_fresh.
  by rewrite insert_fresh.
Qed.

End fresh_object_facts.

Section random_facts.
Context `{!collaborators}.
Import EntitiesFactory.

Lemma draw_run h d : draw (State h d) = Ok (entropy d, State h (S d)).
Proof. reflexivity. Qed.

Lemma random_uuid_run h d :
  random_uuid (State h d) = Ok (uuid_token (entropy d), State h (S d)).
Proof. reflexivity. Qed.

Lemma random_choice_run {A} (seq : list A) h d :
  seq <> [] ->
  exists x, x ∈ seq /\ random_choice seq (State h d) = Ok (x, State h (S d)).
Proof.
  intros Hne. unfold random_choice. rewrite bind_run, draw_run.
  destruct (lookup_lt_is_Some_2 seq (entropy d mod length seq)%nat) as [x Hx].
  { apply Nat.mod_upper_bound. by destruct seq. }
  exists x. rewrite Hx. split; [by eapply list_elem_of_lookup_2 | done].
Qed.

Lemma random_string_run size (chars : list ascii) h d :
  (size = 0%nat \/ chars <> []) ->
  exists str,
    random_string size chars (State h d) = Ok (str, State h (d + size)) /\
    String.length str = size /\
    (forall c, c ∈ String.list_ascii_of_string str -> c ∈ chars).
Proof.
  revert d. induction size as [|n IH]; intros d Hok; simpl.
  - exists EmptyString. rewrite ret_run, Nat.add_0_r.
    split; [done |]. split; [done |]. intros c Hc. by apply elem_of_nil in Hc.
  - destruct Hok as [? | Hne]; [done |].
    destruct (random_choice_run chars h d Hne) as (c & Hc & Hrun).
    destruct (IH (S d) (or_intror Hne)) as (rest & Hrest & Hlen & Hin).
    exists (String c rest). rewrite bind_run, Hrun, bind_run, Hrest, ret_run.
    replace (d + S n)%nat with (S d + n)%nat by lia.
    split; [done |]. split; [by rewrite <- Hlen |].
    intros c' Hc'. simpl in Hc'. apply elem_of_cons in Hc' as [-> | Hc']; auto.
Qed.

Lemma length_list_ascii_of_string s :
  length (String.list_ascii_of_string s) = String.length s.
Proof. induction s as [|c s IH]; simpl; [done | by rewrite IH]. Qed.

Lemma _generate_title_run (obj_type : value) h d :
  exists suffix,
    _generate_title obj_type (State h d)
    = Ok (py_str obj_type +:+ "_" +:+ uuid_token (entropy d) +:+ "_" +:+ suffix,
          State h (S d + String.length SPECIAL)) /\
    String.length suffix = String.length SPECIAL /\
    (forall c, c ∈ String.list_ascii_of_string suffix ->
               c ∈ String.list_ascii_of_string SPECIAL).
Proof.
  unfold _generate_title.
  destruct (random_string_run (String.length SPECIAL)
              (String.list_ascii_of_string SPECIAL) h (S d)) as (suffix & Hrun & Hlen & Hin).
  { destruct SPECIAL; [by left | by right]. }
  exists suffix. by rewrite bind_run, random_uuid_run, bind_run, Hrun, ret_run.
Qed.

Lemma _generate_code_run h d :
  _generate_code (State h d) = Ok (uuid_token (entropy d), State h (S d)).
Proof. reflexivity. Qed.

Lemma _generate_email_run (domain : value) h d :
  _generate_email domain (State h d)
  = Ok (uuid_token (entropy d) +:+ "@" +:+ py_str domain, State h (S d)).
Proof. reflexivity. Qed.

(** C9: [_generate_title] returns the type tag, an underscore, the random
    unique token, an underscore and a suffix; the suffix has as many
    characters as the special-character alphabet, each of them taken from
    that alphabet.  The store is left as it was. *)
Theorem generate_title_form (obj_type : value) (s : state) :
  exists (token suffix : string) (s' : state),
    _generate_title obj_type s
      = Ok (py_str obj_type +:+ "_" +:+ token +:+ "_" +:+ suffix, s') /\
    token = uuid_token (entropy (draws s)) /\
    String.length suffix = String.length SPECIAL /\
    (forall c, c ∈ String.list_ascii_of_string suffix ->
               c ∈ String.list_ascii_of_string SPECIAL) /\
    heap s' = heap s.
Proof.
  destruct s as [h d].
  destruct (_generate_title_run obj_type h d) as (suffix & Hrun & Hlen & Hin).
  exists (uuid_token (entropy d)), suffix, (State h (S d + String.length SPECIAL)).
  by rewrite Hrun.
Qed.

End random_facts.

Section create_facts.
Context `{!collaborators}.
Import EntitiesFactory.

Lemma bind_ok {A B} (m : M A) (f : A -> M B) s a s' :
  m s = Ok (a, s') -> (m ≫= f) s = f a s'.
Proof. intros Hm. by rewrite bind_run, Hm. Qed.

Lemma kw_lookup items key : kw items !! key = assoc key items.
Proof.
  unfold kw. induction items as [|[k v] items IH]; simpl; [done |].
  destruct (String.eqb_spec k key) as [-> | Hne].
  - apply lookup_insert_eq.
  - by rewrite lookup_insert_ne.
Qed.

Lemma dict_get_kw items key : dict_get (kw items) key = default VNone (assoc key items).
Proof. unfold dict_get. by rewrite kw_lookup. Qed.

(** A factory's [create]: the random entity, then the overrides. *)
Lemma create_run (mk : M loc) attrs (args : kwargs) (o : obj) h d d' :
  mk (State h d) = Ok (length h, State (h ++ [o]) d') ->
  (e ← mk; e ← update_obj_attrs_values e attrs args; mret e) (State h d)
  = Ok (length h, State (h ++ [apply_overrides attrs args o]) d').
Proof.
  intros Hmk. rewrite (bind_ok _ _ _ _ _ Hmk).
  by rewrite (bind_ok _ _ _ _ _ (update_fresh _ _ _ _ _)).
Qed.

Ltac run_step :=
  first
    [ erewrite bind_ok by
        first [ apply new_object_run | apply setattr_fresh
              | apply _generate_code_run | apply _generate_email_run
              | eassumption ]
    | rewrite ret_run ].

Ltac run_random T cls :=
  let sfx := fresh "sfx" in
  let Ht := fresh "Ht" in
  match goal with
  | |- context [State ?h ?d] =>
      destruct (_generate_title_run (VStr T) (h ++ [entity_new cls]) d)
        as (sfx & Ht & _)
  end;
  eexists _, _; split; [repeat run_step; reflexivity |];
  by simplify_map_eq.

Lemma _create_random_person_run h d :
  exists (o : obj) d',
    PersonsFactory._create_random_person (State h d)
      = Ok (length h, State (h ++ [o]) d') /\
    o !! "type" = Some (VStr _obj_person).
Proof. unfold PersonsFactory._create_random_person. run_random _obj_person PersonEntity. Qed.

Lemma _create_random_program_run h d :
  exists (o : obj) d',
    ProgramsFactory._create_random_program (State h d)
      = Ok (length h, State (h ++ [o]) d') /\
    o !! "type" = Some (VStr _obj_program).
Proof. unfold ProgramsFactory._create_random_program. run_random _obj_program ProgramEntity. Qed.

Lemma _create_random_control_run h d :
  exists (o : obj) d',
    ControlsFactory._create_random_control (State h d)
      = Ok (length h, State (h ++ [o]) d') /\
    o !! "type" = Some (VStr _obj_control).
Proof. unfold ControlsFactory._create_random_control. run_random _obj_control ControlEntity. Qed.

Lemma _create_random_audit_run h d :
  exists (o : obj) d',
    AuditsFactory._create_random_audit (State h d)
      = Ok (length h, State (h ++ [o]) d') /\
    o !! "type" = Some (VStr _obj_audit).
Proof. unfold AuditsFactory._create_random_audit. run_random _obj_audit AuditEntity. Qed.

Lemma _create_random_asmt_tmpl_run h d :
  exists (o : obj) d',
    AssessmentTemplatesFactory._create_random_asmt_tmpl (State h d)
      = Ok (length h, State (h ++ [o]) d') /\
    o !! "type" = Some (VStr _obj_asmt_tmpl).
Proof.
  unfold AssessmentTemplatesFactory._create_random_asmt_tmpl.
  run_random _obj_asmt_tmpl AssessmentTemplateEntity.
Qed.

Lemma _create_random_asmt_run h d :
  exists (o : obj) d',
    AssessmentsFactory._create_random_asmt (State h d)
      = Ok (length h, State (h ++ [o]) d') /\
    o !! "type" = Some (VStr _obj_asmt).
Proof. unfold AssessmentsFactory._create_random_asmt. run_random _obj_asmt AssessmentEntity. Qed.

Lemma _create_random_issue_run h d :
  exists (o : obj) d',
    IssuesFactory._create_random_issue (State h d)
      = Ok (length h, State (h ++ [o]) d') /\
    o !! "type" = Some (VStr _obj_issue).
Proof. unfold IssuesFactory._create_random_issue. run_random _obj_issue IssueEntity. Qed.

(** A [create] without a truthy [type] override keeps the type the random
    entity was given. *)
Lemma create_keeps_type (mk : M loc) attrs items name h d :
  (exists (o : obj) d',
     mk (State h d) = Ok (length h, State (h ++ [o]) d') /\
     o !! "type" = Some (VStr name)) ->
  assoc "type" items = Some VNone ->
  exists (e : loc) (o : obj) (s' : state),
    (e ← mk; e ← update_obj_attrs_values e attrs (kw items); mret e) (State h d)
      = Ok (e, s') /\
    heap s' = h ++ [o] /\
    heap s' !! e = Some o /\
    o !! "type" = Some (VStr name).
Proof.
  intros (o & d' & Hrun & Hty) Hitems.
  eexists _, _, _. split; [by apply create_run |]. simpl.
  split; [done |]. split; [apply lookup_fresh |].
  by rewrite apply_overrides_lookup, dict_get_kw, Hitems, andb_false_r.
Qed.

(** C8: for each of the seven domain types, [create()] without overrides
    returns a new entity whose [type] is the canonical singular name of the
    domain type, and leaves the entities that existed before as they were. *)
Theorem create_type_is_canonical_singular (T : domain_type) (s : state) :
  exists (e : loc) (o : obj) (s' : state),
    create_no_overrides T s = Ok (e, s') /\
    heap s' = heap s ++ [o] /\
    heap s' !! e = Some o /\
    o !! "type" = Some (VStr (canonical_singular_name T)).
Proof.
  destruct s as [h d]. unfold canonical_singular_name.
  destruct T; simpl; apply create_keeps_type; try reflexivity.
  - apply _create_random_person_run.
  - apply _create_random_program_run.
  - apply _create_random_control_run.
  - apply _create_random_audit_run.
  - apply _create_random_asmt_tmpl_run.
  - apply _create_random_asmt_run.
  - apply _create_random_issue_run.
Qed.

End create_facts.

Section string_facts.

Lemma append_cons c s t : String c s +:+ t = String c (s +:+ t).
Proof. reflexivity. Qed.

Lemma append_assoc (s t u : string) : (s +:+ t) +:+ u = s +:+ t +:+ u.
Proof.
  induction s as [|c s IH]; [done |]. by rewrite !append_cons, IH.
Qed.

Lemma append_nil_r (s : string) : s +:+ "" = s.
Proof. induction s as [|c s IH]; [done |]. by rewrite append_cons, IH. Qed.

Lemma append_eq_nil (s t : string) : s +:+ t = "" -> s = "".
Proof. by destruct s. Qed.

Lemma pretty_N_go_nonempty (x : N) (s : string) : s <> "" -> pretty_N_go x s <> "".
Proof.
  revert s. induction (N.lt_wf_0 x) as [x _ IH]; intros s Hs.
  destruct (decide (x = 0)%N) as [-> | Hx]; [by rewrite pretty_N_go_0 |].
  rewrite pretty_N_go_step by lia. apply IH; [apply N.div_lt; lia | done].
Qed.

Lemma pretty_N_nonempty (x : N) : pretty x <> "".
Proof.
  unfold pretty, pretty_N. destruct (decide (x = 0)%N); [done |].
  rewrite pretty_N_go_step by lia. by apply pretty_N_go_nonempty.
Qed.

Lemma str_int_nonempty (z : Z) : str_int z <> "".
Proof.
  unfold str_int, pretty, pretty_Z. destruct z; [done | apply pretty_N_nonempty |].
  by rewrite append_cons.
Qed.

(** *** The pattern [\d+$] *)

Lemma span_digits_all s : all_digits s = true -> span_digits s = (s, "").
Proof.
  induction s as [|c s IH]; simpl; [done |].
  intros [Hc Hs]%andb_prop. by rewrite Hc, (IH Hs).
Qed.

Lemma span_digits_rest s d r :
  span_digits s = (d, r) -> all_digits s = false -> r <> "".
Proof.
  revert d. induction s as [|c s IH]; intros d; simpl; [done |].
  destruct (is_digit c); simpl.
  - destruct (span_digits s) as [d' r'] eqn:Hs. intros [= <- <-] Hall. by eapply IH.
  - by intros [= <- <-].
Qed.

Lemma span_digits_newline s d :
  span_digits s = (d, String "010"%char "") -> ends_with_newline s = true.
Proof.
  revert d. induction s as [|c s IH]; intros d; simpl; [done |].
  destruct (is_digit c) eqn:Hc.
  - destruct (span_digits s) as [d' r'] eqn:Hs. intros [= <- ->].
    destruct s; [done | by eapply IH].
  - by intros [= <- -> ->].
Qed.

(** On a string that does not end in a newline, [re.sub("\d+$", new, s)] is
    the specification's replacement of the trailing number. *)
Lemma re_sub_digits_end_spec (new s : string) :
  ends_with_newline s = false ->
  re_sub_digits_end new s = replace_trailing_number new s.
Proof.
  induction s as [|c s IH]; [done |]. intros Hnl.
  cbn [re_sub_digits_end replace_trailing_number].
  destruct (all_digits (String c s)) eqn:Hall.
  - rewrite (span_digits_all _ Hall). simpl. by rewrite append_nil_r.
  - destruct (span_digits (String c s)) as [d r] eqn:Hspan.
    assert (at_end r = false) as Hend.
    { unfold at_end. rewrite bool_decide_eq_false_2
        by (by eapply span_digits_rest).
      rewrite bool_decide_eq_false_2; [done |]. intros ->.
      apply span_digits_newline in Hspan. congruence. }
    rewrite Hend, andb_false_r. f_equal. apply IH.
    destruct s; [done | exact Hnl].
Qed.

Lemma re_sub_digits_end_nil (new s : string) :
  new <> "" -> re_sub_digits_end new s = "" -> s = "".
Proof.
  intros Hnew. destruct s as [|c s]; [done |].
  cbn [re_sub_digits_end]. destruct (span_digits (String c s)) as [d r].
  destruct (negb (bool_decide (d = "")) && at_end r); [| done].
  intros Heq%append_eq_nil. done.
Qed.

Example re_sub_trailing_id :
  re_sub_digits_end "13" "/api/audits/12" = "/api/audits/13".
Proof. reflexivity. Qed.

Example re_sub_inner_digits_only :
  re_sub_digits_end "13" "/api/v2/audits" = "/api/v2/audits".
Proof. reflexivity. Qed.

Example re_sub_only_the_last_run :
  re_sub_digits_end "13" "/api/7/audits/12" = "/api/7/audits/13".
Proof. reflexivity. Qed.

(** [$] also holds just before a final newline, which the specification's
    wording does not cover. *)
Example re_sub_before_final_newline :
  re_sub_digits_end "13" (String "a" (String "1" (String "2" (String "010" ""))))
    = String "a" (String "1" (String "3" (String "010" ""))) /\
  replace_trailing_number "13" (String "a" (String "1" (String "2" (String "010" ""))))
    = String "a" (String "1" (String "2" (String "010" ""))).
Proof. split; reflexivity. Qed.

End string_facts.

Section clone_facts.
Context `{!collaborators}.
Import EntitiesFactory.

Lemma lift_run {A} (a : A) s : lift (Ok a) s = Ok (a, s).
Proof. reflexivity. Qed.

Lemma deepcopy_run l (o : obj) h d :
  h !! l = Some o -> deepcopy l (State h d) = Ok (length h, State (h ++ [o]) d).
Proof. intros Hl. unfold deepcopy. simpl. by rewrite Hl. Qed.

Lemma getattr_old l name v (o c : obj) h d :
  h !! l = Some o -> o !! name = Some v ->
  getattr l name (State (h ++ [c]) d) = Ok (v, State (h ++ [c]) d).
Proof.
  intros Hl Hn. apply (getattr_run _ _ _ o); [by apply lookup_app_l_Some | done].
Qed.

(** A comprehension whose body adds one object to the store per element. *)
Lemma list_comp_alloc {A} (xs : list A) (body : A -> M loc)
    (Q : A -> obj -> Prop) (P : list obj -> Prop) :
  (forall h c, P h -> P (h ++ [c])) ->
  (forall x h d, x ∈ xs -> P h ->
     exists c d', body x (State h d) = Ok (length h, State (h ++ [c]) d') /\ Q x c) ->
  forall h d, P h ->
    exists cs d',
      list_comp xs body (State h d)
        = Ok (seq (length h) (length xs), State (h ++ cs) d') /\
      Forall2 Q xs cs.
Proof.
  intros HP. induction xs as [|x xs IH]; intros Hbody h d Hh; simpl.
  - exists [], d. by rewrite ret_run, app_nil_r.
  - destruct (Hbody x h d) as (c & d1 & Hx & HQ); [apply list_elem_of_here | done |].
    destruct (IH (fun y h' d' Hy => Hbody y h' d' (list_elem_of_further _ _ _ Hy))
                 (h ++ [c]) d1 (HP _ _ Hh)) as (cs & d2 & Hrest & HQs).
    exists (c :: cs), d2.
    rewrite (bind_ok _ _ _ _ _ Hx), (bind_ok _ _ _ _ _ Hrest), ret_run.
    rewrite length_app, Nat.add_1_r, <- app_assoc. simpl.
    split; [done | by constructor].
Qed.

Lemma length_xrange a b : length (xrange a b) = Z.to_nat (b - a).
Proof. unfold xrange. by rewrite length_fmap, length_seq. Qed.

Lemma lookup_xrange a b (i : nat) :
  (i < Z.to_nat (b - a))%nat -> xrange a b !! i = Some (a + Z.of_nat i).
Proof.
  intros Hi. unfold xrange. rewrite list_lookup_fmap, lookup_seq_lt by done.
  done.
Qed.

(** C2: when the count service reports a total other than the source's id,
    both [clone]s return [None] and leave the store, hence the source, as it
    was; so a [clone] that returns copies had a total equal to the id. *)
Theorem clone_rejects_stale_source
    (s : state) (src : loc) (o : obj) (N T_audits T_tmpls k : Z) :
  heap s !! src = Some o ->
  o !! "id" = Some (VInt N) ->
  total_count _obj_audit = Ok T_audits ->
  total_count _obj_asmt_tmpl = Ok T_tmpls ->
  ((T_audits <> N -> AuditsFactory.clone src k s = Ok (None, s)) /\
   (forall clones s',
      AuditsFactory.clone src k s = Ok (Some clones, s') -> T_audits = N)) /\
  ((T_tmpls <> N -> AssessmentTemplatesFactory.clone src k s = Ok (None, s)) /\
   (forall clones s',
      AssessmentTemplatesFactory.clone src k s = Ok (Some clones, s') ->
      T_tmpls = N)).
Proof.
  intros Hsrc Hid Haudits Htmpls. destruct s as [h d]. simpl in Hsrc.
  assert (forall name T (body : Z -> M loc),
    total_count name = Ok T -> T <> N ->
    (obj_name ← lift (get_normal_form (VStr name) (Some false));
     actual ← lift (get_total_count obj_name);
     src_id ← getattr src "id";
     if py_eq (VInt actual) src_id
     then clones ← list_comp (xrange 1 (k + 1)) body; mret (Some clones)
     else mret None) (State h d) = Ok (None, State h d)) as Hguard.
  { intros name T body Hcount Hne. unfold total_count in Hcount.
    destruct (get_normal_form (VStr name) (Some false)) as [obj_name|] eqn:Hnf;
      [| done].
    rewrite (bind_ok _ _ _ _ _ (lift_run _ _)).
    rewrite Hcount. rewrite (bind_ok _ _ _ _ _ (lift_run _ _)).
    rewrite (bind_ok _ _ _ _ _ (getattr_run _ _ _ _ _ _ Hsrc Hid)).
    simpl. by rewrite (proj2 (Z.eqb_neq T N) Hne). }
  split; split.
  - intros Hne. by eapply Hguard.
  - intros clones s' Hrun. destruct (decide (T_audits = N)) as [| Hne]; [done |].
    unfold AuditsFactory.clone in Hrun.
    rewrite (Hguard _ _ _ Haudits Hne) in Hrun. done.
  - intros Hne. by eapply Hguard.
  - intros clones s' Hrun. destruct (decide (T_tmpls = N)) as [| Hne]; [done |].
    unfold AssessmentTemplatesFactory.clone in Hrun.
    rewrite (Hguard _ _ _ Htmpls Hne) in Hrun. done.
Qed.

End clone_facts.

(** One statement of a loop body: run it and go on with what follows. *)
Ltac clone_step :=
  erewrite bind_ok by
    first [ apply lift_run
          | eapply deepcopy_run; eassumption
          | eapply getattr_old; eassumption
          | eapply getattr_run; eassumption
          | reflexivity ].

Section clone_copies.
Context `{!collaborators}.
Import EntitiesFactory.

Lemma Forall2_eq_fmap {A B} (f : A -> B) xs cs :
  Forall2 (fun x c => c = f x) xs cs -> cs = f <$> xs.
Proof. induction 1 as [|x c xs cs -> _ IH]; [done |]. by rewrite IH. Qed.

Lemma py_eq_int (a b : Z) : py_eq (VInt a) (VInt b) = (a =? b).
Proof. reflexivity. Qed.

Lemma audits_clone_run h d src (o : obj) N t hr u k :
  h !! src = Some o ->
  o !! "id" = Some (VInt N) -> o !! "title" = Some (VStr t) ->
  o !! "href" = Some (VStr hr) -> o !! "url" = Some (VStr u) ->
  total_count _obj_audit = Ok N ->
  exists d',
    AuditsFactory.clone src k (State h d)
    = Ok (Some (seq (length h) (Z.to_nat k)),
          State (h ++ (audit_copy o N t hr u <$> xrange 1 (k + 1))) d').
Proof.
  intros Hsrc Hid Htitle Hhref Hurl Hcount.
  unfold AuditsFactory.clone, total_count in *.
  destruct (get_normal_form (VStr _obj_audit) (Some false)) as [obj_name|]; [| done].
  clone_step. rewrite Hcount. do 2 clone_step.
  rewrite py_eq_int, Z.eqb_refl.
  edestruct (list_comp_alloc (xrange 1 (k + 1)))
    with (Q := fun num c => c = audit_copy o N t hr u num)
         (P := fun h' : list obj => h' !! src = Some o)
    as (cs & d' & Hrun & HQ); [| | exact Hsrc | ].
  { intros h' c Hh'. by apply lookup_app_l_Some. }
  2:{ exists d'. rewrite (bind_ok _ _ _ _ _ Hrun), ret_run.
      rewrite (Forall2_eq_fmap _ _ _ HQ), length_xrange.
      by replace (k + 1 - 1) with k by lia. }
  intros num h' d0 _ Hh'. simpl.
  eexists _, _. split; [| reflexivity].
  repeat clone_step. by rewrite update_fresh.
Qed.

Lemma asmt_tmpls_clone_run h d src (o : obj) N hr u k :
  h !! src = Some o ->
  o !! "id" = Some (VInt N) ->
  o !! "href" = Some (VStr hr) -> o !! "url" = Some (VStr u) ->
  total_count _obj_asmt_tmpl = Ok N ->
  exists d',
    AssessmentTemplatesFactory.clone src k (State h d)
    = Ok (Some (seq (length h) (Z.to_nat k)),
          State (h ++ (asmt_tmpl_copy o N hr u <$> xrange 1 (k + 1))) d').
Proof.
  intros Hsrc Hid Hhref Hurl Hcount.
  unfold AssessmentTemplatesFactory.clone, total_count in *.
  destruct (get_normal_form (VStr _obj_asmt_tmpl) (Some false)) as [obj_name|]; [| done].
  clone_step. rewrite Hcount. do 2 clone_step.
  rewrite py_eq_int, Z.eqb_refl.
  edestruct (list_comp_alloc (xrange 1 (k + 1)))
    with (Q := fun num c => c = asmt_tmpl_copy o N hr u num)
         (P := fun h' : list obj => h' !! src = Some o)
    as (cs & d' & Hrun & HQ); [| | exact Hsrc | ].
  { intros h' c Hh'. by apply lookup_app_l_Some. }
  2:{ exists d'. rewrite (bind_ok _ _ _ _ _ Hrun), ret_run.
      rewrite (Forall2_eq_fmap _ _ _ HQ), length_xrange.
      by replace (k + 1 - 1) with k by lia. }
  intros num h' d0 _ Hh'. simpl.
  eexists _, _. split; [| reflexivity].
  repeat clone_step. by rewrite update_fresh.
Qed.

End clone_copies.

Section clone_fields.
Context `{!collaborators}.
Import EntitiesFactory.

Lemma append_nonempty_r (s t : string) : t <> "" -> s +:+ t <> "".
Proof. destruct s; [done | by rewrite append_cons]. Qed.

Lemma truthy_str (s : string) : s <> "" -> truthy (VStr s) = true.
Proof. intros Hs. simpl. by rewrite bool_decide_eq_false_2. Qed.

(** An allowed name with an override in a literal dictionary. *)
Lemma override_allowed attrs items (o : obj) key v :
  key ∈ attrs -> assoc key items = Some v ->
  apply_overrides attrs (kw items) o !! key
  = if truthy v then Some v else o !! key.
Proof.
  intros Hin Hv. rewrite apply_overrides_lookup, dict_get_kw, Hv. simpl.
  by rewrite bool_decide_eq_true_2.
Qed.

(** A name the literal dictionary does not mention. *)
Lemma override_absent attrs items (o : obj) key :
  assoc key items = None ->
  apply_overrides attrs (kw items) o !! key = o !! key.
Proof.
  intros Hv. rewrite apply_overrides_lookup, dict_get_kw, Hv. simpl.
  by rewrite andb_false_r.
Qed.

Lemma allows_elem names name : allows names -> name ∈ names -> name ∈ all_objs_attrs_names.
Proof. unfold allows. rewrite Forall_forall. auto. Qed.

Lemma assoc_other key items :
  key ∉ items.*1 -> assoc key items = None.
Proof.
  induction items as [|[k v] items IH]; simpl; [done |].
  intros Hnot. apply not_elem_of_cons in Hnot as [Hne Hnot].
  destruct (String.eqb_spec k key) as [-> | _]; [done | by apply IH].
Qed.

(** The rewritten link: when the replacement leaves an empty string the
    override is dropped, but then the source's link was empty as well. *)
Lemma override_link attrs items (o : obj) key (new link : string) :
  key ∈ attrs ->
  assoc key items = Some (VStr (re_sub_digits_end new link)) ->
  new <> "" -> ends_with_newline link = false ->
  o !! key = Some (VStr link) ->
  apply_overrides attrs (kw items) o !! key
  = Some (VStr (replace_trailing_number new link)).
Proof.
  intros Hin Hv Hnew Hnl Ho. rewrite (override_allowed _ _ _ _ _ Hin Hv).
  rewrite <- (re_sub_digits_end_spec _ _ Hnl).
  destruct (truthy _) eqn:Ht; [done |]. rewrite Ho. do 2 f_equal.
  simpl in Ht. apply negb_false_iff, bool_decide_eq_true in Ht.
  rewrite Ht. by apply re_sub_digits_end_nil in Ht.
Qed.

Lemma audit_copy_is_clone (o : obj) N t hr u num :
  allows ["title"; "id"; "href"; "url"; "code"] ->
  0 <= N -> 1 <= num ->
  o !! "href" = Some (VStr hr) -> o !! "url" = Some (VStr u) ->
  ends_with_newline hr = false -> ends_with_newline u = false ->
  is_clone_of o (audit_copy o N t hr u num)
    (t +:+ " - copy " +:+ str_int num) (N + num)
    (replace_trailing_number (str_int (N + num)) hr)
    (replace_trailing_number (str_int (N + num)) u)
    (upper _obj_audit +:+ "-" +:+ str_int (N + num)).
Proof.
  intros Hallow HN Hnum Hhref Hurl Hnlh Hnlu. unfold is_clone_of, audit_copy.
  pose proof (allows_elem _ "title" Hallow ltac:(set_solver)) as Htitle.
  pose proof (allows_elem _ "id" Hallow ltac:(set_solver)) as Hid.
  pose proof (allows_elem _ "href" Hallow ltac:(set_solver)) as Hh.
  pose proof (allows_elem _ "url" Hallow ltac:(set_solver)) as Hu.
  pose proof (allows_elem _ "code" Hallow ltac:(set_solver)) as Hcode.
  repeat split.
  - erewrite override_allowed by (done || reflexivity).
    rewrite append_assoc, truthy_str; [done |].
    by apply append_nonempty_r.
  - erewrite override_allowed by (done || reflexivity).
    simpl. by rewrite (proj2 (Z.eqb_neq (N + num) 0)) by lia.
  - eapply override_link; [done | reflexivity | apply str_int_nonempty | done..].
  - eapply override_link; [done | reflexivity | apply str_int_nonempty | done..].
  - erewrite override_allowed by (done || reflexivity).
    rewrite append_assoc, truthy_str; [done |].
    apply append_nonempty_r. by rewrite append_cons.
  - intros key Hkey. by apply override_absent, assoc_other.
Qed.

Lemma asmt_tmpl_copy_is_clone (o : obj) N t hr u num :
  allows ["title"; "id"; "href"; "url"; "code"] ->
  0 <= N -> 1 <= num ->
  o !! "title" = Some (VStr t) ->
  o !! "href" = Some (VStr hr) -> o !! "url" = Some (VStr u) ->
  ends_with_newline hr = false -> ends_with_newline u = false ->
  is_clone_of o (asmt_tmpl_copy o N hr u num)
    t (N + num)
    (replace_trailing_number (str_int (N + num)) hr)
    (replace_trailing_number (str_int (N + num)) u)
    ("TEMPLATE-" +:+ str_int (N + num)).
Proof.
  intros Hallow HN Hnum Htitle Hhref Hurl Hnlh Hnlu.
  unfold is_clone_of, asmt_tmpl_copy.
  pose proof (allows_elem _ "id" Hallow ltac:(set_solver)) as Hid.
  pose proof (allows_elem _ "href" Hallow ltac:(set_solver)) as Hh.
  pose proof (allows_elem _ "url" Hallow ltac:(set_solver)) as Hu.
  pose proof (allows_elem _ "code" Hallow ltac:(set_solver)) as Hcode.
  repeat split.
  - by rewrite override_absent.
  - erewrite override_allowed by (done || reflexivity).
    simpl. by rewrite (proj2 (Z.eqb_neq (N + num) 0)) by lia.
  - eapply override_link; [done | reflexivity | apply str_int_nonempty | done..].
  - eapply override_link; [done | reflexivity | apply str_int_nonempty | done..].
  - erewrite override_allowed by (done || reflexivity).
    rewrite truthy_str; [done |]. by rewrite append_cons.
  - intros key Hkey. apply override_absent, assoc_other.
    intros Hin. apply Hkey. by apply list_elem_of_further.
Qed.

Lemma returns_copies_intro r (s : state) k d' (f : Z -> obj) (nth_is : nat -> obj -> Prop) :
  r = Ok (Some (seq (length (heap s)) (Z.to_nat k)),
          State (heap s ++ (f <$> xrange 1 (k + 1))) d') ->
  (forall n : nat, (1 <= n <= Z.to_nat k)%nat -> nth_is n (f (Z.of_nat n))) ->
  returns_copies r s k nth_is.
Proof.
  intros -> Hnth. eexists _, _. split; [done |]. simpl.
  split; [by rewrite length_seq |]. split; [apply NoDup_seq |].
  split; [intros l x Hl; by apply lookup_app_l_Some |].
  intros n Hn. exists (length (heap s) + (n - 1))%nat, (f (Z.of_nat n)).
  split; [by rewrite lookup_seq_lt by lia |]. split; [lia |].
  split; [| by apply Hnth].
  rewrite lookup_app_r by lia.
  replace (length (heap s) + (n - 1) - length (heap s))%nat with (n - 1)%nat by lia.
  rewrite list_lookup_fmap, lookup_xrange by lia. simpl. do 2 f_equal. lia.
Qed.

(** C3, as the code has it: with the source at the count service's total,
    [clone] returns [count_to_clone] new objects, the [n]-th with id [N + n],
    href and url ending in [N + n] in place of their trailing number, the
    derived code, and every other attribute as in the source.  A cloned audit
    has the source's title followed by [" - copy n"]; a cloned assessment
    template keeps the source's title. *)
Theorem clone_makes_copies
    (s : state) (src : loc) (o : obj) (N : Z) (t hr u : string) (k : Z) :
  heap s !! src = Some o ->
  o !! "id" = Some (VInt N) ->
  o !! "title" = Some (VStr t) ->
  o !! "href" = Some (VStr hr) ->
  o !! "url" = Some (VStr u) ->
  ends_with_newline hr = false ->
  ends_with_newline u = false ->
  0 <= N ->
  allows ["title"; "id"; "href"; "url"; "code"] ->
  total_count _obj_audit = Ok N ->
  total_count _obj_asmt_tmpl = Ok N ->
  returns_copies (AuditsFactory.clone src k s) s k (fun n c =>
    is_clone_of o c
      (t +:+ " - copy " +:+ str_int (Z.of_nat n)) (N + Z.of_nat n)
      (replace_trailing_number (str_int (N + Z.of_nat n)) hr)
      (replace_trailing_number (str_int (N + Z.of_nat n)) u)
      (upper _obj_audit +:+ "-" +:+ str_int (N + Z.of_nat n))) /\
  returns_copies (AssessmentTemplatesFactory.clone src k s) s k (fun n c =>
    is_clone_of o c
      t (N + Z.of_nat n)
      (replace_trailing_number (str_int (N + Z.of_nat n)) hr)
      (replace_trailing_number (str_int (N + Z.of_nat n)) u)
      ("TEMPLATE-" +:+ str_int (N + Z.of_nat n))).
Proof.
  intros Hsrc Hid Htitle Hhref Hurl Hnlh Hnlu HN Hallow Haudits Htmpls.
  destruct s as [h d]. simpl in Hsrc. split.
  - destruct (audits_clone_run h d src o N t hr u k) as [d' Hrun]; [done..|].
    eapply returns_copies_intro; [exact Hrun |].
    intros n Hn. apply audit_copy_is_clone; (done || lia).
  - destruct (asmt_tmpls_clone_run h d src o N hr u k) as [d' Hrun]; [done..|].
    eapply returns_copies_intro; [exact Hrun |].
    intros n Hn. apply asmt_tmpl_copy_is_clone; (done || lia).
Qed.

End clone_fields.

Section generate_facts.
Context `{!collaborators}.
Import EntitiesFactory.

Lemma asmt_create_run
    (title id href url type object audit creators assignees primary_contact
       is_verified code state last_update : value) h d :
  exists (o : obj) d',
    AssessmentsFactory.create title id href url type object audit creators
      assignees primary_contact is_verified code state last_update (State h d)
    = Ok (length h,
          State (h ++ [apply_overrides all_objs_attrs_names
            (kw [("title", title); ("id", id); ("href", href); ("url", url);
                 ("type", type); ("object", object); ("audit", audit);
                 ("creators", creators); ("assignees", assignees);
                 ("primary_contact", primary_contact);
                 ("is_verified", is_verified); ("code", code);
                 ("state", state); ("last_update", last_update)]) o]) d').
Proof.
  destruct (_create_random_asmt_run h d) as (o & d' & Hrun & _).
  exists o, d'. unfold AssessmentsFactory.create. by apply create_run.
Qed.

Lemma elem_of_enumerate {A} (xs : list A) start num x :
  (num, x) ∈ enumerate xs start -> x ∈ xs.
Proof.
  unfold enumerate. intros [i Hi]%list_elem_of_lookup_1.
  rewrite list_lookup_imap in Hi.
  destruct (xs !! i) as [y|] eqn:Hy; [| done].
  injection Hi as _ <-. by eapply list_elem_of_lookup_2.
Qed.

Lemma lookup_enumerate {A} (xs : list A) start i x :
  xs !! i = Some x -> enumerate xs start !! i = Some (start + Z.of_nat i, x).
Proof. intros Hx. unfold enumerate. by rewrite list_lookup_imap, Hx. Qed.

Lemma has_title_inj s l t t' : has_title s l t -> has_title s l t' -> t = t'.
Proof. intros (o & Ho & Ht) (o' & Ho' & Ht'). congruence. Qed.

Lemma generate_run h d objs titles audit (ao : obj) audit_title T :
  Forall2 (has_title (State h d)) objs titles ->
  h !! audit = Some ao ->
  ao !! "title" = Some (VStr audit_title) ->
  audit_title <> "" ->
  allows ["title"; "code"; "audit"] ->
  total_count _obj_asmt = Ok T ->
  exists cs d',
    AssessmentsFactory.generate objs audit (State h d)
    = Ok (seq (length h) (length objs), State (h ++ cs) d') /\
    Forall2 (generated (State h d) audit_title) (enumerate objs (T + 1)) cs.
Proof.
  intros Htitles Haudit Hat Hne Hallow Hcount.
  unfold AssessmentsFactory.generate, total_count in *.
  destruct (get_normal_form (VStr _obj_asmt) (Some false)) as [obj_name|]; [| done].
  rewrite (bind_ok _ _ _ _ _ (lift_run _ _)), Hcount.
  rewrite (bind_ok _ _ _ _ _ (lift_run _ _)).
  edestruct (list_comp_alloc (enumerate objs (T + 1)))
    with (Q := generated (State h d) audit_title)
         (P := fun h' : list obj => forall l x, h !! l = Some x -> h' !! l = Some x)
    as (cs & d' & Hrun & HQ); [| | by auto | ].
  { intros h' c Hh' l x Hl. by apply lookup_app_l_Some, Hh'. }
  2:{ exists cs, d'. rewrite Hrun. unfold enumerate. by rewrite length_imap. }
  intros [num l] h' d0 Hin Hh'.
  apply elem_of_enumerate in Hin.
  apply list_elem_of_lookup_1 in Hin as [i Hi].
  destruct (Forall2_lookup_l _ _ _ _ _ Htitles Hi) as (t & _ & (oo & Hoo & Ht)).
  simpl in Hoo.
  destruct (asmt_create_run
    (VStr ((t +:+ " assessment for ") +:+ audit_title)) VNone VNone VNone VNone
    VNone (VStr audit_title) VNone VNone VNone VNone
    (VStr ((upper _obj_asmt +:+ "-") +:+ str_int num)) VNone VNone h' d0)
    as (o0 & d1 & Hcreate).
  eexists _, d1. split.
  - pose proof (Hh' _ _ Hoo) as Hobj. pose proof (Hh' _ _ Haudit) as Haud.
    rewrite (bind_ok _ _ _ _ _ (getattr_run _ _ _ _ _ _ Hobj Ht)).
    clone_step.
    rewrite (bind_ok _ _ _ _ _ (getattr_run _ _ _ _ _ _ Haud Hat)).
    do 2 clone_step.
    rewrite (bind_ok _ _ _ _ _ (getattr_run _ _ _ _ _ _ Haud Hat)).
    exact Hcreate.
  - intros t' Ht'.
    assert (t' = t) as -> by (eapply has_title_inj; [done | by exists oo]).
    pose proof (allows_elem _ "title" Hallow ltac:(set_solver)) as Htitle.
    pose proof (allows_elem _ "code" Hallow ltac:(set_solver)) as Hcode.
    pose proof (allows_elem _ "audit" Hallow ltac:(set_solver)) as Haud.
    repeat split; erewrite override_allowed by (done || reflexivity).
    + rewrite append_assoc, truthy_str; [done |].
      by apply append_nonempty_r.
    + rewrite append_assoc, truthy_str; [done |].
      apply append_nonempty_r. by rewrite append_cons.
    + by rewrite truthy_str.
Qed.

(** C4: [generate] returns one new assessment per object, in the order of
    the objects; the one for the [n]-th object (from 1) has the title
    ["{object.title} assessment for {audit.title}"], the code
    ["ASSESSMENT-{T + n}"] and the audit's title as its [audit]. *)
Theorem generate_assessments
    (s : state) (objs : list loc) (titles : list string)
    (audit : loc) (ao : obj) (audit_title : string) (T : Z) :
  Forall2 (has_title s) objs titles ->
  heap s !! audit = Some ao ->
  ao !! "title" = Some (VStr audit_title) ->
  audit_title <> "" ->
  allows ["title"; "code"; "audit"] ->
  total_count _obj_asmt = Ok T ->
  upper _obj_asmt = "ASSESSMENT" ->
  exists (asmts : list loc) (s' : state),
    AssessmentsFactory.generate objs audit s = Ok (asmts, s') /\
    length asmts = length objs /\
    forall (n : nat) (t : string),
      (1 <= n)%nat -> titles !! (n - 1)%nat = Some t ->
      exists (l : loc) (c : obj),
        asmts !! (n - 1)%nat = Some l /\
        heap s' !! l = Some c /\
        c !! "title" = Some (VStr (t +:+ " assessment for " +:+ audit_title)) /\
        c !! "code" = Some (VStr ("ASSESSMENT-" +:+ str_int (T + Z.of_nat n))) /\
        c !! "audit" = Some (VStr audit_title).
Proof.
  intros Htitles Haudit Hat Hne Hallow Hcount Hupper. destruct s as [h d].
  destruct (generate_run h d objs titles audit ao audit_title T)
    as (cs & d' & Hrun & Hgen); [done..|].
  exists (seq (length h) (length objs)), (State (h ++ cs) d').
  split; [done |]. split; [by rewrite length_seq |].
  intros n t Hn Ht.
  destruct (Forall2_lookup_r _ _ _ _ _ Htitles Ht) as (l0 & Hl0 & Htitle).
  pose proof (lookup_enumerate _ (T + 1) _ _ Hl0) as Hx.
  destruct (Forall2_lookup_l _ _ _ _ _ Hgen Hx) as (c & Hc & Hfields).
  destruct (Hfields t Htitle) as (Hf1 & Hf2 & Hf3). simpl in Hf2.
  exists (length h + (n - 1))%nat, c.
  split; [by rewrite lookup_seq_lt by (by eapply lookup_lt_Some) |].
  split.
  { simpl. rewrite lookup_app_r by lia.
    by replace (length h + (n - 1) - length h)%nat with (n - 1)%nat by lia. }
  split; [done |]. split; [| done].
  rewrite Hf2, Hupper.
  by replace (T + 1 + Z.of_nat (n - 1)) with (T + Z.of_nat n) by lia.
Qed.

End generate_facts.

Section ca_facts.
Context `{!collaborators}.
Import EntitiesFactory.

Lemma if_run {B} (b : bool) (m : M unit) (k : M B) (o o' : obj) h d :
  (b = true -> m (State (h ++ [o]) d) = Ok (tt, State (h ++ [o']) d)) ->
  ((if b then m else mret tt) ;; k) (State (h ++ [o]) d)
  = k (State (h ++ [if b then o' else o]) d).
Proof.
  intros Hm. destruct b.
  - by rewrite (bind_ok _ _ _ _ _ (Hm eq_refl)).
  - by rewrite (bind_ok _ _ _ _ _ (ret_run _ _)).
Qed.

(** [if fields.get(key): setattr(obj, name, fields[source])] *)
Lemma set_from_dict_run (f : kwargs) source name (o : obj) h d :
  is_Some (f !! source) ->
  (v ← lift (dict_index f source); setattr (length h) name v) (State (h ++ [o]) d)
  = Ok (tt, State (h ++ [<[name := dict_get f source]> o]) d).
Proof.
  intros [v Hv]. unfold dict_index, dict_get. rewrite Hv. simpl.
  rewrite (bind_ok _ _ _ _ _ (lift_run _ _)). apply setattr_fresh.
Qed.

Lemma truthy_is_Some (f : kwargs) key : truthy (dict_get f key) = true -> is_Some (f !! key).
Proof. unfold dict_get. destruct (f !! key); [eauto | done]. Qed.

Lemma random_list_strings_run n h d :
  (random_string_size = 0%nat \/ random_string_chars <> "") ->
  exists options d',
    random_list_strings n (State h d) = Ok (options, State h d') /\
    length options = n.
Proof.
  intros Hok. unfold random_list_strings.
  assert (forall xs : list nat, forall d, exists options d',
    list_comp xs (fun _ => random_string random_string_size
                    (String.list_ascii_of_string random_string_chars)) (State h d)
      = Ok (options, State h d') /\ length options = length xs) as Hloop.
  { induction xs as [|x xs IH]; intros d0; simpl.
    - by exists [], d0.
    - destruct (random_string_run random_string_size
                  (String.list_ascii_of_string random_string_chars) h d0)
        as (str & Hstr & _).
      { destruct Hok as [? | Hne]; [by left | right].
        by destruct random_string_chars. }
      destruct (IH (d0 + random_string_size)%nat) as (options & d' & Hrest & Hlen).
      exists (str :: options), d'.
      rewrite (bind_ok _ _ _ _ _ Hstr), (bind_ok _ _ _ _ _ Hrest), ret_run.
      simpl. by rewrite Hlen. }
  destruct (Hloop (seq 0 n) d) as (options & d' & Hrun & Hlen).
  exists options, d'. by rewrite length_seq in Hlen.
Qed.

Lemma ca_type_of_lookup (o : obj) :
  is_Some (o !! "ca_type") -> o !! "ca_type" = Some (ca_type_of o).
Proof. intros [v Hv]. unfold ca_type_of. by rewrite Hv. Qed.

Lemma set_if_ca_type b name v (o : obj) :
  name <> "ca_type" -> set_if b name v o !! "ca_type" = o !! "ca_type".
Proof. intros Hne. unfold set_if. destruct b; [by rewrite lookup_insert_ne | done]. Qed.

(** The [ca_type] override, with the title generated from it. *)
Lemma fill_ca_type_run (f : kwargs) (o : obj) h d :
  exists title1 d1,
    forall B (k : M B),
      ((if truthy (dict_get f "ca_type")
        then
          v ← lift (dict_index f "ca_type");
          setattr (length h) "ca_type" v;;
          ca_type ← getattr (length h) "ca_type";
          title ← _generate_title ca_type;
          setattr (length h) "title" (VStr title)
        else mret tt) ;; k) (State (h ++ [o]) d)
      = k (State (h ++ [if truthy (dict_get f "ca_type")
                        then <["title" := VStr title1]>
                               (<["ca_type" := dict_get f "ca_type"]> o)
                        else o]) d1).
Proof.
  destruct (truthy (dict_get f "ca_type")) eqn:Ht.
  - destruct (_generate_title_run (dict_get f "ca_type")
                (h ++ [<["ca_type" := dict_get f "ca_type"]> o]) d)
      as (sfx & Htitle & _).
    eexists _, _. intros B k.
    rewrite (dict_index_truthy _ _ Ht).
    erewrite bind_ok; [reflexivity |].
    rewrite (bind_ok _ _ _ _ _ (lift_run _ _)).
    rewrite (bind_ok _ _ _ _ _ (setattr_fresh _ _ _ _ _)).
    erewrite bind_ok by (apply getattr_fresh, lookup_insert_eq).
    rewrite (bind_ok _ _ _ _ _ Htitle).
    apply setattr_fresh.
  - exists "", d. intros B k. by rewrite (bind_ok _ _ _ _ _ (ret_run _ _)).
Qed.

(** The [placeholder] override, for Text and Rich Text only. *)
Lemma fill_placeholder_run (f : kwargs) (o : obj) h d :
  is_Some (o !! "ca_type") ->
  forall B (k : M B),
    ((if truthy (dict_get f "placeholder")
      then
        ca_type ← getattr (length h) "ca_type";
        if py_eq ca_type TEXT || py_eq ca_type RICH_TEXT
        then
          v ← lift (dict_index f "placeholder");
          setattr (length h) "placeholder" v
        else mret tt
      else mret tt) ;; k) (State (h ++ [o]) d)
    = k (State (h ++ [set_if (truthy (dict_get f "placeholder") &&
                              (py_eq (ca_type_of o) TEXT ||
                               py_eq (ca_type_of o) RICH_TEXT))
                        "placeholder" (dict_get f "placeholder") o]) d).
Proof.
  intros Hct B k. destruct (truthy (dict_get f "placeholder")) eqn:Ht; simpl.
  - erewrite bind_ok; [reflexivity |].
    erewrite bind_ok by (apply getattr_fresh, ca_type_of_lookup, Hct).
    destruct (py_eq (ca_type_of o) TEXT || py_eq (ca_type_of o) RICH_TEXT).
    + by apply set_from_dict_run, truthy_is_Some.
    + done.
  - by rewrite (bind_ok _ _ _ _ _ (ret_run _ _)).
Qed.

(** The possible values of a dropdown. *)
Lemma fill_options_run (f : kwargs) (o : obj) h d :
  is_Some (o !! "ca_type") ->
  (random_string_size = 0%nat \/ random_string_chars <> "") ->
  exists options d',
    length options = 3%nat /\
    (ca_type ← getattr (length h) "ca_type";
     (if py_eq ca_type DROPDOWN
      then
        given ← (if truthy (dict_get f "multi_choice_options")
                 then
                   v ← lift (dict_index f "multi_choice_options");
                   mret (negb (is_None v))
                 else mret false);
        if given : bool
        then
          v ← lift (dict_index f "multi_choice_options");
          setattr (length h) "multi_choice_options" v
        else
          options ← random_list_strings 3;
          setattr (length h) "multi_choice_options" (VList (VStr <$> options))
      else mret tt);;
     mret (length h)) (State (h ++ [o]) d)
    = Ok (length h,
          State (h ++ [set_if (py_eq (ca_type_of o) DROPDOWN) "multi_choice_options"
                         (if truthy (dict_get f "multi_choice_options") &&
                             negb (is_None (dict_get f "multi_choice_options"))
                          then dict_get f "multi_choice_options"
                          else VList (VStr <$> options)) o]) d').
Proof.
  intros Hct Hrand.
  destruct (random_list_strings_run 3 (h ++ [o]) d Hrand)
    as (options & d2 & Hoptions & Hlen).
  exists options.
  assert (forall m : M unit, forall o' d',
    m (State (h ++ [o]) d) = Ok (tt, State (h ++ [o']) d') ->
    (m ;; mret (length h)) (State (h ++ [o]) d)
    = Ok (length h, State (h ++ [o']) d')) as Hlast.
  { intros m o' d' Hm. by rewrite (bind_ok _ _ _ _ _ Hm). }
  erewrite bind_ok by (apply getattr_fresh, ca_type_of_lookup, Hct).
  unfold set_if. destruct (py_eq (ca_type_of o) DROPDOWN).
  - destruct (truthy (dict_get f "multi_choice_options")) eqn:Ht; simpl.
    + exists (if is_None (dict_get f "multi_choice_options") then d2 else d).
      split; [done |]. apply Hlast.
      rewrite (dict_index_truthy _ _ Ht).
      erewrite bind_ok;
        [| erewrite bind_ok by apply lift_run; apply ret_run].
      destruct (is_None (dict_get f "multi_choice_options")); simpl.
      * rewrite (bind_ok _ _ _ _ _ Hoptions). apply setattr_fresh.
      * erewrite bind_ok by apply lift_run. apply setattr_fresh.
    + exists d2. split; [done |]. apply Hlast.
      rewrite (bind_ok _ _ _ _ _ (ret_run _ _)).
      rewrite (bind_ok _ _ _ _ _ Hoptions). apply setattr_fresh.
  - exists d. split; [done |]. by apply Hlast.
Qed.

Lemma _fill_ca_entity_fields_run (f : kwargs) (o : obj) h d :
  is_Some (o !! "ca_type") ->
  is_Some (f !! "definition_type") ->
  (random_string_size = 0%nat \/ random_string_chars <> "") ->
  exists title1 options d',
    length options = 3%nat /\
    CAFactory._fill_ca_entity_fields (length h) f (State (h ++ [o]) d)
    = Ok (length h, State (h ++ [fill_ca f title1 options o]) d').
Proof.
  intros Hct Hdef Hrand.
  destruct (fill_ca_type_run f o h d) as (title1 & d1 & Hfirst).
  pose (o1 := if truthy (dict_get f "ca_type")
              then <["title" := VStr title1]> (<["ca_type" := dict_get f "ca_type"]> o)
              else o).
  pose (o2 := set_if (truthy (dict_get f "definition_type"))
                "definition_type" (dict_get f "definition_type") o1).
  pose (o3 := set_if (truthy (dict_get f "title"))
                "title" (dict_get f "definition_type") o2).
  pose (o4 := set_if (truthy (dict_get f "placeholder") &&
                      (py_eq (ca_type_of o3) TEXT || py_eq (ca_type_of o3) RICH_TEXT))
                "placeholder" (dict_get f "placeholder") o3).
  pose (o5 := set_if (truthy (dict_get f "helptext"))
                "helptext" (dict_get f "helptext") o4).
  pose (o6 := set_if (truthy (dict_get f "is_mandatory"))
                "is_mandatory" (dict_get f "is_mandatory") o5).
  pose (o7 := set_if (truthy (dict_get f "ca_global"))
                "ca_global" (dict_get f "ca_global") o6).
  assert (is_Some (o1 !! "ca_type")) as Hct1.
  { unfold o1. destruct (truthy _); [| done].
    rewrite lookup_insert_ne by done. rewrite lookup_insert_eq. eauto. }
  assert (is_Some (o3 !! "ca_type")) as Hct3
    by (unfold o3, o2; by rewrite !set_if_ca_type).
  assert (is_Some (o7 !! "ca_type")) as Hct7
    by (unfold o7, o6, o5, o4; by rewrite !set_if_ca_type).
  destruct (fill_options_run f o7 h d1 Hct7 Hrand) as (options & d' & Hlen & Hlast).
  exists title1, options, d'. split; [done |].
  etrans; [| exact Hlast].
  unfold CAFactory._fill_ca_entity_fields.
  rewrite Hfirst. change (h ++ [_]) with (h ++ [o1]) at 1.
  erewrite if_run
    by (intros Ht; by apply set_from_dict_run, truthy_is_Some).
  change (h ++ [_]) with (h ++ [o2]) at 1.
  erewrite if_run by (intros Ht; by apply set_from_dict_run).
  change (h ++ [_]) with (h ++ [o3]) at 1.
  rewrite (fill_placeholder_run f o3 h d1 Hct3).
  change (h ++ [_]) with (h ++ [o4]) at 1.
  erewrite if_run
    by (intros Ht; by apply set_from_dict_run, truthy_is_Some).
  change (h ++ [_]) with (h ++ [o5]) at 1.
  erewrite if_run
    by (intros Ht; by apply set_from_dict_run, truthy_is_Some).
  change (h ++ [_]) with (h ++ [o6]) at 1.
  erewrite if_run
    by (intros Ht; by apply set_from_dict_run, truthy_is_Some).
  reflexivity.
Qed.

End ca_facts.

Section ca_create_facts.
Context `{!collaborators}.
Import EntitiesFactory.

Lemma set_if_lookup_ne b name v (o : obj) key :
  name <> key -> set_if b name v o !! key = o !! key.
Proof. intros Hne. unfold set_if. destruct b; [by rewrite lookup_insert_ne | done]. Qed.

Lemma set_if_lookup_eq b name v (o : obj) :
  set_if b name v o !! name = if b then Some v else o !! name.
Proof. unfold set_if. destruct b; [by rewrite lookup_insert_eq | done]. Qed.

Lemma ca_type_of_set_if b name v (o : obj) :
  name <> "ca_type" -> ca_type_of (set_if b name v o) = ca_type_of o.
Proof. intros Hne. unfold ca_type_of. by rewrite set_if_lookup_ne. Qed.

Lemma fill_ca_fields (f : kwargs) title1 options (o : obj) :
  is_Some (o !! "ca_type") ->
  let c := fill_ca f title1 options o in
  let ct := effective_ca_type f o in
  c !! "ca_type" = Some ct /\
  c !! "definition_type"
    = (if truthy (dict_get f "definition_type")
       then Some (dict_get f "definition_type") else o !! "definition_type") /\
  c !! "title"
    = (if truthy (dict_get f "title") then Some (dict_get f "definition_type")
       else if truthy (dict_get f "ca_type") then Some (VStr title1)
       else o !! "title") /\
  c !! "placeholder"
    = (if truthy (dict_get f "placeholder") && is_free_text ct
       then Some (dict_get f "placeholder") else o !! "placeholder") /\
  c !! "multi_choice_options"
    = (if py_eq ct DROPDOWN
       then Some (if truthy (dict_get f "multi_choice_options") &&
                     negb (is_None (dict_get f "multi_choice_options"))
                  then dict_get f "multi_choice_options"
                  else VList (VStr <$> options))
       else o !! "multi_choice_options").
Proof.
  intros Hct c ct. subst c. unfold fill_ca. cbv zeta.
  set (o1 := if truthy (dict_get f "ca_type") then _ else o).
  assert (ca_type_of o1 = ct) as Hct1.
  { subst o1 ct. unfold effective_ca_type, ca_type_of.
    destruct (truthy _); [| done].
    rewrite lookup_insert_ne by done. by rewrite lookup_insert_eq. }
  assert (o1 !! "ca_type" = Some ct) as Hl1.
  { rewrite <- Hct1. apply ca_type_of_lookup. subst o1.
    destruct (truthy _); [| done].
    rewrite lookup_insert_ne by done. rewrite lookup_insert_eq. eauto. }
  assert (forall key, key <> "title" -> key <> "ca_type" -> o1 !! key = o !! key)
    as Hother.
  { intros key Hk1 Hk2. subst o1. destruct (truthy _); [| done].
    by rewrite !lookup_insert_ne. }
  assert (o1 !! "title" = if truthy (dict_get f "ca_type")
                          then Some (VStr title1) else o !! "title") as Htitle1.
  { subst o1. destruct (truthy _); [by rewrite lookup_insert_eq | done]. }
  clearbody o1.
  rewrite !ca_type_of_set_if, Hct1 by done.
  repeat split.
  - by rewrite !set_if_lookup_ne.
  - rewrite !set_if_lookup_ne, set_if_lookup_eq by done. by rewrite Hother.
  - rewrite !set_if_lookup_ne, set_if_lookup_eq, set_if_lookup_ne by done.
    by rewrite Htitle1.
  - rewrite !set_if_lookup_ne, set_if_lookup_eq, !set_if_lookup_ne by done.
    by rewrite Hother.
  - rewrite set_if_lookup_eq, !set_if_lookup_ne by done. by rewrite Hother.
Qed.

Lemma _create_random_ca_run h d :
  ALL_ATTRS_TYPES <> [] -> ALL_CA_OBJECTS <> [] ->
  exists ct0 title0 dt0 d',
    ct0 ∈ ALL_ATTRS_TYPES /\ dt0 ∈ ALL_CA_OBJECTS /\
    CAFactory._create_random_ca (State h d)
    = Ok (length h,
          State (h ++ [<["definition_type" := dt0]>
                         (<["title" := VStr title0]>
                            (<["ca_type" := ct0]>
                               (entity_new CustomAttributeEntity)))]) d').
Proof.
  intros Htypes Hobjs. unfold CAFactory._create_random_ca.
  destruct (random_choice_run ALL_ATTRS_TYPES
              (h ++ [entity_new CustomAttributeEntity]) d Htypes)
    as (ct0 & Hct0 & Hchoice).
  destruct (_generate_title_run ct0
              (h ++ [<["ca_type" := ct0]> (entity_new CustomAttributeEntity)]) (S d))
    as (sfx & Htitle & _).
  edestruct (random_choice_run ALL_CA_OBJECTS) as (dt0 & Hdt0 & Hchoice'); [done |].
  exists ct0. eexists _, dt0, _. split; [done |]. split; [done |].
  rewrite (bind_ok _ _ _ _ _ (new_object_run _ _ _)).
  rewrite (bind_ok _ _ _ _ _ Hchoice).
  rewrite (bind_ok _ _ _ _ _ (setattr_fresh _ _ _ _ _)).
  erewrite bind_ok by (apply getattr_fresh, lookup_insert_eq).
  rewrite (bind_ok _ _ _ _ _ Htitle).
  rewrite (bind_ok _ _ _ _ _ (setattr_fresh _ _ _ _ _)).
  rewrite (bind_ok _ _ _ _ _ Hchoice').
  by rewrite (bind_ok _ _ _ _ _ (setattr_fresh _ _ _ _ _)).
Qed.

Lemma _normalize_ca_definition_type_run (o : obj) dv dtn h d :
  o !! "definition_type" = Some dv ->
  get_normal_form dv None = Ok dtn ->
  CAFactory._normalize_ca_definition_type (length h) (State (h ++ [o]) d)
  = Ok (length h, State (h ++ [<["definition_type" := dtn]> o]) d).
Proof.
  intros Hdv Hdtn. unfold CAFactory._normalize_ca_definition_type.
  erewrite bind_ok by (by apply getattr_fresh).
  rewrite Hdtn, (bind_ok _ _ _ _ _ (lift_run _ _)).
  by rewrite (bind_ok _ _ _ _ _ (setattr_fresh _ _ _ _ _)).
Qed.

(** [CAFactory.create] returns a new entity, and these are its kind, title,
    placeholder and possible values. *)
Lemma ca_create_returns
    (title ca_type definition_type helptext placeholder multi_choice_options
       is_mandatory ca_global : value) (s : state) :
  ca_collaborators_ok ->
  (truthy definition_type = true -> normalizes definition_type) ->
  exists (o : obj) (s' : state) (ct : value) (generated_title : string)
         (options : list string),
    CAFactory.create title ca_type definition_type helptext placeholder
      multi_choice_options is_mandatory ca_global s
      = Ok (length (heap s), s') /\
    heap s' = heap s ++ [o] /\
    length options = 3%nat /\
    (if truthy ca_type then ct = ca_type else ct ∈ ALL_ATTRS_TYPES) /\
    o !! "ca_type" = Some ct /\
    o !! "title"
      = (if truthy title then Some definition_type
         else Some (VStr generated_title)) /\
    o !! "placeholder"
      = (if truthy placeholder && is_free_text ct then Some placeholder
         else entity_new CustomAttributeEntity !! "placeholder") /\
    o !! "multi_choice_options"
      = (if py_eq ct DROPDOWN
         then Some (if truthy multi_choice_options &&
                       negb (is_None multi_choice_options)
                    then multi_choice_options
                    else VList (VStr <$> options))
         else entity_new CustomAttributeEntity !! "multi_choice_options").
Proof.
  intros (Htypes & Hobjs & Hnormal & Hrand) Hdef. destruct s as [h d].
  destruct (_create_random_ca_run h d Htypes Hobjs)
    as (ct0 & title0 & dt0 & d0 & Hct0 & Hdt0 & Hrandom).
  set (o0 := <["definition_type" := dt0]> (<["title" := VStr title0]>
               (<["ca_type" := ct0]> (entity_new CustomAttributeEntity)))) in *.
  set (f := ca_fields title ca_type definition_type helptext placeholder
              multi_choice_options is_mandatory ca_global).
  assert (o0 !! "ca_type" = Some ct0) as Hl0.
  { subst o0. rewrite !lookup_insert_ne by done. apply lookup_insert_eq. }
  assert (is_Some (f !! "definition_type")) as Hfdef.
  { subst f. unfold ca_fields. rewrite kw_lookup. simpl. eauto. }
  destruct (_fill_ca_entity_fields_run f o0 h d0 (mk_is_Some _ _ Hl0) Hfdef Hrand)
    as (title1 & options & d1 & Hlen & Hfill).
  destruct (fill_ca_fields f title1 options o0 (mk_is_Some _ _ Hl0))
    as (Hf_ct & Hf_def & Hf_title & Hf_ph & Hf_mco).
  assert (forall key v, assoc key
            [("title", title); ("ca_type", ca_type);
             ("definition_type", definition_type); ("helptext", helptext);
             ("placeholder", placeholder);
             ("multi_choice_options", multi_choice_options);
             ("is_mandatory", is_mandatory); ("ca_global", ca_global)] = Some v ->
          dict_get f key = v) as Hget.
  { intros key v Hv. subst f. unfold ca_fields. by rewrite dict_get_kw, Hv. }
  rewrite (Hget "definition_type" definition_type eq_refl) in Hf_def, Hf_title.
  rewrite (Hget "title" title eq_refl) in Hf_title.
  rewrite (Hget "placeholder" placeholder eq_refl) in Hf_ph.
  rewrite (Hget "multi_choice_options" multi_choice_options eq_refl) in Hf_mco.
  assert (effective_ca_type f o0 = if truthy ca_type then ca_type else ct0) as Hct.
  { unfold effective_ca_type, ca_type_of.
    by rewrite (Hget "ca_type" ca_type eq_refl), Hl0. }
  rewrite (Hget "ca_type" ca_type eq_refl) in Hf_title.
  (* the definition type has a normal form *)
  assert (exists dv dtn,
    fill_ca f title1 options o0 !! "definition_type" = Some dv /\
    get_normal_form dv None = Ok dtn) as (dv & dtn & Hdv & Hdtn).
  { rewrite Hf_def. destruct (truthy definition_type) eqn:Ht.
    - destruct (Hdef eq_refl) as [w Hw]. by exists definition_type, w.
    - rewrite Forall_forall in Hnormal. destruct (Hnormal dt0 Hdt0) as [w Hw].
      exists dt0, w. split; [| done]. subst o0. apply lookup_insert_eq. }
  exists (<["definition_type" := dtn]> (fill_ca f title1 options o0)).
  exists (State (h ++ [<["definition_type" := dtn]> (fill_ca f title1 options o0)]) d1).
  exists (effective_ca_type f o0),
         (if truthy ca_type then title1 else title0), options.
  split.
  { unfold CAFactory.create. fold f.
    rewrite (bind_ok _ _ _ _ _ Hrandom), (bind_ok _ _ _ _ _ Hfill).
    by rewrite (bind_ok _ _ _ _ _ (_normalize_ca_definition_type_run _ _ _ _ _ Hdv Hdtn)). }
  split; [done |]. split; [done |].
  split; [rewrite Hct; by destruct (truthy ca_type) |].
  rewrite !lookup_insert_ne by done.
  split; [done |]. split.
  { rewrite Hf_title. destruct (truthy title); [done |].
    destruct (truthy ca_type); [done |]. subst o0.
    rewrite lookup_insert_ne by done. by rewrite lookup_insert_eq. }
  split.
  { rewrite Hf_ph. destruct (_ && _); [done |]. subst o0.
    by rewrite !lookup_insert_ne. }
  rewrite Hf_mco. destruct (py_eq _ _); [done |]. subst o0.
  by rewrite !lookup_insert_ne.
Qed.

End ca_create_facts.

Section ca_claims.
Context `{!collaborators}.

(** C5: with a truthy [title] override, [CAFactory.create] returns an entity
    whose title is the value of the [definition_type] argument, whatever the
    title supplied. *)
Theorem ca_title_is_definition_type_argument
    (title ca_type definition_type helptext placeholder multi_choice_options
       is_mandatory ca_global : value) (s : state) :
  ca_collaborators_ok ->
  (truthy definition_type = true -> normalizes definition_type) ->
  truthy title = true ->
  exists (e : loc) (o : obj) (s' : state),
    CAFactory.create title ca_type definition_type helptext placeholder
      multi_choice_options is_mandatory ca_global s = Ok (e, s') /\
    heap s' !! e = Some o /\
    o !! "title" = Some definition_type.
Proof.
  intros Hok Hdef Htitle.
  destruct (ca_create_returns title ca_type definition_type helptext placeholder
              multi_choice_options is_mandatory ca_global s Hok Hdef)
    as (o & s' & ct & gt & options & Hrun & Hheap & _ & _ & _ & Ht & _).
  exists (length (heap s)), o, s'. split; [done |].
  split; [rewrite Hheap; apply lookup_fresh |].
  by rewrite Ht, Htitle.
Qed.

(** C6, as the code has it: a truthy [placeholder] override is on the
    returned entity when its kind is Text or Rich Text; for any other kind,
    and for a falsy override, the entity has the placeholder of a fresh
    instance. *)
Theorem ca_placeholder_policy
    (title ca_type definition_type helptext placeholder multi_choice_options
       is_mandatory ca_global : value) (s : state) :
  ca_collaborators_ok ->
  (truthy definition_type = true -> normalizes definition_type) ->
  exists (e : loc) (o : obj) (s' : state) (ct : value),
    CAFactory.create title ca_type definition_type helptext placeholder
      multi_choice_options is_mandatory ca_global s = Ok (e, s') /\
    heap s' !! e = Some o /\
    o !! "ca_type" = Some ct /\
    (if truthy ca_type then ct = ca_type else ct ∈ ALL_ATTRS_TYPES) /\
    (truthy placeholder = true -> is_free_text ct = true ->
       o !! "placeholder" = Some placeholder) /\
    (is_free_text ct = false ->
       o !! "placeholder" = entity_new CustomAttributeEntity !! "placeholder") /\
    (truthy placeholder = false ->
       o !! "placeholder" = entity_new CustomAttributeEntity !! "placeholder").
Proof.
  intros Hok Hdef.
  destruct (ca_create_returns title ca_type definition_type helptext placeholder
              multi_choice_options is_mandatory ca_global s Hok Hdef)
    as (o & s' & ct & gt & options & Hrun & Hheap & _ & Hct & Hkind & _ & Hph & _).
  exists (length (heap s)), o, s', ct. split; [done |].
  split; [rewrite Hheap; apply lookup_fresh |].
  split; [done |]. split; [done |]. rewrite Hph.
  split; [| split].
  - by intros -> ->.
  - intros ->. by rewrite andb_false_r.
  - by intros ->.
Qed.

(** C7: when the returned entity's kind is Dropdown and the
    [multi_choice_options] override is [None] (or any other falsy value), its
    [multi_choice_options] is a list of exactly 3 entries; when its kind is
    not Dropdown, the attribute is what a fresh instance has, whatever the
    override. *)
Theorem ca_dropdown_gets_three_options
    (title ca_type definition_type helptext placeholder multi_choice_options
       is_mandatory ca_global : value) (s : state) :
  ca_collaborators_ok ->
  (truthy definition_type = true -> normalizes definition_type) ->
  exists (e : loc) (o : obj) (s' : state) (ct : value),
    CAFactory.create title ca_type definition_type helptext placeholder
      multi_choice_options is_mandatory ca_global s = Ok (e, s') /\
    heap s' !! e = Some o /\
    o !! "ca_type" = Some ct /\
    (if truthy ca_type then ct = ca_type else ct ∈ ALL_ATTRS_TYPES) /\
    (py_eq ct DROPDOWN = true -> truthy multi_choice_options = false ->
       exists l : list value,
         o !! "multi_choice_options" = Some (VList l) /\ length l = 3%nat) /\
    (py_eq ct DROPDOWN = false ->
       o !! "multi_choice_options"
       = entity_new CustomAttributeEntity !! "multi_choice_options").
Proof.
  intros Hok Hdef.
  destruct (ca_create_returns title ca_type definition_type helptext placeholder
              multi_choice_options is_mandatory ca_global s Hok Hdef)
    as (o & s' & ct & gt & options & Hrun & Hheap & Hlen & Hct & Hkind & _ & _ & Hmco).
  exists (length (heap s)), o, s', ct. split; [done |].
  split; [rewrite Hheap; apply lookup_fresh |].
  split; [done |]. split; [done |]. rewrite Hmco. split.
  - intros -> ->. simpl. exists (VStr <$> options).
    split; [done | by rewrite length_fmap].
  - by intros ->.
Qed.

(** C10: with a truthy [title] override and [definition_type] left at its
    default [None], [CAFactory.create] returns an entity whose title is
    [None]: not a string at all, and not the title supplied. *)
Theorem ca_title_override_yields_None
    (title ca_type helptext placeholder multi_choice_options
       is_mandatory ca_global : value) (s : state) :
  ca_collaborators_ok ->
  truthy title = true ->
  exists (e : loc) (o : obj) (s' : state),
    CAFactory.create title ca_type VNone helptext placeholder
      multi_choice_options is_mandatory ca_global s = Ok (e, s') /\
    heap s' !! e = Some o /\
    o !! "title" = Some VNone /\
    o !! "title" <> Some title /\
    (forall t : string, o !! "title" <> Some (VStr t)).
Proof.
  intros Hok Htitle.
  destruct (ca_create_returns title ca_type VNone helptext placeholder
              multi_choice_options is_mandatory ca_global s Hok)
    as (o & s' & ct & gt & options & Hrun & Hheap & _ & _ & _ & Ht & _);
    [done |].
  exists (length (heap s)), o, s'. split; [done |].
  split; [rewrite Hheap; apply lookup_fresh |].
  rewrite Ht, Htitle. split; [done |]. split; [| done].
  intros [= <-]. done.
Qed.

End ca_claims.

(** * The results on the concrete collaborators *)

Section examples.
Import EntitiesFactory.

Lemma demo_ca_collaborators_ok : @ca_collaborators_ok demo.
Proof.
  split; [done |]. split; [done |]. split; [| by right].
  repeat constructor; eexists; reflexivity.
Defined.

Lemma demo_allows_clone : @allows demo ["title"; "id"; "href"; "url"; "code"].
Proof. unfold allows. compute_done. Defined.

Lemma demo_allows_generate : @allows demo ["title"; "code"; "audit"].
Proof. unfold allows. compute_done. Defined.

Lemma update_obj_attrs_values_frame_witness :
  heap demo_state !! 0%nat = Some demo_audit /\
  exists o' : obj,
    update_obj_attrs_values 0%nat demo_attrs_names
      (kw [("title", VStr "Renamed"); ("id", VInt 0); ("color", VStr "red")])
      demo_state
    = Ok (0%nat, store demo_state 0%nat o') /\
    o' !! "title" = Some (VStr "Renamed") /\
    o' !! "id" = Some (VInt 5) /\
    o' !! "color" = None /\
    o' !! "url" = Some (VStr "/audits/5").
Proof.
  split; [reflexivity |].
  destruct (update_obj_attrs_values_frame demo_state 0%nat demo_audit
              demo_attrs_names
              (kw [("title", VStr "Renamed"); ("id", VInt 0); ("color", VStr "red")])
              eq_refl)
    as (o' & Hrun & Hset & Habsent & Hfalsy & Hnot_allowed & _).
  exists o'. split; [exact Hrun |].
  split; [apply Hset; [compute_done | reflexivity..] |].
  split; [exact (Hfalsy "id" (VInt 0) eq_refl eq_refl) |].
  split; [by rewrite Hnot_allowed by compute_done |].
  exact (Habsent "url" eq_refl).
Defined.

Lemma clone_rejects_stale_source_witness :
  @AuditsFactory.clone demo 0%nat 2 demo_stale_state = Ok (None, demo_stale_state) /\
  @AssessmentTemplatesFactory.clone demo 0%nat 2 demo_stale_state
    = Ok (None, demo_stale_state).
Proof.
  destruct (@clone_rejects_stale_source demo demo_stale_state 0%nat
              demo_stale_audit 3 5 5 2 eq_refl eq_refl eq_refl eq_refl)
    as [[Haudit _] [Htmpl _]].
  split; [apply Haudit | apply Htmpl]; lia.
Defined.

(** The specification's example: three clones of the entity with id [N],
    here 5, get the ids 6, 7, 8 and the codes that go with them. *)
Example clone_three_audits :
  match @AuditsFactory.clone demo 0%nat 3 demo_state with
  | Ok (Some clones, s') =>
      attrs_of s' "id" clones = [Some (VInt 6); Some (VInt 7); Some (VInt 8)] /\
      attrs_of s' "code" clones
        = [Some (VStr "AUDIT-6"); Some (VStr "AUDIT-7"); Some (VStr "AUDIT-8")] /\
      attrs_of s' "href" clones
        = [Some (VStr "/api/audits/6"); Some (VStr "/api/audits/7");
           Some (VStr "/api/audits/8")] /\
      attrs_of s' "title" clones
        = [Some (VStr "Audit A - copy 1"); Some (VStr "Audit A - copy 2");
           Some (VStr "Audit A - copy 3")]
  | _ => False
  end.
Proof. vm_compute. by repeat split. Qed.

(** The specification's example: with a total of 5, two objects give the
    assessments coded ASSESSMENT-6 and ASSESSMENT-7. *)
Example generate_two_assessments :
  match @AssessmentsFactory.generate demo [2%nat; 3%nat] 0%nat demo_state with
  | Ok (asmts, s') =>
      attrs_of s' "title" asmts
        = [Some (VStr "a assessment for Audit A");
           Some (VStr "b assessment for Audit A")] /\
      attrs_of s' "code" asmts
        = [Some (VStr "ASSESSMENT-6"); Some (VStr "ASSESSMENT-7")] /\
      attrs_of s' "audit" asmts
        = [Some (VStr "Audit A"); Some (VStr "Audit A")]
  | _ => False
  end.
Proof. vm_compute. by repeat split. Qed.

Lemma clone_makes_copies_witness :
  returns_copies (@AuditsFactory.clone demo 0%nat 2 demo_state) demo_state 2
    (fun n c =>
       is_clone_of demo_audit c
         ("Audit A" +:+ " - copy " +:+ str_int (Z.of_nat n)) (5 + Z.of_nat n)
         (replace_trailing_number (str_int (5 + Z.of_nat n)) "/api/audits/5")
         (replace_trailing_number (str_int (5 + Z.of_nat n)) "/audits/5")
         (upper (@_obj_audit demo) +:+ "-" +:+ str_int (5 + Z.of_nat n))) /\
  returns_copies (@AssessmentTemplatesFactory.clone demo 0%nat 2 demo_state)
    demo_state 2
    (fun n c =>
       is_clone_of demo_audit c
         "Audit A" (5 + Z.of_nat n)
         (replace_trailing_number (str_int (5 + Z.of_nat n)) "/api/audits/5")
         (replace_trailing_number (str_int (5 + Z.of_nat n)) "/audits/5")
         ("TEMPLATE-" +:+ str_int (5 + Z.of_nat n))).
Proof.
  apply (@clone_makes_copies demo demo_state 0%nat demo_audit 5
           "Audit A" "/api/audits/5" "/audits/5" 2);
    [reflexivity | reflexivity | reflexivity | reflexivity | reflexivity
    | reflexivity | reflexivity | lia | apply demo_allows_clone
    | reflexivity | reflexivity].
Defined.

(** The claim C3 makes of both factories fails for assessment templates: the
    clone of the template titled "Template A" is titled "Template A", with
    nothing appended. *)
Lemma asmt_tmpl_clone_title_has_no_suffix :
  exists (s' : state) (c : obj),
    @AssessmentTemplatesFactory.clone demo 1%nat 1 demo_state = Ok (Some [4%nat], s') /\
    heap demo_state !! 1%nat = Some demo_asmt_tmpl /\
    demo_asmt_tmpl !! "title" = Some (VStr "Template A") /\
    heap s' !! 4%nat = Some c /\
    c !! "title" = Some (VStr "Template A") /\
    forall suffix : string,
      suffix <> "" -> c !! "title" <> Some (VStr ("Template A" +:+ suffix)).
Proof.
  destruct (@AssessmentTemplatesFactory.clone demo 1%nat 1 demo_state)
    as [[r s']|] eqn:Hrun; vm_compute in Hrun; [| discriminate].
  injection Hrun as <- <-.
  eexists _, _. split; [reflexivity |].
  split; [reflexivity |]. split; [reflexivity |].
  split; [reflexivity |]. split; [reflexivity |].
  intros suffix Hsuffix Heq. apply Hsuffix.
  vm_compute in Heq. injection Heq as Heq.
  symmetry in Heq. by destruct suffix.
Qed.

Lemma generate_assessments_witness :
  exists (asmts : list loc) (s' : state),
    @AssessmentsFactory.generate demo [2%nat; 3%nat] 0%nat demo_state = Ok (asmts, s') /\
    length asmts = 2%nat /\
    forall (n : nat) (t : string),
      (1 <= n)%nat -> ["a"; "b"] !! (n - 1)%nat = Some t ->
      exists (l : loc) (c : obj),
        asmts !! (n - 1)%nat = Some l /\
        heap s' !! l = Some c /\
        c !! "title" = Some (VStr (t +:+ " assessment for " +:+ "Audit A")) /\
        c !! "code" = Some (VStr ("ASSESSMENT-" +:+ str_int (5 + Z.of_nat n))) /\
        c !! "audit" = Some (VStr "Audit A").
Proof.
  apply (@generate_assessments demo demo_state [2%nat; 3%nat] ["a"; "b"]
           0%nat demo_audit "Audit A" 5).
  - repeat constructor; eexists; split; reflexivity.
  - reflexivity.
  - reflexivity.
  - discriminate.
  - apply demo_allows_generate.
  - reflexivity.
  - reflexivity.
Defined.

Lemma ca_title_is_definition_type_argument_witness :
  exists (e : loc) (o : obj) (s' : state),
    @CAFactory.create demo (VStr "My attribute") (VStr "Text") (VStr "controls")
      (VStr "") VNone VNone (VBool false) (VBool true) demo_state = Ok (e, s') /\
    heap s' !! e = Some o /\
    o !! "title" = Some (VStr "controls").
Proof.
  apply (@ca_title_is_definition_type_argument demo).
  - apply demo_ca_collaborators_ok.
  - intros _. eexists. reflexivity.
  - reflexivity.
Defined.

Lemma ca_placeholder_policy_witness :
  exists (e : loc) (o : obj) (s' : state),
    @CAFactory.create demo VNone (VStr "Rich Text") VNone (VStr "")
      (VStr "type here") VNone (VBool false) (VBool true) demo_state = Ok (e, s') /\
    heap s' !! e = Some o /\
    o !! "ca_type" = Some (VStr "Rich Text") /\
    o !! "placeholder" = Some (VStr "type here").
Proof.
  destruct (@ca_placeholder_policy demo VNone (VStr "Rich Text") VNone (VStr "")
              (VStr "type here") VNone (VBool false) (VBool true) demo_state
              demo_ca_collaborators_ok)
    as (e & o & s' & ct & Hrun & Hheap & Hct & Hkind & Happlied & _);
    [discriminate |].
  simpl in Hkind. subst ct.
  exists e, o, s'. split; [exact Hrun |]. split; [exact Hheap |].
  split; [exact Hct |]. by apply Happlied.
Defined.

(** The claim C6 makes of every override value fails for a falsy one: an
    empty placeholder for a Text attribute is not applied, the entity keeps
    the [None] of a fresh instance. *)
Lemma ca_empty_placeholder_is_not_applied :
  exists (s' : state) (o : obj),
    @CAFactory.create demo VNone (VStr "Text") VNone (VStr "") (VStr "")
      VNone (VBool false) (VBool true) demo_state = Ok (4%nat, s') /\
    heap s' !! 4%nat = Some o /\
    o !! "ca_type" = Some (VStr "Text") /\
    @is_free_text demo (VStr "Text") = true /\
    o !! "placeholder" = Some VNone /\
    o !! "placeholder" <> Some (VStr "").
Proof.
  destruct (@CAFactory.create demo VNone (VStr "Text") VNone (VStr "") (VStr "")
              VNone (VBool false) (VBool true) demo_state)
    as [[e s']|] eqn:Hrun; vm_compute in Hrun; [| discriminate].
  injection Hrun as <- <-.
  eexists _, _. split; [reflexivity |].
  split; [reflexivity |]. split; [reflexivity |].
  split; [reflexivity |]. split; [reflexivity |].
  vm_compute. discriminate.
Qed.

Lemma ca_dropdown_gets_three_options_witness :
  exists (e : loc) (o : obj) (s' : state),
    @CAFactory.create demo VNone (VStr "Dropdown") VNone (VStr "") VNone VNone
      (VBool false) (VBool true) demo_state = Ok (e, s') /\
    heap s' !! e = Some o /\
    o !! "ca_type" = Some (VStr "Dropdown") /\
    exists l : list value,
      o !! "multi_choice_options" = Some (VList l) /\ length l = 3%nat.
Proof.
  destruct (@ca_dropdown_gets_three_options demo VNone (VStr "Dropdown") VNone
              (VStr "") VNone VNone (VBool false) (VBool true) demo_state
              demo_ca_collaborators_ok)
    as (e & o & s' & ct & Hrun & Hheap & Hct & Hkind & Hdropdown & _);
    [discriminate |].
  simpl in Hkind. subst ct.
  exists e, o, s'. split; [exact Hrun |]. split; [exact Hheap |].
  split; [exact Hct |]. by apply Hdropdown.
Defined.

Lemma ca_title_override_yields_None_witness :
  exists (e : loc) (o : obj) (s' : state),
    @CAFactory.create demo (VStr "My attribute") VNone VNone (VStr "") VNone
      VNone (VBool false) (VBool true) demo_state = Ok (e, s') /\
    heap s' !! e = Some o /\
    o !! "title" = Some VNone /\
    o !! "title" <> Some (VStr "My attribute") /\
    (forall t : string, o !! "title" <> Some (VStr t)).
Proof.
  apply (@ca_title_override_yields_None demo).
  - apply demo_ca_collaborators_ok.
  - reflexivity.
Defined.

End examples.

(** * Further properties of the factories *)

Section more_update_facts.
Import EntitiesFactory.

Lemma apply_overrides_idem attrs (args : kwargs) (o : obj) :
  apply_overrides attrs args (apply_overrides attrs args o)
  = apply_overrides attrs args o.
Proof.
  apply map_eq. intros k. rewrite !apply_overrides_lookup.
  by destruct (bool_decide (k ∈ attrs) && truthy (dict_get args k)).
Qed.

Lemma apply_overrides_same_names attrs attrs' (args : kwargs) (o : obj) :
  (forall k, k ∈ attrs <-> k ∈ attrs') ->
  apply_overrides attrs args o = apply_overrides attrs' args o.
Proof.
  intros Hsame. apply map_eq. intros k. rewrite !apply_overrides_lookup.
  by rewrite (bool_decide_ext _ _ (Hsame k)).
Qed.

(** Applying the same overrides a second time changes nothing: the store
    after two calls of [update_obj_attrs_values] is the store after one. *)
Theorem update_obj_attrs_values_twice
    (s : state) (l : loc) (o : obj) (attrs_names : list string) (arguments : kwargs) :
  heap s !! l = Some o ->
  exists s1 : state,
    update_obj_attrs_values l attrs_names arguments s = Ok (l, s1) /\
    update_obj_attrs_values l attrs_names arguments s1 = Ok (l, s1).
Proof.
  intros Hl. destruct s as [h d]. simpl in Hl.
  exists (State (<[l := apply_overrides attrs_names arguments o]> h) d).
  split; [by apply update_obj_attrs_values_run |].
  rewrite (update_obj_attrs_values_run _ _ _ (apply_overrides attrs_names arguments o)).
  - by rewrite list_insert_insert_eq, apply_overrides_idem.
  - apply list_lookup_insert_eq. by eapply lookup_lt_Some.
Qed.

(** Only the set of allowed names matters: their order, and a name listed
    more than once, make no difference to what [update_obj_attrs_values]
    does. *)
Theorem update_obj_attrs_values_names_as_set
    (s : state) (l : loc) (o : obj) (attrs_names attrs_names' : list string)
    (arguments : kwargs) :
  heap s !! l = Some o ->
  (forall k, k ∈ attrs_names <-> k ∈ attrs_names') ->
  update_obj_attrs_values l attrs_names arguments s
  = update_obj_attrs_values l attrs_names' arguments s.
Proof.
  intros Hl Hsame. destruct s as [h d]. simpl in Hl.
  rewrite !(update_obj_attrs_values_run _ _ _ o) by done.
  by rewrite (apply_overrides_same_names _ _ _ _ Hsame).
Qed.

End more_update_facts.

Section create_call_facts.
Context `{!collaborators}.
Import EntitiesFactory.

Lemma assoc_params (g : string -> value) (names : list string) key :
  assoc key ((fun name => (name, g name)) <$> names)
  = if bool_decide (key ∈ names) then Some (g key) else None.
Proof.
  induction names as [|name names IH]; [done |].
  rewrite fmap_cons. cbn [assoc].
  destruct (String.eqb_spec name key) as [-> | Hne].
  - by rewrite bool_decide_eq_true_2 by apply list_elem_of_here.
  - rewrite IH. apply (f_equal (fun b : bool => if b then _ else _)).
    apply bool_decide_ext. rewrite elem_of_cons.
    split; [by right | by intros [?|?]].
Qed.

Lemma dict_get_create_overrides T (overrides : kwargs) key :
  dict_get (create_overrides T overrides) key
  = if bool_decide (key ∈ create_params T) then dict_get overrides key else VNone.
Proof.
  unfold create_overrides. rewrite dict_get_kw, assoc_params.
  by destruct (bool_decide _).
Qed.

Lemma create_call_unfold T (overrides : kwargs) :
  dom overrides ⊆ list_to_set (create_params T) ->
  create_call T overrides
  = (e ← _create_random T;
     e ← update_obj_attrs_values e all_objs_attrs_names
           (create_overrides T overrides);
     mret e).
Proof.
  intros Hdom. unfold create_call. rewrite bool_decide_eq_true_2 by done.
  by destruct T.
Qed.

Ltac random_step :=
  first
    [ erewrite bind_ok by
        first [ apply new_object_run | apply setattr_fresh
              | apply _generate_code_run | apply _generate_email_run
              | eassumption ]
    | rewrite ret_run ].

Ltac predictable Hin :=
  simpl in Hin;
  repeat (apply elem_of_cons in Hin as [[= -> ->] | Hin]; [by simplify_map_eq |]);
  by apply elem_of_nil in Hin.

Ltac unassigned Hk :=
  repeat (rewrite lookup_insert_ne;
          [| intros <-; apply Hk; simpl; repeat constructor]);
  done.

Lemma _create_random_run T h d :
  exists (o0 : obj) d' (t : string),
    _create_random T (State h d) = Ok (length h, State (h ++ [o0]) d') /\
    o0 !! "title" = Some (VStr t) /\
    t <> "" /\
    (forall k v, (k, v) ∈ predictable_values T -> o0 !! k = Some v) /\
    (forall k, k ∉ assigned_names T -> o0 !! k = entity_new (class_of T) !! k).
Proof.
  destruct (_generate_title_run (VStr (canonical_singular_name T))
              (h ++ [entity_new (class_of T)]) d) as (sfx & Ht & _).
  assert (py_str (VStr (canonical_singular_name T)) +:+ "_" +:+
          uuid_token (entropy d) +:+ "_" +:+ sfx <> "") as Hne.
  { apply append_nonempty_r. by rewrite append_cons. }
  destruct T;
    cbn [_create_random class_of canonical_singular_name plural_name] in *;
    unfold PersonsFactory._create_random_person,
      ProgramsFactory._create_random_program,
      ControlsFactory._create_random_control,
      AuditsFactory._create_random_audit,
      AssessmentTemplatesFactory._create_random_asmt_tmpl,
      AssessmentsFactory._create_random_asmt,
      IssuesFactory._create_random_issue;
    eexists _, _, _;
    (split; [repeat random_step; reflexivity |]);
    (split; [by simplify_map_eq |]);
    (split; [exact Hne |]);
    (split; [intros k v Hin; predictable Hin | intros k Hk; unassigned Hk]).
Qed.

Lemma create_call_returns T (overrides : kwargs) h d :
  dom overrides ⊆ list_to_set (create_params T) ->
  exists (o0 : obj) d' (t : string),
    create_call T overrides (State h d)
    = Ok (length h,
          State (h ++ [apply_overrides all_objs_attrs_names
                         (create_overrides T overrides) o0]) d') /\
    o0 !! "title" = Some (VStr t) /\
    t <> "" /\
    (forall k v, (k, v) ∈ predictable_values T -> o0 !! k = Some v) /\
    (forall k, k ∉ assigned_names T -> o0 !! k = entity_new (class_of T) !! k).
Proof.
  intros Hdom.
  destruct (_create_random_run T h d) as (o0 & d' & t & Hrun & Hfacts).
  exists o0, d', t. split; [| exact Hfacts].
  rewrite (create_call_unfold _ _ Hdom). by apply create_run.
Qed.

End create_call_facts.

Section create_contract.
Context `{!collaborators}.
Import EntitiesFactory.

Lemma param_of_override T (overrides : kwargs) k v :
  dom overrides ⊆ list_to_set (create_params T) ->
  overrides !! k = Some v -> k ∈ create_params T.
Proof.
  intros Hdom Hk.
  assert (k ∈ dom overrides) as Hin by (apply elem_of_dom; eauto).
  apply Hdom in Hin. by apply elem_of_list_to_set in Hin.
Qed.

Lemma falsy_create_override T (overrides : kwargs) k :
  truthy (dict_get overrides k) = false ->
  truthy (dict_get (create_overrides T overrides) k) = false.
Proof.
  intros Hk. rewrite dict_get_create_overrides. by destruct (bool_decide _).
Qed.

(** Every factory's [create]: an override that is truthy, and whose name is
    among the allowed attribute names, is on the new entity as given. *)
Theorem create_truthy_override_wins
    (T : domain_type) (overrides : kwargs) (s : state) :
  dom overrides ⊆ list_to_set (create_params T) ->
  exists (e : loc) (o : obj) (s' : state),
    create_call T overrides s = Ok (e, s') /\
    heap s' = heap s ++ [o] /\
    heap s' !! e = Some o /\
    forall k v,
      overrides !! k = Some v -> truthy v = true -> k ∈ all_objs_attrs_names ->
      o !! k = Some v.
Proof.
  intros Hdom. destruct s as [h d].
  destruct (create_call_returns T overrides h d Hdom) as (o0 & d' & t & Hrun & _).
  eexists _, _, _. split; [exact Hrun |]. simpl.
  split; [done |]. split; [apply lookup_fresh |].
  intros k v Hk Hv Hallowed.
  rewrite apply_overrides_lookup, dict_get_create_overrides.
  rewrite (bool_decide_eq_true_2 (k ∈ create_params T))
    by (by eapply param_of_override).
  unfold dict_get. rewrite Hk. simpl. rewrite Hv.
  by rewrite bool_decide_eq_true_2.
Qed.

(** Every factory's [create]: where the override is missing or falsy
    ([None], [0], [""], [False], an empty list), a predictable attribute has
    its fixed value - the canonical type, the default user in the role
    fields, the initial state - and an attribute the factory does not assign
    is as a fresh instance has it. *)
Theorem create_falsy_override_keeps_default
    (T : domain_type) (overrides : kwargs) (s : state) :
  dom overrides ⊆ list_to_set (create_params T) ->
  exists (e : loc) (o : obj) (s' : state),
    create_call T overrides s = Ok (e, s') /\
    heap s' = heap s ++ [o] /\
    heap s' !! e = Some o /\
    (forall k v,
       (k, v) ∈ predictable_values T -> truthy (dict_get overrides k) = false ->
       o !! k = Some v) /\
    (forall k,
       k ∉ assigned_names T -> truthy (dict_get overrides k) = false ->
       o !! k = entity_new (class_of T) !! k).
Proof.
  intros Hdom. destruct s as [h d].
  destruct (create_call_returns T overrides h d Hdom)
    as (o0 & d' & t & Hrun & _ & _ & Hpred & Hfresh).
  eexists _, _, _. split; [exact Hrun |]. simpl.
  split; [done |]. split; [apply lookup_fresh |]. split.
  - intros k v Hin Hk. rewrite apply_overrides_lookup.
    rewrite (falsy_create_override _ _ _ Hk), andb_false_r. by apply Hpred.
  - intros k Hin Hk. rewrite apply_overrides_lookup.
    rewrite (falsy_create_override _ _ _ Hk), andb_false_r. by apply Hfresh.
Qed.

(** Every factory's [create] returns an entity with a truthy title, whatever
    the arguments: the override when it is truthy and allowed, otherwise the
    generated title, which is a non-empty string. *)
Theorem create_title_is_never_empty
    (T : domain_type) (overrides : kwargs) (s : state) :
  dom overrides ⊆ list_to_set (create_params T) ->
  exists (e : loc) (o : obj) (s' : state) (title : value),
    create_call T overrides s = Ok (e, s') /\
    heap s' !! e = Some o /\
    o !! "title" = Some title /\
    truthy title = true.
Proof.
  intros Hdom. destruct s as [h d].
  destruct (create_call_returns T overrides h d Hdom)
    as (o0 & d' & t & Hrun & Ht & Hne & _).
  destruct (bool_decide ("title" ∈ all_objs_attrs_names) &&
            truthy (dict_get (create_overrides T overrides) "title")) eqn:Hset.
  - eexists _, _, _, (dict_get (create_overrides T overrides) "title").
    split; [exact Hrun |]. split; [apply lookup_fresh |].
    rewrite apply_overrides_lookup, Hset. split; [done |].
    by apply andb_prop in Hset as [_ ?].
  - eexists _, _, _, (VStr t).
    split; [exact Hrun |]. split; [apply lookup_fresh |].
    rewrite apply_overrides_lookup, Hset. split; [done |].
    by apply truthy_str.
Qed.

(** [PersonsFactory.default] returns the well-known person: the default
    user's name, id 1, href and email, the superuser role, and the type of a
    person - provided these names are allowed and the constants are truthy,
    as an override that is falsy would not be applied. *)
Theorem default_person_is_the_default_user (s : state) :
  allows ["title"; "id"; "href"; "email"; "authorizations"] ->
  truthy DEFAULT_USER = true ->
  truthy DEFAULT_USER_HREF = true ->
  truthy DEFAULT_USER_EMAIL = true ->
  truthy SUPERUSER = true ->
  exists (e : loc) (o : obj) (s' : state),
    PersonsFactory.default s = Ok (e, s') /\
    heap s' = heap s ++ [o] /\
    heap s' !! e = Some o /\
    o !! "title" = Some DEFAULT_USER /\
    o !! "id" = Some (VInt 1) /\
    o !! "href" = Some DEFAULT_USER_HREF /\
    o !! "email" = Some DEFAULT_USER_EMAIL /\
    o !! "authorizations" = Some SUPERUSER /\
    o !! "type" = Some (VStr _obj_person).
Proof.
  intros Hallow Huser Hhref Hemail Hrole. destruct s as [h d].
  destruct (_create_random_run Person h d)
    as (o0 & d' & t & Hrun & _ & _ & Hpred & _).
  pose proof (allows_elem _ "title" Hallow ltac:(compute_done)) as H1.
  pose proof (allows_elem _ "id" Hallow ltac:(compute_done)) as H2.
  pose proof (allows_elem _ "href" Hallow ltac:(compute_done)) as H3.
  pose proof (allows_elem _ "email" Hallow ltac:(compute_done)) as H4.
  pose proof (allows_elem _ "authorizations" Hallow ltac:(compute_done)) as H5.
  eexists _, _, _. split.
  { unfold PersonsFactory.default, PersonsFactory.create.
    apply create_run. exact Hrun. }
  simpl. split; [done |]. split; [apply lookup_fresh |].
  repeat split.
  - erewrite override_allowed by (done || reflexivity). by rewrite Huser.
  - by erewrite override_allowed by (done || reflexivity).
  - erewrite override_allowed by (done || reflexivity). by rewrite Hhref.
  - erewrite override_allowed by (done || reflexivity). by rewrite Hemail.
  - erewrite override_allowed by (done || reflexivity). by rewrite Hrole.
  - rewrite apply_overrides_lookup, dict_get_kw. simpl.
    rewrite andb_false_r. apply Hpred. simpl. apply list_elem_of_here.
Qed.

End create_contract.

Section clone_edges.
Context `{!collaborators}.
Import EntitiesFactory.

Lemma bind_raise {A B} (m : M A) (f : A -> M B) s e :
  m s = Raise e -> (m ≫= f) s = Raise e.
Proof. intros Hm. by rewrite bind_run, Hm. Qed.

Lemma xrange_nil a b : b <= a -> xrange a b = [].
Proof. intros Hle. unfold xrange. by replace (Z.to_nat (b - a)) with 0%nat by lia. Qed.

Lemma xrange_cons a b : a < b -> xrange a b = a :: xrange (a + 1) b.
Proof.
  intros Hlt. unfold xrange.
  replace (Z.to_nat (b - a)) with (S (Z.to_nat (b - (a + 1)))) by lia.
  cbn [seq]. rewrite fmap_cons, <- fmap_S_seq, <- list_fmap_compose.
  f_equal; [lia |]. apply list_fmap_ext. intros _ i _. simpl. lia.
Qed.

Lemma re_sub_not_a_string repl v : not_a_string v -> re_sub repl v = Raise TypeError.
Proof. intros Hv. destruct v; try done. by destruct (Hv s). Qed.

Lemma append_inj_r (s t u : string) : s +:+ t = s +:+ u -> t = u.
Proof.
  induction s as [|c s IH]; [done |]. rewrite !append_cons. intros [= Heq]. auto.
Qed.

(** The count query of [clone] and [generate], when it returns [T]. *)
Lemma count_query_run name T h d {B} (k : Z -> M B) :
  total_count name = Ok T ->
  (obj_name ← lift (get_normal_form (VStr name) (Some false));
   actual ← lift (get_total_count obj_name);
   k actual) (State h d)
  = k T (State h d).
Proof.
  unfold total_count. intros Hcount.
  destruct (get_normal_form (VStr name) (Some false)) as [obj_name|]; [| done].
  rewrite (bind_ok _ _ _ _ _ (lift_run _ _)), Hcount.
  by rewrite (bind_ok _ _ _ _ _ (lift_run _ _)).
Qed.

(** The count query of [clone] and [generate], when it raises. *)
Lemma count_query_raise name e s {B} (k : Z -> M B) :
  total_count name = Raise e ->
  (obj_name ← lift (get_normal_form (VStr name) (Some false));
   actual ← lift (get_total_count obj_name);
   k actual) s
  = Raise e.
Proof.
  unfold total_count. intros Hcount.
  destruct (get_normal_form (VStr name) (Some false)) as [obj_name|] eqn:Hnf.
  - rewrite (bind_ok _ _ _ _ _ (lift_run _ _)).
    apply bind_raise. by rewrite Hcount.
  - injection Hcount as ->. by apply bind_raise.
Qed.

(** Both [clone]s, asked for no copies of a source that passes the guard,
    return the empty list - not [None] - and leave the store as it was. *)
Theorem clone_of_nothing
    (s : state) (src : loc) (o : obj) (N k : Z) :
  heap s !! src = Some o ->
  o !! "id" = Some (VInt N) ->
  total_count _obj_audit = Ok N ->
  total_count _obj_asmt_tmpl = Ok N ->
  k <= 0 ->
  AuditsFactory.clone src k s = Ok (Some [], s) /\
  AssessmentTemplatesFactory.clone src k s = Ok (Some [], s).
Proof.
  intros Hsrc Hid Haudits Htmpls Hk. destruct s as [h d]. simpl in Hsrc.
  unfold AuditsFactory.clone, AssessmentTemplatesFactory.clone.
  rewrite (count_query_run _ _ _ _ _ Haudits), (count_query_run _ _ _ _ _ Htmpls).
  rewrite !(bind_ok _ _ _ _ _ (getattr_run _ _ _ _ _ _ Hsrc Hid)).
  rewrite py_eq_int, Z.eqb_refl, xrange_nil by lia. done.
Qed.

(** Both [clone]s raise a [TypeError] when the source passes the guard, at
    least one copy is asked for, and the source's [href] is not a string -
    as for an entity that was created but never given its link. *)
Theorem clone_needs_a_string_href
    (s : state) (src : loc) (o : obj) (N k : Z) (t : string) (href : value) :
  heap s !! src = Some o ->
  o !! "id" = Some (VInt N) ->
  o !! "title" = Some (VStr t) ->
  o !! "href" = Some href ->
  not_a_string href ->
  total_count _obj_audit = Ok N ->
  total_count _obj_asmt_tmpl = Ok N ->
  1 <= k ->
  AuditsFactory.clone src k s = Raise TypeError /\
  AssessmentTemplatesFactory.clone src k s = Raise TypeError.
Proof.
  intros Hsrc Hid Htitle Hhref Hnot Haudits Htmpls Hk.
  destruct s as [h d]. simpl in Hsrc.
  unfold AuditsFactory.clone, AssessmentTemplatesFactory.clone.
  rewrite (count_query_run _ _ _ _ _ Haudits), (count_query_run _ _ _ _ _ Htmpls).
  rewrite !(bind_ok _ _ _ _ _ (getattr_run _ _ _ _ _ _ Hsrc Hid)).
  rewrite py_eq_int, Z.eqb_refl, xrange_cons by lia.
  split; apply bind_raise; cbn [list_comp]; apply bind_raise;
    repeat clone_step; apply bind_raise; simpl;
    by rewrite (re_sub_not_a_string _ _ Hnot).
Qed.

(** An exception of the count service comes out of [clone] and [generate]
    unchanged, before anything is read or created - for [generate] even when
    there is no object to make an assessment for. *)
Theorem count_service_failure_propagates
    (s : state) (src : loc) (k : Z) (objs : list loc) (audit : loc) (e : exn) :
  total_count _obj_audit = Raise e ->
  total_count _obj_asmt_tmpl = Raise e ->
  total_count _obj_asmt = Raise e ->
  AuditsFactory.clone src k s = Raise e /\
  AssessmentTemplatesFactory.clone src k s = Raise e /\
  AssessmentsFactory.generate objs audit s = Raise e.
Proof.
  intros Haudits Htmpls Hasmts.
  unfold AuditsFactory.clone, AssessmentTemplatesFactory.clone,
    AssessmentsFactory.generate.
  by rewrite (count_query_raise _ _ _ _ Haudits),
    (count_query_raise _ _ _ _ Htmpls), (count_query_raise _ _ _ _ Hasmts).
Qed.

End clone_edges.

Section clone_distinct.
Context `{!collaborators}.
Import EntitiesFactory.

Lemma str_int_inj (p q : Z) : str_int p = str_int q -> p = q.
Proof. unfold str_int. apply (inj pretty). Qed.

Lemma copy_lookup h (f : Z -> obj) a b n i (li : loc) (c : obj) :
  seq (length h) n !! i = Some li ->
  (h ++ (f <$> xrange a b)) !! li = Some c ->
  n = Z.to_nat (b - a) ->
  c = f (a + Z.of_nat i) /\ (i < n)%nat.
Proof.
  intros Hli Hc ->. apply lookup_seq in Hli as [-> Hi].
  rewrite lookup_app_r in Hc by lia.
  replace (length h + i - length h)%nat with i in Hc by lia.
  rewrite list_lookup_fmap, lookup_xrange in Hc by done.
  by injection Hc as <-.
Qed.

Lemma distinct_copies h d' (f : Z -> obj) k name (g : Z -> value) :
  (forall num, 1 <= num -> f num !! name = Some (g num)) ->
  (forall p q, g p = g q -> p = q) ->
  pairwise_distinct_attr
    (State (h ++ (f <$> xrange 1 (k + 1))) d')
    (seq (length h) (Z.to_nat k)) name.
Proof.
  intros Hf Hg i j li lj ci cj Hij Hli Hlj Hci Hcj. simpl in Hci, Hcj.
  destruct (copy_lookup _ _ _ _ _ _ _ _ Hli Hci) as [-> _]; [f_equal; lia |].
  destruct (copy_lookup _ _ _ _ _ _ _ _ Hlj Hcj) as [-> _]; [f_equal; lia |].
  rewrite !Hf by lia. intros [= Heq%Hg]. lia.
Qed.

Lemma audit_copy_id_code (o : obj) N t hr u num :
  allows ["id"; "code"] -> 0 <= N -> 1 <= num ->
  audit_copy o N t hr u num !! "id" = Some (VInt (N + num)) /\
  audit_copy o N t hr u num !! "code"
    = Some (VStr ((upper _obj_audit +:+ "-") +:+ str_int (N + num))).
Proof.
  intros Hallow HN Hnum. unfold audit_copy.
  pose proof (allows_elem _ "id" Hallow ltac:(compute_done)) as Hid.
  pose proof (allows_elem _ "code" Hallow ltac:(compute_done)) as Hcode.
  split; erewrite override_allowed by (done || reflexivity).
  - simpl. by rewrite (proj2 (Z.eqb_neq (N + num) 0)) by lia.
  - rewrite truthy_str; [done |]. rewrite append_assoc.
    apply append_nonempty_r. by rewrite append_cons.
Qed.

Lemma asmt_tmpl_copy_id_code (o : obj) N hr u num :
  allows ["id"; "code"] -> 0 <= N -> 1 <= num ->
  asmt_tmpl_copy o N hr u num !! "id" = Some (VInt (N + num)) /\
  asmt_tmpl_copy o N hr u num !! "code"
    = Some (VStr ("TEMPLATE-" +:+ str_int (N + num))).
Proof.
  intros Hallow HN Hnum. unfold asmt_tmpl_copy.
  pose proof (allows_elem _ "id" Hallow ltac:(compute_done)) as Hid.
  pose proof (allows_elem _ "code" Hallow ltac:(compute_done)) as Hcode.
  split; erewrite override_allowed by (done || reflexivity).
  - simpl. by rewrite (proj2 (Z.eqb_neq (N + num) 0)) by lia.
  - rewrite truthy_str; [done |]. by rewrite append_cons.
Qed.

(** The copies one call of [clone] returns differ pairwise in [id] and in
    [code]: the sequential numbering keeps the identifiers of one run
    apart. *)
Theorem clone_ids_and_codes_are_distinct
    (s : state) (src : loc) (o : obj) (N : Z) (t hr u : string) (k : Z) :
  heap s !! src = Some o ->
  o !! "id" = Some (VInt N) ->
  o !! "title" = Some (VStr t) ->
  o !! "href" = Some (VStr hr) ->
  o !! "url" = Some (VStr u) ->
  0 <= N ->
  allows ["id"; "code"] ->
  total_count _obj_audit = Ok N ->
  total_count _obj_asmt_tmpl = Ok N ->
  (exists clones s',
     AuditsFactory.clone src k s = Ok (Some clones, s') /\
     pairwise_distinct_attr s' clones "id" /\
     pairwise_distinct_attr s' clones "code") /\
  (exists clones s',
     AssessmentTemplatesFactory.clone src k s = Ok (Some clones, s') /\
     pairwise_distinct_attr s' clones "id" /\
     pairwise_distinct_attr s' clones "code").
Proof.
  intros Hsrc Hid Htitle Hhref Hurl HN Hallow Haudits Htmpls.
  destruct s as [h d]. simpl in Hsrc. split.
  - destruct (audits_clone_run h d src o N t hr u k) as [d' Hrun]; [done..|].
    eexists _, _. split; [exact Hrun |]. split.
    + apply distinct_copies with (g := fun num => VInt (N + num)).
      * intros num Hnum. by apply audit_copy_id_code.
      * intros p q [= Heq]. lia.
    + apply distinct_copies
        with (g := fun num => VStr ((upper _obj_audit +:+ "-") +:+ str_int (N + num))).
      * intros num Hnum. by apply audit_copy_id_code.
      * intros p q [= Heq%append_inj_r%str_int_inj]. lia.
  - destruct (asmt_tmpls_clone_run h d src o N hr u k) as [d' Hrun]; [done..|].
    eexists _, _. split; [exact Hrun |]. split.
    + apply distinct_copies with (g := fun num => VInt (N + num)).
      * intros num Hnum. by apply asmt_tmpl_copy_id_code.
      * intros p q [= Heq]. lia.
    + apply distinct_copies
        with (g := fun num => VStr ("TEMPLATE-" +:+ str_int (N + num))).
      * intros num Hnum. by apply asmt_tmpl_copy_id_code.
      * intros p q [= Heq%append_inj_r%str_int_inj]. lia.
Qed.

End clone_distinct.

Section generate_edges.
Context `{!collaborators}.
Import EntitiesFactory.

Lemma generate_run_full h d objs titles audit (ao : obj) audit_title T :
  Forall2 (has_title (State h d)) objs titles ->
  h !! audit = Some ao ->
  ao !! "title" = Some (VStr audit_title) ->
  total_count _obj_asmt = Ok T ->
  exists cs d',
    AssessmentsFactory.generate objs audit (State h d)
    = Ok (seq (length h) (length objs), State (h ++ cs) d') /\
    Forall2 (generated_from (State h d) audit_title) (enumerate objs (T + 1)) cs.
Proof.
  intros Htitles Haudit Hat Hcount.
  unfold AssessmentsFactory.generate.
  rewrite (count_query_run _ _ _ _ _ Hcount).
  edestruct (list_comp_alloc (enumerate objs (T + 1)))
    with (Q := generated_from (State h d) audit_title)
         (P := fun h' : list obj => forall l x, h !! l = Some x -> h' !! l = Some x)
    as (cs & d' & Hrun & HQ); [| | by auto | ].
  { intros h' c Hh' l x Hl. by apply lookup_app_l_Some, Hh'. }
  2:{ exists cs, d'. rewrite Hrun. unfold enumerate. by rewrite length_imap. }
  intros [num l] h' d0 Hin Hh'.
  apply elem_of_enumerate in Hin.
  apply list_elem_of_lookup_1 in Hin as [i Hi].
  destruct (Forall2_lookup_l _ _ _ _ _ Htitles Hi) as (t & _ & (oo & Hoo & Ht)).
  simpl in Hoo.
  destruct (_create_random_run Assessment h' d0)
    as (o0 & d1 & t0 & Hrandom & _ & _ & Hpred & Hfresh).
  eexists _, d1. split.
  - pose proof (Hh' _ _ Hoo) as Hobj. pose proof (Hh' _ _ Haudit) as Haud.
    rewrite (bind_ok _ _ _ _ _ (getattr_run _ _ _ _ _ _ Hobj Ht)).
    clone_step.
    rewrite (bind_ok _ _ _ _ _ (getattr_run _ _ _ _ _ _ Haud Hat)).
    do 2 clone_step.
    rewrite (bind_ok _ _ _ _ _ (getattr_run _ _ _ _ _ _ Haud Hat)).
    unfold AssessmentsFactory.create. apply create_run. exact Hrandom.
  - exists o0, t. split; [by exists oo |]. by repeat split.
Qed.

Lemma generate_overrides_other title code audit k :
  k <> "title" -> k <> "code" -> k <> "audit" ->
  dict_get (generate_overrides title code audit) k = VNone.
Proof.
  intros H1 H2 H3. unfold generate_overrides. rewrite dict_get_kw.
  cbn [assoc].
  repeat match goal with
         | |- context [String.eqb ?name k] =>
             destruct (String.eqb_spec name k) as [<- | _]; [done |]
         end.
  done.
Qed.

(** What [generate] returns, one object at a time. *)
Lemma generate_each h d objs titles audit (ao : obj) audit_title T :
  Forall2 (has_title (State h d)) objs titles ->
  h !! audit = Some ao ->
  ao !! "title" = Some (VStr audit_title) ->
  total_count _obj_asmt = Ok T ->
  exists asmts s',
    AssessmentsFactory.generate objs audit (State h d) = Ok (asmts, s') /\
    length asmts = length objs /\
    forall i l c,
      asmts !! i = Some l -> heap s' !! l = Some c ->
      exists obj_ref,
        objs !! i = Some obj_ref /\
        generated_from (State h d) audit_title (T + 1 + Z.of_nat i, obj_ref) c.
Proof.
  intros Htitles Haudit Hat Hcount.
  destruct (generate_run_full h d objs titles audit ao audit_title T)
    as (cs & d' & Hrun & Hgen); [done..|].
  eexists _, _. split; [exact Hrun |]. split; [by rewrite length_seq |].
  intros i l c Hl Hc. apply lookup_seq in Hl as [-> Hi]. simpl in Hc.
  rewrite lookup_app_r in Hc by lia.
  replace (length h + i - length h)%nat with i in Hc by lia.
  destruct (Forall2_lookup_r _ _ _ _ _ Hgen Hc) as ([num obj_ref] & Hx & HQ).
  unfold enumerate in Hx. rewrite list_lookup_imap in Hx.
  destruct (objs !! i) as [obj_ref'|] eqn:Hobj; [| done].
  injection Hx as <- <-. by exists obj_ref'.
Qed.

(** [generate] for no objects returns the empty list and leaves the store as
    it was; the audit is not even looked at. *)
Theorem generate_of_nothing (s : state) (audit : loc) (T : Z) :
  total_count _obj_asmt = Ok T ->
  AssessmentsFactory.generate [] audit s = Ok ([], s).
Proof.
  intros Hcount. destruct s as [h d]. unfold AssessmentsFactory.generate.
  by rewrite (count_query_run _ _ _ _ _ Hcount).
Qed.

(** [generate] under an audit whose title is the empty string: the audit
    reference is falsy, so it is not applied, and every assessment has the
    [audit] of a fresh instance; its title then ends in ["assessment for "]. *)
Theorem generate_with_empty_audit_title
    (s : state) (objs : list loc) (titles : list string)
    (audit : loc) (ao : obj) (T : Z) :
  Forall2 (has_title s) objs titles ->
  heap s !! audit = Some ao ->
  ao !! "title" = Some (VStr "") ->
  allows ["title"] ->
  total_count _obj_asmt = Ok T ->
  exists (asmts : list loc) (s' : state),
    AssessmentsFactory.generate objs audit s = Ok (asmts, s') /\
    length asmts = length objs /\
    forall i l c t,
      asmts !! i = Some l -> heap s' !! l = Some c -> titles !! i = Some t ->
      c !! "audit" = entity_new AssessmentEntity !! "audit" /\
      c !! "title" = Some (VStr (t +:+ " assessment for ")).
Proof.
  intros Htitles Haudit Hat Hallow Hcount. destruct s as [h d].
  destruct (generate_each h d objs titles audit ao "" T)
    as (asmts & s' & Hrun & Hlen & Heach); [done..|].
  exists asmts, s'. split; [done |]. split; [done |].
  intros i l c t Hl Hc Ht.
  destruct (Heach i l c Hl Hc) as (obj_ref & Hobj & o0 & t' & Htitle & _ & Hfresh & ->).
  destruct (Forall2_lookup_l _ _ _ _ _ Htitles Hobj) as (t'' & Ht'' & Htitle').
  assert (t'' = t) as -> by congruence.
  assert (t' = t) as -> by (by eapply has_title_inj).
  pose proof (allows_elem _ "title" Hallow ltac:(compute_done)) as Hname.
  split.
  - rewrite apply_overrides_lookup. unfold generate_overrides.
    rewrite dict_get_kw. simpl. rewrite andb_false_r.
    apply Hfresh. compute_done.
  - unfold generate_overrides.
    erewrite override_allowed by (done || reflexivity).
    rewrite append_nil_r, truthy_str; [done |].
    by apply append_nonempty_r.
Qed.

(** Every assessment [generate] returns has the predictable values of
    [AssessmentsFactory.create]: the type of an assessment, the default user
    as object, creator and assignee, the Not Started state, not verified. *)
Theorem generate_keeps_predictable_values
    (s : state) (objs : list loc) (titles : list string)
    (audit : loc) (ao : obj) (audit_title : string) (T : Z) :
  Forall2 (has_title s) objs titles ->
  heap s !! audit = Some ao ->
  ao !! "title" = Some (VStr audit_title) ->
  total_count _obj_asmt = Ok T ->
  exists (asmts : list loc) (s' : state),
    AssessmentsFactory.generate objs audit s = Ok (asmts, s') /\
    length asmts = length objs /\
    forall l c k v,
      l ∈ asmts -> heap s' !! l = Some c ->
      (k, v) ∈ predictable_values Assessment ->
      c !! k = Some v.
Proof.
  intros Htitles Haudit Hat Hcount. destruct s as [h d].
  destruct (generate_each h d objs titles audit ao audit_title T)
    as (asmts & s' & Hrun & Hlen & Heach); [done..|].
  exists asmts, s'. split; [done |]. split; [done |].
  intros l c k v [i Hl]%list_elem_of_lookup_1 Hc Hin.
  destruct (Heach i l c Hl Hc) as (obj_ref & Hobj & o0 & t' & _ & Hpred & _ & ->).
  rewrite apply_overrides_lookup.
  assert (dict_get (generate_overrides
            (VStr ((t' +:+ " assessment for ") +:+ audit_title))
            (VStr ((upper _obj_asmt +:+ "-")
                   +:+ str_int (T + 1 + Z.of_nat i, obj_ref).1))
            (VStr audit_title)) k = VNone) as ->.
  { simpl in Hin.
    repeat (apply elem_of_cons in Hin as [[= -> ->] | Hin];
            [by apply generate_overrides_other |]).
    by apply elem_of_nil in Hin. }
  rewrite andb_false_r. by apply Hpred.
Qed.

(** The assessments one call of [generate] returns differ pairwise in their
    [code]. *)
Theorem generate_codes_are_distinct
    (s : state) (objs : list loc) (titles : list string)
    (audit : loc) (ao : obj) (audit_title : string) (T : Z) :
  Forall2 (has_title s) objs titles ->
  heap s !! audit = Some ao ->
  ao !! "title" = Some (VStr audit_title) ->
  allows ["code"] ->
  total_count _obj_asmt = Ok T ->
  exists (asmts : list loc) (s' : state),
    AssessmentsFactory.generate objs audit s = Ok (asmts, s') /\
    pairwise_distinct_attr s' asmts "code".
Proof.
  intros Htitles Haudit Hat Hallow Hcount. destruct s as [h d].
  destruct (generate_each h d objs titles audit ao audit_title T)
    as (asmts & s' & Hrun & Hlen & Heach); [done..|].
  exists asmts, s'. split; [done |].
  pose proof (allows_elem _ "code" Hallow ltac:(compute_done)) as Hname.
  assert (forall i l c, asmts !! i = Some l -> heap s' !! l = Some c ->
    c !! "code" = Some (VStr ((upper _obj_asmt +:+ "-")
                              +:+ str_int (T + 1 + Z.of_nat i)))) as Hcode.
  { intros i l c Hl Hc.
    destruct (Heach i l c Hl Hc) as (obj_ref & _ & o0 & t' & _ & _ & _ & ->).
    unfold generate_overrides. erewrite override_allowed by (done || reflexivity).
    rewrite truthy_str; [done |]. rewrite append_assoc.
    apply append_nonempty_r. by rewrite append_cons. }
  intros i j li lj ci cj Hij Hli Hlj Hci Hcj.
  rewrite (Hcode _ _ _ Hli Hci), (Hcode _ _ _ Hlj Hcj).
  intros [= Heq%append_inj_r%str_int_inj]. lia.
Qed.

End generate_edges.

Section link_rewriting.

Lemma at_end_cases r : at_end r = true -> r = "" \/ r = String "010"%char "".
Proof.
  unfold at_end. intros [H | H]%orb_prop; apply bool_decide_eq_true in H; auto.
Qed.

Lemma is_digit_newline : is_digit "010"%char = false.
Proof. reflexivity. Qed.

Lemma span_digits_app_end d nl :
  all_digits d = true -> at_end nl = true -> span_digits (d +:+ nl) = (d, nl).
Proof.
  intros Hd Hnl. induction d as [|c d IH].
  - by destruct (at_end_cases _ Hnl) as [-> | ->].
  - rewrite append_cons. simpl in *. apply andb_prop in Hd as [Hc Hd].
    by rewrite Hc, (IH Hd).
Qed.

Lemma span_digits_decompose s d r :
  span_digits s = (d, r) -> s = d +:+ r /\ all_digits d = true.
Proof.
  revert d r. induction s as [|c s IH]; intros d r; simpl.
  - by intros [= <- <-].
  - destruct (is_digit c) eqn:Hc.
    + destruct (span_digits s) as [d' r'] eqn:Hs. intros [= <- <-].
      destruct (IH _ _ eq_refl) as [-> Hd]. rewrite append_cons. simpl.
      by rewrite Hc, Hd.
    + by intros [= <- <-].
Qed.

Lemma ends_in_digit_all d : all_digits d = true -> d <> "" -> ends_in_digit d = true.
Proof.
  induction d as [|c d IH]; [done |]. simpl. intros [Hc Hd]%andb_prop _.
  destruct d; [done | by apply IH].
Qed.

Lemma drop_final_newline_app_end d nl :
  all_digits d = true -> d <> "" -> at_end nl = true ->
  drop_final_newline (d +:+ nl) = d.
Proof.
  intros Hd Hne Hnl. induction d as [|c d IH]; [done |].
  rewrite append_cons. simpl in Hd. apply andb_prop in Hd as [Hc Hd].
  destruct d as [|c' d].
  - destruct (at_end_cases _ Hnl) as [-> | ->]; simpl.
    + rewrite bool_decide_eq_false_2; [done |]. by intros ->.
    + done.
  - specialize (IH Hd ltac:(done)). rewrite append_cons in *.
    simpl. simpl in IH. by rewrite IH.
Qed.

(** After a prefix that does not end in a digit, the run of digits [\d+]
    takes at the front stops inside the prefix. *)
Lemma span_digits_inside p q d r :
  ends_in_digit p = false -> p <> "" ->
  span_digits (p +:+ q) = (d, r) ->
  exists r1, r1 <> "" /\ r = r1 +:+ q.
Proof.
  revert d r. induction p as [|c p IH]; intros d r Hp Hne; [done |].
  rewrite append_cons. simpl.
  destruct (is_digit c) eqn:Hc.
  - destruct p as [|c' p]; [simpl in Hp; congruence |].
    destruct (span_digits (String c' p +:+ q)) as [d' r'] eqn:Hs.
    intros [= <- <-]. by eapply IH.
  - intros [= <- <-]. exists (String c p). by rewrite append_cons.
Qed.

Lemma not_at_end_long r1 d q :
  r1 <> "" -> d <> "" -> at_end (r1 +:+ d +:+ q) = false.
Proof.
  intros H1 Hd. destruct r1 as [|x r1]; [done |]. destruct d as [|y d]; [done |].
  unfold at_end. rewrite append_cons.
  rewrite !bool_decide_eq_false_2; [done | |]; intros [= ? Heq]; try done.
  destruct r1; by rewrite ?append_cons in Heq.
Qed.

Lemma re_sub_digits_end_replaces (new p d nl : string) :
  all_digits d = true -> d <> "" ->
  ends_in_digit p = false -> at_end nl = true ->
  re_sub_digits_end new (p +:+ d +:+ nl) = p +:+ new +:+ nl.
Proof.
  intros Hd Hne Hp Hnl. induction p as [|c p IH].
  - change ("" +:+ d +:+ nl) with (d +:+ nl). destruct d as [|c d]; [done |].
    rewrite append_cons. cbn [re_sub_digits_end].
    rewrite <- append_cons, (span_digits_app_end _ _ Hd Hnl).
    by rewrite Hnl.
  - rewrite !append_cons. cbn [re_sub_digits_end].
    destruct (span_digits (String c (p +:+ d +:+ nl))) as [d0 r0] eqn:Hspan.
    rewrite <- append_cons in Hspan.
    destruct (span_digits_inside _ _ _ _ Hp ltac:(done) Hspan) as (r1 & Hr1 & ->).
    rewrite (not_at_end_long _ _ _ Hr1 Hne), andb_false_r. f_equal.
    apply IH. destruct p as [|c' p]; [done | exact Hp].
Qed.

Lemma re_sub_digits_end_unchanged (new s : string) :
  ends_in_digit (drop_final_newline s) = false ->
  re_sub_digits_end new s = s.
Proof.
  induction s as [|c s IH]; [done |]. intros Hs.
  cbn [re_sub_digits_end].
  destruct (span_digits (String c s)) as [d r] eqn:Hspan.
  destruct (negb (bool_decide (d = "")) && at_end r) eqn:Hmatch.
  - apply andb_prop in Hmatch as [Hd Hr].
    apply negb_true_iff, bool_decide_eq_false in Hd.
    destruct (span_digits_decompose _ _ _ Hspan) as [Heq Hall].
    rewrite Heq, (drop_final_newline_app_end _ _ Hall Hd Hr) in Hs.
    by rewrite (ends_in_digit_all _ Hall Hd) in Hs.
  - f_equal. apply IH. destruct s as [|c' s]; [done |].
    change (drop_final_newline (String c (String c' s)))
      with (String c (drop_final_newline (String c' s))) in Hs.
    destruct (drop_final_newline (String c' s)); [done | exact Hs].
Qed.

Lemma drop_final_newline_split s :
  exists nl, at_end nl = true /\ s = drop_final_newline s +:+ nl.
Proof.
  induction s as [|c s IH]; [by exists "" |].
  destruct s as [|c' s].
  - simpl. destruct (bool_decide (c = "010"%char)) eqn:Hc.
    + apply bool_decide_eq_true in Hc as ->. by exists (String "010"%char "").
    + by exists "".
  - destruct IH as (nl & Hnl & Heq). exists nl. split; [done |].
    change (drop_final_newline (String c (String c' s)))
      with (String c (drop_final_newline (String c' s))).
    by rewrite append_cons, <- Heq.
Qed.

Lemma ends_in_digit_split x :
  ends_in_digit x = true ->
  exists p d, x = p +:+ d /\ all_digits d = true /\ d <> "" /\
              ends_in_digit p = false.
Proof.
  induction x as [|c x IH]; [done |]. intros Hx.
  destruct (all_digits (String c x)) eqn:Hall.
  - by exists "", (String c x).
  - destruct x as [|c' x].
    { simpl in *. rewrite Hx in Hall. done. }
    destruct (IH Hx) as (p & d & Heq & Hd & Hne & Hp).
    exists (String c p), d. rewrite append_cons, <- Heq.
    split; [done |]. split; [done |]. split; [done |].
    destruct p as [|c'' p]; [| exact Hp].
    change ("" +:+ d) with d in Heq. subst d.
    cbn [all_digits] in Hall, Hd.
    rewrite Hd, andb_true_r in Hall. exact Hall.
Qed.

(** The rewriting of [href] and [url] in full: where the string is a prefix
    that does not end in a digit, then digits, then nothing or one final
    newline, [re.sub] puts [new] in place of the digits and keeps the rest,
    the newline included. *)
Theorem re_sub_replaces_the_trailing_number (new p d nl : string) :
  all_digits d = true ->
  d <> "" ->
  ends_in_digit p = false ->
  at_end nl = true ->
  re_sub new (VStr (p +:+ d +:+ nl)) = Ok (VStr (p +:+ new +:+ nl)).
Proof.
  intros Hd Hne Hp Hnl. simpl. by rewrite re_sub_digits_end_replaces.
Qed.

(** A string whose last character - the final newline aside - is not a digit
    comes out of the rewriting unchanged: a link without a numeric id at its
    end is silently kept. *)
Theorem re_sub_keeps_a_link_without_number (new s : string) :
  ends_in_digit (drop_final_newline s) = false ->
  re_sub new (VStr s) = Ok (VStr s).
Proof. intros Hs. simpl. by rewrite re_sub_digits_end_unchanged. Qed.

(** Rewriting a link twice with the same number is rewriting it once. *)
Theorem re_sub_twice_is_once (new : string) (v w : value) :
  all_digits new = true ->
  new <> "" ->
  re_sub new v = Ok w ->
  re_sub new w = Ok w.
Proof.
  intros Hnew Hne. destruct v as [| | |s|]; try done. simpl. intros [= <-].
  simpl. do 2 f_equal.
  destruct (ends_in_digit (drop_final_newline s)) eqn:Hs.
  - destruct (drop_final_newline_split s) as (nl & Hnl & Heq).
    destruct (ends_in_digit_split _ Hs) as (p & d & Hx & Hd & Hdne & Hp).
    rewrite Heq, Hx, append_assoc.
    rewrite (re_sub_digits_end_replaces new p d nl) by done.
    by apply re_sub_digits_end_replaces.
  - by rewrite !(re_sub_digits_end_unchanged _ _ Hs).
Qed.

End link_rewriting.

Section ca_edges.
Context `{!collaborators}.
Import EntitiesFactory.

(** The [ca_type] override on an object anywhere in the store. *)
Lemma fill_ca_type_anywhere (f : kwargs) l (o : obj) h d :
  h !! l = Some o ->
  exists h1 d1 (o1 : obj),
    h1 !! l = Some o1 /\
    forall B (k : M B),
      ((if truthy (dict_get f "ca_type")
        then
          v ← lift (dict_index f "ca_type");
          setattr l "ca_type" v;;
          ca_type ← getattr l "ca_type";
          title ← _generate_title ca_type;
          setattr l "title" (VStr title)
        else mret tt) ;; k) (State h d)
      = k (State h1 d1).
Proof.
  intros Hl. destruct (truthy (dict_get f "ca_type")) eqn:Ht.
  - pose proof (lookup_lt_Some _ _ _ Hl) as Hlt.
    set (o' := <["ca_type" := dict_get f "ca_type"]> o).
    destruct (_generate_title_run (dict_get f "ca_type") (<[l := o']> h) d)
      as (sfx & Htitle & _).
    assert ((<[l := o']> h) !! l = Some o') as Hl'
      by (by apply list_lookup_insert_eq).
    eexists _, _, _. split.
    2:{ intros B k. rewrite (dict_index_truthy _ _ Ht).
        erewrite bind_ok; [reflexivity |].
        rewrite (bind_ok _ _ _ _ _ (lift_run _ _)).
        rewrite (bind_ok _ _ _ _ _ (setattr_run _ _ _ _ _ _ Hl)).
        erewrite bind_ok
          by (eapply getattr_run; [exact Hl' | apply lookup_insert_eq]).
        rewrite (bind_ok _ _ _ _ _ Htitle).
        apply (setattr_run _ _ _ _ _ _ Hl'). }
    apply list_lookup_insert_eq. by rewrite length_insert.
  - exists h, d, o. split; [done |]. intros B k.
    by rewrite (bind_ok _ _ _ _ _ (ret_run _ _)).
Qed.

(** [_fill_ca_entity_fields] called with a truthy [title] but without the
    keyword [definition_type] raises a [KeyError]: the title is read from
    [ca_object_fields["definition_type"]]. *)
Theorem fill_title_needs_definition_type_key
    (s : state) (ca_object : loc) (o : obj) (ca_object_fields : kwargs) :
  heap s !! ca_object = Some o ->
  truthy (dict_get ca_object_fields "title") = true ->
  ca_object_fields !! "definition_type" = None ->
  CAFactory._fill_ca_entity_fields ca_object ca_object_fields s = Raise KeyError.
Proof.
  intros Hl Htitle Hdef. destruct s as [h d]. simpl in Hl.
  unfold CAFactory._fill_ca_entity_fields.
  destruct (fill_ca_type_anywhere ca_object_fields ca_object o h d Hl)
    as (h1 & d1 & o1 & Hl1 & ->).
  assert (dict_get ca_object_fields "definition_type" = VNone) as Hget
    by (unfold dict_get; by rewrite Hdef).
  rewrite Hget. cbn [truthy].
  rewrite (bind_ok _ _ _ _ _ (ret_run _ _)).
  rewrite Htitle. apply bind_raise, bind_raise.
  unfold dict_index. by rewrite Hdef.
Qed.

Lemma prefixed_by_kind (kind : value) (token suffix : string) :
  exists rest, py_str kind +:+ "_" +:+ token +:+ "_" +:+ suffix
               = py_str kind +:+ "_" +:+ rest.
Proof. by eexists. Qed.

Lemma fill_ca_type_run_title (f : kwargs) (o : obj) h d :
  exists title1 d1,
    (truthy (dict_get f "ca_type") = true ->
     exists rest, title1 = py_str (dict_get f "ca_type") +:+ "_" +:+ rest) /\
    forall B (k : M B),
      ((if truthy (dict_get f "ca_type")
        then
          v ← lift (dict_index f "ca_type");
          setattr (length h) "ca_type" v;;
          ca_type ← getattr (length h) "ca_type";
          title ← _generate_title ca_type;
          setattr (length h) "title" (VStr title)
        else mret tt) ;; k) (State (h ++ [o]) d)
      = k (State (h ++ [if truthy (dict_get f "ca_type")
                        then <["title" := VStr title1]>
                               (<["ca_type" := dict_get f "ca_type"]> o)
                        else o]) d1).
Proof.
  destruct (truthy (dict_get f "ca_type")) eqn:Ht.
  - destruct (_generate_title_run (dict_get f "ca_type")
                (h ++ [<["ca_type" := dict_get f "ca_type"]> o]) d)
      as (sfx & Htitle & _).
    eexists _, _. split; [intros _; apply prefixed_by_kind |]. intros B k.
    rewrite (dict_index_truthy _ _ Ht).
    erewrite bind_ok; [reflexivity |].
    rewrite (bind_ok _ _ _ _ _ (lift_run _ _)).
    rewrite (bind_ok _ _ _ _ _ (setattr_fresh _ _ _ _ _)).
    erewrite bind_ok by (apply getattr_fresh, lookup_insert_eq).
    rewrite (bind_ok _ _ _ _ _ Htitle).
    apply setattr_fresh.
  - exists "", d. split; [done |]. intros B k.
    by rewrite (bind_ok _ _ _ _ _ (ret_run _ _)).
Qed.

Lemma _fill_ca_entity_fields_run_title (f : kwargs) (o : obj) h d :
  is_Some (o !! "ca_type") ->
  is_Some (f !! "definition_type") ->
  (random_string_size = 0%nat \/ random_string_chars <> "") ->
  exists title1 options d',
    length options = 3%nat /\
    (truthy (dict_get f "ca_type") = true ->
     exists rest, title1 = py_str (dict_get f "ca_type") +:+ "_" +:+ rest) /\
    CAFactory._fill_ca_entity_fields (length h) f (State (h ++ [o]) d)
    = Ok (length h, State (h ++ [fill_ca f title1 options o]) d').
Proof.
  intros Hct Hdef Hrand.
  destruct (fill_ca_type_run_title f o h d) as (title1 & d1 & Hform & Hfirst).
  pose (o1 := if truthy (dict_get f "ca_type")
              then <["title" := VStr title1]> (<["ca_type" := dict_get f "ca_type"]> o)
              else o).
  pose (o2 := set_if (truthy (dict_get f "definition_type"))
                "definition_type" (dict_get f "definition_type") o1).
  pose (o3 := set_if (truthy (dict_get f "title"))
                "title" (dict_get f "definition_type") o2).
  pose (o4 := set_if (truthy (dict_get f "placeholder") &&
                      (py_eq (ca_type_of o3) TEXT || py_eq (ca_type_of o3) RICH_TEXT))
                "placeholder" (dict_get f "placeholder") o3).
  pose (o5 := set_if (truthy (dict_get f "helptext"))
                "helptext" (dict_get f "helptext") o4).
  pose (o6 := set_if (truthy (dict_get f "is_mandatory"))
                "is_mandatory" (dict_get f "is_mandatory") o5).
  pose (o7 := set_if (truthy (dict_get f "ca_global"))
                "ca_global" (dict_get f "ca_global") o6).
  assert (is_Some (o1 !! "ca_type")) as Hct1.
  { unfold o1. destruct (truthy _); [| done].
    rewrite lookup_insert_ne by done. rewrite lookup_insert_eq. eauto. }
  assert (is_Some (o3 !! "ca_type")) as Hct3
    by (unfold o3, o2; by rewrite !set_if_ca_type).
  assert (is_Some (o7 !! "ca_type")) as Hct7
    by (unfold o7, o6, o5, o4; by rewrite !set_if_ca_type).
  destruct (fill_options_run f o7 h d1 Hct7 Hrand) as (options & d' & Hlen & Hlast).
  exists title1, options, d'. split; [done |]. split; [done |].
  etrans; [| exact Hlast].
  unfold CAFactory._fill_ca_entity_fields.
  rewrite Hfirst. change (h ++ [_]) with (h ++ [o1]) at 1.
  erewrite if_run
    by (intros Ht; by apply set_from_dict_run, truthy_is_Some).
  change (h ++ [_]) with (h ++ [o2]) at 1.
  erewrite if_run by (intros Ht; by apply set_from_dict_run).
  change (h ++ [_]) with (h ++ [o3]) at 1.
  rewrite (fill_placeholder_run f o3 h d1 Hct3).
  change (h ++ [_]) with (h ++ [o4]) at 1.
  erewrite if_run
    by (intros Ht; by apply set_from_dict_run, truthy_is_Some).
  change (h ++ [_]) with (h ++ [o5]) at 1.
  erewrite if_run
    by (intros Ht; by apply set_from_dict_run, truthy_is_Some).
  change (h ++ [_]) with (h ++ [o6]) at 1.
  erewrite if_run
    by (intros Ht; by apply set_from_dict_run, truthy_is_Some).
  reflexivity.
Qed.

Lemma _create_random_ca_run_title h d :
  ALL_ATTRS_TYPES <> [] -> ALL_CA_OBJECTS <> [] ->
  exists ct0 title0 dt0 d',
    ct0 ∈ ALL_ATTRS_TYPES /\ dt0 ∈ ALL_CA_OBJECTS /\
    (exists rest, title0 = py_str ct0 +:+ "_" +:+ rest) /\
    CAFactory._create_random_ca (State h d)
    = Ok (length h,
          State (h ++ [<["definition_type" := dt0]>
                         (<["title" := VStr title0]>
                            (<["ca_type" := ct0]>
                               (entity_new CustomAttributeEntity)))]) d').
Proof.
  intros Htypes Hobjs. unfold CAFactory._create_random_ca.
  destruct (random_choice_run ALL_ATTRS_TYPES
              (h ++ [entity_new CustomAttributeEntity]) d Htypes)
    as (ct0 & Hct0 & Hchoice).
  destruct (_generate_title_run ct0
              (h ++ [<["ca_type" := ct0]> (entity_new CustomAttributeEntity)]) (S d))
    as (sfx & Htitle & _).
  edestruct (random_choice_run ALL_CA_OBJECTS) as (dt0 & Hdt0 & Hchoice'); [done |].
  exists ct0. eexists _, dt0, _. split; [done |]. split; [done |].
  split; [apply prefixed_by_kind |].
  rewrite (bind_ok _ _ _ _ _ (new_object_run _ _ _)).
  rewrite (bind_ok _ _ _ _ _ Hchoice).
  rewrite (bind_ok _ _ _ _ _ (setattr_fresh _ _ _ _ _)).
  erewrite bind_ok by (apply getattr_fresh, lookup_insert_eq).
  rewrite (bind_ok _ _ _ _ _ Htitle).
  rewrite (bind_ok _ _ _ _ _ (setattr_fresh _ _ _ _ _)).
  rewrite (bind_ok _ _ _ _ _ Hchoice').
  by rewrite (bind_ok _ _ _ _ _ (setattr_fresh _ _ _ _ _)).
Qed.

End ca_edges.

Section ca_more_claims.
Context `{!collaborators}.
Import EntitiesFactory.

Lemma fill_ca_flags (f : kwargs) title1 options (o : obj) name :
  name ∈ ["helptext"; "is_mandatory"; "ca_global"] ->
  fill_ca f title1 options o !! name
  = if truthy (dict_get f name) then Some (dict_get f name) else o !! name.
Proof.
  intros Hname. unfold fill_ca. cbv zeta.
  set (o1 := if truthy (dict_get f "ca_type") then _ else o).
  assert (o1 !! name = o !! name) as Ho1.
  { subst o1. destruct (truthy (dict_get f "ca_type")); [| done].
    rewrite !lookup_insert_ne; [done | |]; intros <-; by compute in Hname;
      repeat (apply elem_of_cons in Hname as [? | Hname]; [done |]);
      apply elem_of_nil in Hname. }
  clearbody o1.
  repeat (apply elem_of_cons in Hname as [-> | Hname]);
    [| | | by apply elem_of_nil in Hname].
  - rewrite !set_if_lookup_ne, set_if_lookup_eq, !set_if_lookup_ne by done.
    by rewrite Ho1.
  - rewrite !set_if_lookup_ne, set_if_lookup_eq, !set_if_lookup_ne by done.
    by rewrite Ho1.
  - rewrite !set_if_lookup_ne, set_if_lookup_eq, !set_if_lookup_ne by done.
    by rewrite Ho1.
Qed.

(** [CAFactory.create] step by step: the random entity, the fields filled
    in, the definition type normalized. *)
Lemma ca_create_structure
    (title ca_type definition_type helptext placeholder multi_choice_options
       is_mandatory ca_global : value) (s : state) :
  ALL_ATTRS_TYPES <> [] ->
  ALL_CA_OBJECTS <> [] ->
  (random_string_size = 0%nat \/ random_string_chars <> "") ->
  let f := ca_fields title ca_type definition_type helptext placeholder
             multi_choice_options is_mandatory ca_global in
  exists ct0 title0 dt0 title1 options d1,
    let o0 := <["definition_type" := dt0]> (<["title" := VStr title0]>
                (<["ca_type" := ct0]> (entity_new CustomAttributeEntity))) in
    let filled := fill_ca f title1 options o0 in
    ct0 ∈ ALL_ATTRS_TYPES /\ dt0 ∈ ALL_CA_OBJECTS /\
    length options = 3%nat /\
    (exists rest, title0 = py_str ct0 +:+ "_" +:+ rest) /\
    (truthy ca_type = true ->
     exists rest, title1 = py_str ca_type +:+ "_" +:+ rest) /\
    filled !! "definition_type"
      = Some (if truthy definition_type then definition_type else dt0) /\
    CAFactory.create title ca_type definition_type helptext placeholder
      multi_choice_options is_mandatory ca_global s
    = (ca_entity ← CAFactory._normalize_ca_definition_type (length (heap s));
       mret ca_entity) (State (heap s ++ [filled]) d1).
Proof.
  intros Htypes Hobjs Hrand f. destruct s as [h d].
  destruct (_create_random_ca_run_title h d Htypes Hobjs)
    as (ct0 & title0 & dt0 & d0 & Hct0 & Hdt0 & Hform0 & Hrandom).
  set (o0 := <["definition_type" := dt0]> (<["title" := VStr title0]>
               (<["ca_type" := ct0]> (entity_new CustomAttributeEntity)))) in *.
  assert (o0 !! "ca_type" = Some ct0) as Hl0.
  { subst o0. rewrite !lookup_insert_ne by done. apply lookup_insert_eq. }
  assert (forall key v, assoc key
            [("title", title); ("ca_type", ca_type);
             ("definition_type", definition_type); ("helptext", helptext);
             ("placeholder", placeholder);
             ("multi_choice_options", multi_choice_options);
             ("is_mandatory", is_mandatory); ("ca_global", ca_global)] = Some v ->
          dict_get f key = v) as Hget.
  { intros key v Hv. subst f. unfold ca_fields. by rewrite dict_get_kw, Hv. }
  assert (is_Some (f !! "definition_type")) as Hfdef.
  { subst f. unfold ca_fields. rewrite kw_lookup. simpl. eauto. }
  destruct (_fill_ca_entity_fields_run_title f o0 h d0 (mk_is_Some _ _ Hl0) Hfdef Hrand)
    as (title1 & options & d1 & Hlen & Hform1 & Hfill).
  rewrite (Hget "ca_type" ca_type eq_refl) in Hform1.
  destruct (fill_ca_fields f title1 options o0 (mk_is_Some _ _ Hl0))
    as (_ & Hf_def & _).
  rewrite (Hget "definition_type" definition_type eq_refl) in Hf_def.
  exists ct0, title0, dt0, title1, options, d1. cbv zeta.
  split; [done |]. split; [done |]. split; [done |]. split; [done |].
  split; [done |]. split.
  { etrans; [exact Hf_def |]. destruct (truthy definition_type); [done |].
    subst o0. by rewrite lookup_insert_eq. }
  unfold CAFactory.create. fold f.
  by rewrite (bind_ok _ _ _ _ _ Hrandom), (bind_ok _ _ _ _ _ Hfill).
Qed.

(** [CAFactory.create]: [helptext], [is_mandatory] and [ca_global] are
    applied when truthy; a falsy value - the defaults [""] and [False], but
    also an explicit [ca_global=False] - leaves the attribute as a fresh
    instance has it. *)
Theorem ca_flags_are_applied_when_truthy
    (title ca_type definition_type helptext placeholder multi_choice_options
       is_mandatory ca_global : value) (s : state) :
  ca_collaborators_ok ->
  (truthy definition_type = true -> normalizes definition_type) ->
  exists (e : loc) (o : obj) (s' : state),
    CAFactory.create title ca_type definition_type helptext placeholder
      multi_choice_options is_mandatory ca_global s = Ok (e, s') /\
    heap s' !! e = Some o /\
    o !! "helptext"
      = (if truthy helptext then Some helptext
         else entity_new CustomAttributeEntity !! "helptext") /\
    o !! "is_mandatory"
      = (if truthy is_mandatory then Some is_mandatory
         else entity_new CustomAttributeEntity !! "is_mandatory") /\
    o !! "ca_global"
      = (if truthy ca_global then Some ca_global
         else entity_new CustomAttributeEntity !! "ca_global").
Proof.
  intros (Htypes & Hobjs & Hnormal & Hrand) Hdef.
  destruct (ca_create_structure title ca_type definition_type helptext
              placeholder multi_choice_options is_mandatory ca_global s
              Htypes Hobjs Hrand)
    as (ct0 & title0 & dt0 & title1 & options & d1 & Hct0 & Hdt0 & _ & _ & _
        & Hdv & Hrun).
  assert (exists dtn,
    get_normal_form (if truthy definition_type then definition_type else dt0) None
    = Ok dtn) as [dtn Hdtn].
  { destruct (truthy definition_type); [by apply Hdef |].
    rewrite Forall_forall in Hnormal. by apply Hnormal. }
  eexists _, _, _. split.
  { rewrite Hrun.
    by rewrite (bind_ok _ _ _ _ _
                  (_normalize_ca_definition_type_run _ _ _ _ _ Hdv Hdtn)). }
  simpl. split; [apply lookup_fresh |].
  rewrite !lookup_insert_ne by done.
  rewrite !fill_ca_flags by compute_done.
  unfold ca_fields. rewrite !dict_get_kw. simpl.
  by rewrite !lookup_insert_ne by done.
Qed.

(** [CAFactory.create]: the returned entity's [definition_type] is the
    normal form of the override when that is truthy, and otherwise the
    normal form of one of [ALL_CA_OBJECTS]. *)
Theorem ca_definition_type_is_normalized
    (title ca_type definition_type helptext placeholder multi_choice_options
       is_mandatory ca_global : value) (s : state) :
  ca_collaborators_ok ->
  (truthy definition_type = true -> normalizes definition_type) ->
  exists (e : loc) (o : obj) (s' : state) (chosen normal : value),
    CAFactory.create title ca_type definition_type helptext placeholder
      multi_choice_options is_mandatory ca_global s = Ok (e, s') /\
    heap s' !! e = Some o /\
    (if truthy definition_type then chosen = definition_type
     else chosen ∈ ALL_CA_OBJECTS) /\
    get_normal_form chosen None = Ok normal /\
    o !! "definition_type" = Some normal.
Proof.
  intros (Htypes & Hobjs & Hnormal & Hrand) Hdef.
  destruct (ca_create_structure title ca_type definition_type helptext
              placeholder multi_choice_options is_mandatory ca_global s
              Htypes Hobjs Hrand)
    as (ct0 & title0 & dt0 & title1 & options & d1 & Hct0 & Hdt0 & _ & _ & _
        & Hdv & Hrun).
  assert (exists dtn,
    get_normal_form (if truthy definition_type then definition_type else dt0) None
    = Ok dtn) as [dtn Hdtn].
  { destruct (truthy definition_type); [by apply Hdef |].
    rewrite Forall_forall in Hnormal. by apply Hnormal. }
  eexists _, _, _, (if truthy definition_type then definition_type else dt0), dtn.
  split.
  { rewrite Hrun.
    by rewrite (bind_ok _ _ _ _ _
                  (_normalize_ca_definition_type_run _ _ _ _ _ Hdv Hdtn)). }
  simpl. split; [apply lookup_fresh |].
  split; [by destruct (truthy definition_type) |].
  split; [done |]. apply lookup_insert_eq.
Qed.

(** [CAFactory.create] raises what [get_normal_form] raises on a truthy
    [definition_type] override it cannot normalize - after the entity has
    been built. *)
Theorem ca_normal_form_failure_propagates
    (title ca_type definition_type helptext placeholder multi_choice_options
       is_mandatory ca_global : value) (s : state) (e : exn) :
  ALL_ATTRS_TYPES <> [] ->
  ALL_CA_OBJECTS <> [] ->
  (random_string_size = 0%nat \/ random_string_chars <> "") ->
  truthy definition_type = true ->
  get_normal_form definition_type None = Raise e ->
  CAFactory.create title ca_type definition_type helptext placeholder
    multi_choice_options is_mandatory ca_global s = Raise e.
Proof.
  intros Htypes Hobjs Hrand Htruthy Hraise.
  destruct (ca_create_structure title ca_type definition_type helptext
              placeholder multi_choice_options is_mandatory ca_global s
              Htypes Hobjs Hrand)
    as (ct0 & title0 & dt0 & title1 & options & d1 & _ & _ & _ & _ & _
        & Hdv & Hrun).
  rewrite Hrun, Htruthy in *. apply bind_raise.
  unfold CAFactory._normalize_ca_definition_type.
  erewrite bind_ok by (by apply getattr_fresh).
  apply bind_raise. by rewrite Hraise.
Qed.

(** [CAFactory.create] without a truthy [title] override: the title is
    generated from the kind the entity ends up with - the [ca_type] override,
    or the kind chosen at random - and starts with it. *)
Theorem ca_generated_title_starts_with_kind
    (title ca_type definition_type helptext placeholder multi_choice_options
       is_mandatory ca_global : value) (s : state) :
  ca_collaborators_ok ->
  (truthy definition_type = true -> normalizes definition_type) ->
  truthy title = false ->
  exists (e : loc) (o : obj) (s' : state) (ct : value) (rest : string),
    CAFactory.create title ca_type definition_type helptext placeholder
      multi_choice_options is_mandatory ca_global s = Ok (e, s') /\
    heap s' !! e = Some o /\
    o !! "ca_type" = Some ct /\
    o !! "title" = Some (VStr (py_str ct +:+ "_" +:+ rest)).
Proof.
  intros (Htypes & Hobjs & Hnormal & Hrand) Hdef Htitle.
  destruct (ca_create_structure title ca_type definition_type helptext
              placeholder multi_choice_options is_mandatory ca_global s
              Htypes Hobjs Hrand)
    as (ct0 & title0 & dt0 & title1 & options & d1 & Hct0 & Hdt0 & _
        & [rest0 Hform0] & Hform1 & Hdv & Hrun).
  assert (exists dtn,
    get_normal_form (if truthy definition_type then definition_type else dt0) None
    = Ok dtn) as [dtn Hdtn].
  { destruct (truthy definition_type); [by apply Hdef |].
    rewrite Forall_forall in Hnormal. by apply Hnormal. }
  set (o0 := <["definition_type" := dt0]> (<["title" := VStr title0]>
               (<["ca_type" := ct0]> (entity_new CustomAttributeEntity)))) in *.
  assert (o0 !! "ca_type" = Some ct0) as Hl0.
  { subst o0. rewrite !lookup_insert_ne by done. apply lookup_insert_eq. }
  set (f := ca_fields title ca_type definition_type helptext placeholder
              multi_choice_options is_mandatory ca_global) in *.
  destruct (fill_ca_fields f title1 options o0 (mk_is_Some _ _ Hl0))
    as (Hf_ct & _ & Hf_title & _).
  assert (dict_get f "ca_type" = ca_type) as Hget_kind
    by (subst f; unfold ca_fields; by rewrite dict_get_kw).
  assert (dict_get f "title" = title) as Hget_title
    by (subst f; unfold ca_fields; by rewrite dict_get_kw).
  unfold effective_ca_type, ca_type_of in Hf_ct.
  rewrite Hget_kind, Hl0 in Hf_ct. simpl in Hf_ct.
  rewrite Hget_kind, Hget_title, Htitle in Hf_title.
  assert (exists rest,
    (if truthy ca_type then Some (VStr title1) else o0 !! "title")
    = Some (VStr (py_str (if truthy ca_type then ca_type else ct0)
                  +:+ "_" +:+ rest))) as [rest Hrest].
  { destruct (truthy ca_type).
    - destruct (Hform1 eq_refl) as [rest1 ->]. by exists rest1.
    - exists rest0. subst o0. rewrite lookup_insert_ne by done.
      by rewrite lookup_insert_eq, Hform0. }
  eexists _, _, _, (if truthy ca_type then ca_type else ct0), rest.
  split.
  { rewrite Hrun.
    by rewrite (bind_ok _ _ _ _ _
                  (_normalize_ca_definition_type_run _ _ _ _ _ Hdv Hdtn)). }
  simpl. split; [apply lookup_fresh |].
  rewrite !lookup_insert_ne by done. split; [exact Hf_ct |].
  by rewrite Hf_title.
Qed.

(** [CAFactory.create] of a Dropdown with a truthy [multi_choice_options]
    override keeps the list given, and generates nothing in its place. *)
Theorem ca_dropdown_keeps_given_options
    (title ca_type definition_type helptext placeholder multi_choice_options
       is_mandatory ca_global : value) (s : state) :
  ca_collaborators_ok ->
  (truthy definition_type = true -> normalizes definition_type) ->
  truthy multi_choice_options = true ->
  exists (e : loc) (o : obj) (s' : state) (ct : value),
    CAFactory.create title ca_type definition_type helptext placeholder
      multi_choice_options is_mandatory ca_global s = Ok (e, s') /\
    heap s' !! e = Some o /\
    o !! "ca_type" = Some ct /\
    (py_eq ct DROPDOWN = true ->
       o !! "multi_choice_options" = Some multi_choice_options).
Proof.
  intros Hok Hdef Hgiven.
  destruct (ca_create_returns title ca_type definition_type helptext placeholder
              multi_choice_options is_mandatory ca_global s Hok Hdef)
    as (o & s' & ct & gt & options & Hrun & Hheap & _ & _ & Hkind & _ & _ & Hmco).
  exists (length (heap s)), o, s', ct. split; [done |].
  split; [rewrite Hheap; apply lookup_fresh |]. split; [done |].
  intros Hdrop. rewrite Hmco, Hdrop, Hgiven.
  by destruct multi_choice_options.
Qed.

End ca_more_claims.

(** * The further properties on the concrete collaborators *)

Section more_examples.
Import EntitiesFactory.

Lemma update_obj_attrs_values_twice_witness :
  exists s1 : state,
    update_obj_attrs_values 0%nat demo_attrs_names
      (kw [("title", VStr "Renamed"); ("id", VInt 0)]) demo_state = Ok (0%nat, s1) /\
    update_obj_attrs_values 0%nat demo_attrs_names
      (kw [("title", VStr "Renamed"); ("id", VInt 0)]) s1 = Ok (0%nat, s1).
Proof.
  apply (update_obj_attrs_values_twice demo_state 0%nat demo_audit). reflexivity.
Defined.

Lemma update_obj_attrs_values_names_as_set_witness :
  update_obj_attrs_values 0%nat ["title"; "id"]
    (kw [("title", VStr "Renamed"); ("id", VInt 7)]) demo_state
  = update_obj_attrs_values 0%nat ["id"; "title"; "id"]
      (kw [("title", VStr "Renamed"); ("id", VInt 7)]) demo_state.
Proof.
  apply (update_obj_attrs_values_names_as_set demo_state 0%nat demo_audit).
  - reflexivity.
  - intros k. rewrite !elem_of_cons, !elem_of_nil. tauto.
Defined.

Lemma demo_program_overrides_ok :
  dom (kw [("title", VStr "Payroll"); ("state", VStr ""); ("id", VInt 0)])
    ⊆ list_to_set (@create_params Program).
Proof. compute_done. Defined.

Lemma create_truthy_override_wins_witness :
  exists (e : loc) (o : obj) (s' : state),
    @create_call demo Program
      (kw [("title", VStr "Payroll"); ("state", VStr ""); ("id", VInt 0)])
      demo_state = Ok (e, s') /\
    heap s' !! e = Some o /\
    o !! "title" = Some (VStr "Payroll").
Proof.
  destruct (@create_truthy_override_wins demo Program
              (kw [("title", VStr "Payroll"); ("state", VStr ""); ("id", VInt 0)])
              demo_state demo_program_overrides_ok)
    as (e & o & s' & Hrun & _ & Hheap & Hwins).
  exists e, o, s'. split; [exact Hrun |]. split; [exact Hheap |].
  apply Hwins; [reflexivity | reflexivity | compute_done].
Defined.

Lemma create_falsy_override_keeps_default_witness :
  exists (e : loc) (o : obj) (s' : state),
    @create_call demo Program
      (kw [("title", VStr "Payroll"); ("state", VStr ""); ("id", VInt 0)])
      demo_state = Ok (e, s') /\
    heap s' !! e = Some o /\
    o !! "state" = Some (VStr "Draft") /\
    o !! "manager" = Some (VStr "Example User") /\
    o !! "id" = Some VNone.
Proof.
  destruct (@create_falsy_override_keeps_default demo Program
              (kw [("title", VStr "Payroll"); ("state", VStr ""); ("id", VInt 0)])
              demo_state demo_program_overrides_ok)
    as (e & o & s' & Hrun & _ & Hheap & Hpred & Hfresh).
  exists e, o, s'. split; [exact Hrun |]. split; [exact Hheap |].
  split; [apply Hpred; [simpl; repeat constructor | reflexivity] |].
  split; [apply Hpred; [simpl; repeat constructor | reflexivity] |].
  rewrite Hfresh; [reflexivity | compute_done | reflexivity].
Defined.

Lemma create_title_is_never_empty_witness :
  exists (e : loc) (o : obj) (s' : state) (title : value),
    @create_call demo Issue (kw [("title", VStr "")]) demo_state = Ok (e, s') /\
    heap s' !! e = Some o /\
    o !! "title" = Some title /\
    truthy title = true.
Proof.
  apply (@create_title_is_never_empty demo Issue). compute_done.
Defined.

Lemma default_person_is_the_default_user_witness :
  exists (e : loc) (o : obj) (s' : state),
    @PersonsFactory.default demo demo_state = Ok (e, s') /\
    heap s' = heap demo_state ++ [o] /\
    heap s' !! e = Some o /\
    o !! "title" = Some (VStr "Example User") /\
    o !! "id" = Some (VInt 1) /\
    o !! "href" = Some (VStr "/api/people/1") /\
    o !! "email" = Some (VStr "user@example.com") /\
    o !! "authorizations" = Some (VStr "Superuser") /\
    o !! "type" = Some (VStr "person").
Proof.
  apply (@default_person_is_the_default_user demo demo_state);
    [unfold allows; compute_done | reflexivity..].
Defined.

Lemma clone_of_nothing_witness :
  @AuditsFactory.clone demo 0%nat 0 demo_state = Ok (Some [], demo_state) /\
  @AssessmentTemplatesFactory.clone demo 0%nat 0 demo_state
    = Ok (Some [], demo_state).
Proof.
  apply (@clone_of_nothing demo demo_state 0%nat demo_audit 5 0);
    [reflexivity | reflexivity | reflexivity | reflexivity | lia].
Defined.

Lemma clone_needs_a_string_href_witness :
  @AuditsFactory.clone demo 0%nat 1 demo_unlinked_state = Raise TypeError /\
  @AssessmentTemplatesFactory.clone demo 0%nat 1 demo_unlinked_state
    = Raise TypeError.
Proof.
  apply (@clone_needs_a_string_href demo demo_unlinked_state 0%nat
           demo_unlinked_audit 5 1 "Audit C" VNone);
    [reflexivity | reflexivity | reflexivity | reflexivity
    | intros x; discriminate | reflexivity | reflexivity | lia].
Defined.

Lemma count_service_failure_propagates_witness :
  @AuditsFactory.clone demo_offline 0%nat 2 demo_state = Raise ServiceError /\
  @AssessmentTemplatesFactory.clone demo_offline 0%nat 2 demo_state
    = Raise ServiceError /\
  @AssessmentsFactory.generate demo_offline [] 0%nat demo_state
    = Raise ServiceError.
Proof.
  apply (@count_service_failure_propagates demo_offline); reflexivity.
Defined.

Lemma clone_ids_and_codes_are_distinct_witness :
  (exists clones s',
     @AuditsFactory.clone demo 0%nat 3 demo_state = Ok (Some clones, s') /\
     pairwise_distinct_attr s' clones "id" /\
     pairwise_distinct_attr s' clones "code") /\
  (exists clones s',
     @AssessmentTemplatesFactory.clone demo 0%nat 3 demo_state
       = Ok (Some clones, s') /\
     pairwise_distinct_attr s' clones "id" /\
     pairwise_distinct_attr s' clones "code").
Proof.
  apply (@clone_ids_and_codes_are_distinct demo demo_state 0%nat demo_audit 5
           "Audit A" "/api/audits/5" "/audits/5" 3);
    [reflexivity | reflexivity | reflexivity | reflexivity | reflexivity
    | lia | unfold allows; compute_done | reflexivity | reflexivity].
Defined.

Lemma generate_of_nothing_witness :
  @AssessmentsFactory.generate demo [] 0%nat demo_state = Ok ([], demo_state).
Proof. apply (@generate_of_nothing demo demo_state 0%nat 5). reflexivity. Defined.

Lemma generate_with_empty_audit_title_witness :
  exists (asmts : list loc) (s' : state),
    @AssessmentsFactory.generate demo [1%nat] 0%nat demo_untitled_state
      = Ok (asmts, s') /\
    length asmts = 1%nat /\
    forall i l c t,
      asmts !! i = Some l -> heap s' !! l = Some c -> ["a"] !! i = Some t ->
      c !! "audit" = Some VNone /\
      c !! "title" = Some (VStr (t +:+ " assessment for ")).
Proof.
  apply (@generate_with_empty_audit_title demo demo_untitled_state [1%nat] ["a"]
           0%nat demo_untitled_audit 5).
  - repeat constructor; eexists; split; reflexivity.
  - reflexivity.
  - reflexivity.
  - unfold allows. compute_done.
  - reflexivity.
Defined.

Lemma generate_keeps_predictable_values_witness :
  exists (asmts : list loc) (s' : state),
    @AssessmentsFactory.generate demo [2%nat; 3%nat] 0%nat demo_state
      = Ok (asmts, s') /\
    length asmts = 2%nat /\
    forall l c k v,
      l ∈ asmts -> heap s' !! l = Some c ->
      (k, v) ∈ @predictable_values demo Assessment ->
      c !! k = Some v.
Proof.
  apply (@generate_keeps_predictable_values demo demo_state [2%nat; 3%nat]
           ["a"; "b"] 0%nat demo_audit "Audit A" 5).
  - repeat constructor; eexists; split; reflexivity.
  - reflexivity.
  - reflexivity.
  - reflexivity.
Defined.

Lemma generate_codes_are_distinct_witness :
  exists (asmts : list loc) (s' : state),
    @AssessmentsFactory.generate demo [2%nat; 3%nat] 0%nat demo_state
      = Ok (asmts, s') /\
    pairwise_distinct_attr s' asmts "code".
Proof.
  apply (@generate_codes_are_distinct demo demo_state [2%nat; 3%nat]
           ["a"; "b"] 0%nat demo_audit "Audit A" 5).
  - repeat constructor; eexists; split; reflexivity.
  - reflexivity.
  - reflexivity.
  - unfold allows. compute_done.
  - reflexivity.
Defined.

Lemma re_sub_replaces_the_trailing_number_witness :
  re_sub "13" (VStr ("/api/audits/" +:+ "12" +:+ String "010"%char ""))
  = Ok (VStr ("/api/audits/" +:+ "13" +:+ String "010"%char "")).
Proof.
  apply (re_sub_replaces_the_trailing_number "13" "/api/audits/" "12"
           (String "010"%char "")); [reflexivity | discriminate | reflexivity..].
Defined.

Lemma re_sub_keeps_a_link_without_number_witness :
  re_sub "13" (VStr "/api/audits/") = Ok (VStr "/api/audits/").
Proof. apply re_sub_keeps_a_link_without_number. reflexivity. Defined.

Lemma re_sub_twice_is_once_witness :
  re_sub "13" (VStr "/api/audits/13") = Ok (VStr "/api/audits/13").
Proof.
  apply (re_sub_twice_is_once "13" (VStr "/api/audits/5"));
    [reflexivity | discriminate | reflexivity].
Defined.

Lemma fill_title_needs_definition_type_key_witness :
  @CAFactory._fill_ca_entity_fields demo 0%nat
    (kw [("title", VStr "My attribute")]) demo_state = Raise KeyError.
Proof.
  apply (@fill_title_needs_definition_type_key demo demo_state 0%nat demo_audit);
    reflexivity.
Defined.

Lemma ca_flags_are_applied_when_truthy_witness :
  exists (e : loc) (o : obj) (s' : state),
    @CAFactory.create demo VNone (VStr "Text") VNone (VStr "help") VNone VNone
      (VBool true) (VBool false) demo_state = Ok (e, s') /\
    heap s' !! e = Some o /\
    o !! "helptext" = Some (VStr "help") /\
    o !! "is_mandatory" = Some (VBool true) /\
    o !! "ca_global" = Some VNone.
Proof.
  apply (@ca_flags_are_applied_when_truthy demo VNone (VStr "Text") VNone
           (VStr "help") VNone VNone (VBool true) (VBool false) demo_state).
  - apply demo_ca_collaborators_ok.
  - discriminate.
Defined.

Lemma ca_definition_type_is_normalized_witness :
  exists (e : loc) (o : obj) (s' : state),
    @CAFactory.create demo VNone VNone (VStr "assessment_templates") (VStr "")
      VNone VNone (VBool false) (VBool true) demo_state = Ok (e, s') /\
    heap s' !! e = Some o /\
    o !! "definition_type" = Some (VStr "Assessment Templates").
Proof.
  destruct (@ca_definition_type_is_normalized demo VNone VNone
              (VStr "assessment_templates") (VStr "") VNone VNone (VBool false)
              (VBool true) demo_state demo_ca_collaborators_ok)
    as (e & o & s' & chosen & normal & Hrun & Hheap & Hchosen & Hnormal & Hdef).
  { intros _. eexists. reflexivity. }
  simpl in Hchosen. subst chosen. injection Hnormal as <-.
  exists e, o, s'. split; [exact Hrun |]. split; [exact Hheap | exact Hdef].
Defined.

Lemma ca_normal_form_failure_propagates_witness :
  @CAFactory.create demo VNone VNone (VInt 5) (VStr "") VNone VNone
    (VBool false) (VBool true) demo_state = Raise AttributeError.
Proof.
  apply (@ca_normal_form_failure_propagates demo);
    [discriminate | discriminate | by right | reflexivity | reflexivity].
Defined.

Lemma ca_generated_title_starts_with_kind_witness :
  exists (e : loc) (o : obj) (s' : state) (ct : value) (rest : string),
    @CAFactory.create demo VNone (VStr "Checkbox") VNone (VStr "") VNone VNone
      (VBool false) (VBool true) demo_state = Ok (e, s') /\
    heap s' !! e = Some o /\
    o !! "ca_type" = Some ct /\
    o !! "title" = Some (VStr (@py_str demo ct +:+ "_" +:+ rest)).
Proof.
  apply (@ca_generated_title_starts_with_kind demo VNone (VStr "Checkbox")
           VNone (VStr "") VNone VNone (VBool false) (VBool true) demo_state).
  - apply demo_ca_collaborators_ok.
  - discriminate.
  - reflexivity.
Defined.

Lemma ca_dropdown_keeps_given_options_witness :
  exists (e : loc) (o : obj) (s' : state) (ct : value),
    @CAFactory.create demo VNone (VStr "Dropdown") VNone (VStr "") VNone
      (VList [VStr "red"; VStr "green"]) (VBool false) (VBool true) demo_state
      = Ok (e, s') /\
    heap s' !! e = Some o /\
    o !! "ca_type" = Some ct /\
    (@py_eq ct (VStr "Dropdown") = true ->
       o !! "multi_choice_options" = Some (VList [VStr "red"; VStr "green"])).
Proof.
  apply (@ca_dropdown_keeps_given_options demo VNone (VStr "Dropdown") VNone
           (VStr "") VNone (VList [VStr "red"; VStr "green"]) (VBool false)
           (VBool true) demo_state).
  - apply demo_ca_collaborators_ok.
  - discriminate.
  - reflexivity.
Defined.

End more_examples.
